(** * maplibre-handle-lib: handles, selection and tools over a MapLibre map

    A shallow embedding of the interaction core of the library
    (HandleManager, SelectionManager, BaseTool, ToolManager, SelectionTool)
    and the properties its specification states about it.

    Conventions of the embedding.
    - A JavaScript [number] is a binary64 float: Rocq's primitive [float].
    - A JavaScript [Map] is an association list in insertion order
      ([JSMap]); a [Set] of listeners is a duplicate-free list in insertion
      order ([JSSet]).
    - A listener is a function object; only its identity matters to the
      managers, so it is a number, and what a manager does with it (calling
      it with an event) is recorded in a delivery log carried by the state.
      What a listener does when called is client code and is not part of
      the embedding: a listener is taken not to call back into the manager
      that is calling it.
    - [Math.random().toString(36).substring(2, 9)] is an input of the
      operation that draws it.
    - The map (sources, layers, images, DOM events) is an external
      collaborator: of what the managers push to it, only the data of their
      own source is kept; the drawing of the handle images, the hover
      handlers and the [destroy] methods of the managers are left out. *)

From Stdlib Require Import List String Bool Arith ZArith Lia Floats Uint63.
Import ListNotations.

Set Implicit Arguments.
Set Warnings "-inexact-float".

(** ** JavaScript containers *)

Module JSMap.
Section Defs.
Variables K V : Type.
Variable eqb : K -> K -> bool.

Definition t := list (K * V).

Definition empty : t := [].

Fixpoint get (m : t) (k : K) : option V :=
    match m with
    | [] => None
    | (k', v) :: r => if eqb k' k then Some v else get r k
    end.

Definition has (m : t) (k : K) : bool :=
    match get m k with Some _ => true | None => false end.

  (** [Map.prototype.set]: an existing key keeps its place in the iteration
      order, a new key goes last. *)
Fixpoint set (m : t) (k : K) (v : V) : t :=
    match m with
    | [] => [(k, v)]
    | (k', v') :: r =>
        if eqb k' k then (k', v) :: r else (k', v') :: set r k v
    end.

Fixpoint delete (m : t) (k : K) : t :=
    match m with
    | [] => []
    | (k', v') :: r => if eqb k' k then r else (k', v') :: delete r k
    end.

Definition values (m : t) : list V := map snd m.

Definition keys (m : t) : list K := map fst m.

Definition size (m : t) : nat := List.length m.

  (** [m.forEach(v => { ...mutate v... })] on a map of objects. *)
Definition forEach_mutate (f : V -> V) (m : t) : t :=
    map (fun kv => (fst kv, f (snd kv))) m.
End Defs.
End JSMap.

Module JSSet.
Section Defs.
Variable A : Type.
Variable eqb : A -> A -> bool.

Definition t := list A.

Definition add (s : t) (a : A) : t :=
    if existsb (eqb a) s then s else s ++ [a].

Definition delete (s : t) (a : A) : t :=
    filter (fun b => negb (eqb a b)) s.
End Defs.
End JSSet.

(** A listener function, by identity. *)
Definition Listener := nat.

(** ** JavaScript numbers *)

Module JS.

(** An integer of magnitude at most 2^53 as a float (exact). *)
Definition ofZ (n : Z) : float :=
  match n with
  | Z0 => 0%float
  | Zpos _ => PrimFloat.of_uint63 (Uint63.of_Z n)
  | Zneg q => (- PrimFloat.of_uint63 (Uint63.of_Z (Zpos q)))%float
  end.

(** [Math.round]: NaN, the infinities, the zeros and the integral numbers are
    returned as they are; any other [x] goes to the integer nearest to it,
    a tie going towards +infinity, which is [floor (x + 1/2)] computed
    exactly; a result of zero keeps the sign of [x].  A finite float is
    [(-1)^s * m * 2^e]; with [e < 0] its magnitude is below 2^53. *)
Definition Math_round (v : float) : float :=
  match Prim2SF v with
  | S754_finite s m e =>
      if (0 <=? e)%Z then v
      else
        let d := Z.pow 2 (- e) in
        let sm := if s then Zneg m else Zpos m in
        let n := Z.div (2 * sm + d) (2 * d) in
        if (n =? 0)%Z then (if s then neg_zero else 0%float) else ofZ n
  | _ => v
  end.

(** Truthiness of an optional boolean property ([undefined] is falsy). *)
Definition truthy (b : option bool) : bool :=
  match b with Some true => true | _ => false end.

End JS.

(** ** SelectionManager (src/lib/selection) *)

Module SelectionManager.

(** [Bbox = [minX, minY, maxX, maxY]]. *)
Record Bbox := { minX : float; minY : float; maxX : float; maxY : float }.

Inductive GeometryType :=
| Point | MultiPoint | LineString | MultiLineString
| Polygon | MultiPolygon | GeometryCollection.

Record Geometry := {
  gtype : GeometryType;
  coordinates : list (list (list (float * float)))
}.

(** A GeoJSON feature. [fid] is [feature.id?.toString()]: [None] when the
    feature has no id.  The [properties] bag is not read by the manager's
    selection logic and is left out. *)
Record Feature := {
  fid : option string;
  geometry : Geometry
}.

Record SelectedFeature := {
  id : string;
  feature : Feature;
  sourceId : string;
  layerId : string;
  selected : bool;
  isCurrentSelection : bool
}.

Record SelectionBounds := {
  bbox : Bbox;
  center : float * float;
  area : float;
  perimeter : float
}.

Inductive SelectionEventType := select_ev | deselect_ev | clear_ev | change_ev.

Definition SelectionEventType_eqb (a b : SelectionEventType) : bool :=
  match a, b with
  | select_ev, select_ev | deselect_ev, deselect_ev
  | clear_ev, clear_ev | change_ev, change_ev => true
  | _, _ => false
  end.

(** The event payload; its [map] field is the manager's constant map handle
    and is left out. *)
Record SelectionEvent := {
  type : SelectionEventType;
  ev_selected : list SelectedFeature;
  ev_bounds : option SelectionBounds
}.

(** What [getSelectionAsFeatureCollection] hands to the map source. *)
Inductive RenderedFeature :=
| RenderedSelection (f : Feature) (sel cur : bool) (selectionId : string)
| RenderedBoundingBox (b : Bbox).

Record State := {
  selectedFeatures : JSMap.t string SelectedFeature;
  eventListeners : JSMap.t SelectionEventType (JSSet.t Listener);
  selectionBounds : option SelectionBounds;
  (** data last pushed to the selection source of the map *)
  sourceData : list RenderedFeature;
  (** listener calls made so far, oldest first *)
  delivered : list (Listener * SelectionEvent)
}.

(** The state a constructor leaves behind: nothing selected, no listener,
    no bounds, an empty feature collection in the source. *)
Definition init : State :=
  {| selectedFeatures := JSMap.empty _ _;
     eventListeners := JSMap.empty _ _;
     selectionBounds := None;
     sourceData := [];
     delivered := [] |}.

Definition getSelection (st : State) : list SelectedFeature :=
  JSMap.values st.(selectedFeatures).

Definition getSelectionBounds (st : State) : option SelectionBounds :=
  st.(selectionBounds).

Definition getSelectionAsFeatureCollection (st : State) : list RenderedFeature :=
  map (fun s => RenderedSelection s.(feature) s.(selected)
                  s.(isCurrentSelection) s.(id))
      (JSMap.values st.(selectedFeatures))
  ++ match st.(selectionBounds) with
     | Some b => [RenderedBoundingBox b.(bbox)]
     | None => []
     end.

(** The selection source exists from the constructor on, so [setData] is
    always reached. *)
Definition updateSource (st : State) : State :=
  {| selectedFeatures := st.(selectedFeatures);
     eventListeners := st.(eventListeners);
     selectionBounds := st.(selectionBounds);
     sourceData := getSelectionAsFeatureCollection st;
     delivered := st.(delivered) |}.

Definition listenersOf (st : State) (t : SelectionEventType) : list Listener :=
  match JSMap.get SelectionEventType_eqb st.(eventListeners) t with
  | Some ls => ls
  | None => []
  end.

Definition on (t : SelectionEventType) (l : Listener) (st : State) : State :=
  let m :=
    if JSMap.has SelectionEventType_eqb st.(eventListeners) t
    then st.(eventListeners)
    else JSMap.set SelectionEventType_eqb st.(eventListeners) t [] in
  {| selectedFeatures := st.(selectedFeatures);
     eventListeners :=
       match JSMap.get SelectionEventType_eqb m t with
       | Some s => JSMap.set SelectionEventType_eqb m t (JSSet.add Nat.eqb s l)
       | None => m
       end;
     selectionBounds := st.(selectionBounds);
     sourceData := st.(sourceData);
     delivered := st.(delivered) |}.

Definition off (t : SelectionEventType) (l : Listener) (st : State) : State :=
  {| selectedFeatures := st.(selectedFeatures);
     eventListeners :=
       match JSMap.get SelectionEventType_eqb st.(eventListeners) t with
       | Some s =>
           JSMap.set SelectionEventType_eqb st.(eventListeners) t
             (JSSet.delete Nat.eqb s l)
       | None => st.(eventListeners)
       end;
     selectionBounds := st.(selectionBounds);
     sourceData := st.(sourceData);
     delivered := st.(delivered) |}.

(** [listeners.forEach(listener => listener(event))]. *)
Definition deliver (ls : list Listener) (e : SelectionEvent) (st : State) : State :=
  {| selectedFeatures := st.(selectedFeatures);
     eventListeners := st.(eventListeners);
     selectionBounds := st.(selectionBounds);
     sourceData := st.(sourceData);
     delivered := st.(delivered) ++ map (fun l => (l, e)) ls |}.

(** [{ ...event, type: 'change' }]. *)
Definition asChange (e : SelectionEvent) : SelectionEvent :=
  {| type := change_ev; ev_selected := e.(ev_selected); ev_bounds := e.(ev_bounds) |}.

Definition emitEvent (t : SelectionEventType) (e : SelectionEvent) (st : State) : State :=
  let st1 := deliver (listenersOf st t) e st in
  match t with
  | change_ev => st1
  | _ => deliver (listenersOf st1 change_ev) (asChange e) st1
  end.

(** The geospatial library (turf) is an external collaborator: its functions
    are parameters of the manager. *)
Inductive PolygonLines :=
| OneLine (l : Feature)
| ManyLines (ls : list Feature).

Record Turf := {
  turf_bbox : list Feature -> Bbox;
  turf_center : list Feature -> float * float;
  turf_area : Feature -> float;
  turf_polygonToLine : Geometry -> PolygonLines;
  turf_length : Feature -> float
}.

Section WithTurf.
Variable turf : Turf.

  (** One round of the [features.forEach] loop of [calculateSelectionBounds],
      on the accumulators [(area, perimeter)]. *)
Definition accumulate (acc : float * float) (f : Feature) : float * float :=
    let (a, p) := acc in
    match f.(geometry).(gtype) with
    | Polygon | MultiPolygon =>
        let a' := (a + turf_area turf f)%float in
        match turf_polygonToLine turf f.(geometry) with
        | ManyLines ls =>
            (a', fold_left (fun p0 line => (p0 + turf_length turf line)%float) ls p)
        | OneLine l => (a', (p + turf_length turf l)%float)
        end
    | LineString | MultiLineString => (a, (p + turf_length turf f)%float)
    | _ => (a, p)
    end.

Definition calculateSelectionBounds (st : State) : option SelectionBounds :=
    if JSMap.size st.(selectedFeatures) =? 0 then None
    else
      let features := map feature (JSMap.values st.(selectedFeatures)) in
      let (a, p) := fold_left accumulate features (0%float, 0%float) in
      Some {| bbox := turf_bbox turf features;
              center := turf_center turf features;
              area := a;
              perimeter := p |}.

Definition withSelected (m : JSMap.t string SelectedFeature) (st : State) : State :=
    {| selectedFeatures := m;
       eventListeners := st.(eventListeners);
       selectionBounds := st.(selectionBounds);
       sourceData := st.(sourceData);
       delivered := st.(delivered) |}.

Definition withBounds (b : option SelectionBounds) (st : State) : State :=
    {| selectedFeatures := st.(selectedFeatures);
       eventListeners := st.(eventListeners);
       selectionBounds := b;
       sourceData := st.(sourceData);
       delivered := st.(delivered) |}.

  (** [f.isCurrentSelection = false]. *)
Definition notCurrent (f : SelectedFeature) : SelectedFeature :=
    {| id := f.(id); feature := f.(feature); sourceId := f.(sourceId);
       layerId := f.(layerId); selected := f.(selected);
       isCurrentSelection := false |}.

  (** [feature.id?.toString() || `feature-${rnd}`]: a missing id and the
      empty string both fall through to the generated id. *)
Definition featureIdOf (f : Feature) (rnd : string) : string :=
    match f.(fid) with
    | Some s => if String.eqb s "" then ("feature-" ++ rnd)%string else s
    | None => ("feature-" ++ rnd)%string
    end.

  (** The selection map of [select] after the optional reset of the flags
      and before the new entry is stored. *)
Definition resetCurrent (setAsCurrent : bool) (st : State) : State :=
    if setAsCurrent
    then withSelected (JSMap.forEach_mutate notCurrent st.(selectedFeatures)) st
    else st.

  (** [select(feature, sourceId, layerId, setAsCurrent = true)];
      [setAsCurrent = None] is the omitted argument. *)
Definition select (f : Feature) (src lyr : string) (setAsCurrent : option bool)
             (rnd : string) (st : State) : SelectedFeature * State :=
    let cur := match setAsCurrent with Some b => b | None => true end in
    let featureId := featureIdOf f rnd in
    let st1 := resetCurrent cur st in
    let selectedFeature :=
      {| id := featureId; feature := f; sourceId := src; layerId := lyr;
         selected := true; isCurrentSelection := cur |} in
    let st2 :=
      withSelected (JSMap.set String.eqb st1.(selectedFeatures) featureId selectedFeature) st1 in
    let st3 := withBounds (calculateSelectionBounds st2) st2 in
    let st4 := updateSource st3 in
    (selectedFeature,
     emitEvent select_ev
       {| type := select_ev;
          ev_selected := JSMap.values st4.(selectedFeatures);
          ev_bounds := st4.(selectionBounds) |} st4).

Definition deselect (featureId : string) (st : State) : bool * State :=
    let removed := JSMap.has String.eqb st.(selectedFeatures) featureId in
    let st1 := withSelected (JSMap.delete String.eqb st.(selectedFeatures) featureId) st in
    if removed then
      let st2 := withBounds (calculateSelectionBounds st1) st1 in
      let st3 := updateSource st2 in
      (true,
       emitEvent deselect_ev
         {| type := deselect_ev;
            ev_selected := JSMap.values st3.(selectedFeatures);
            ev_bounds := st3.(selectionBounds) |} st3)
    else (false, st1).

Definition clearSelection (st : State) : State :=
    let st1 := withSelected (JSMap.empty _ _) st in
    let st2 := withBounds None st1 in
    let st3 := updateSource st2 in
    emitEvent clear_ev
      {| type := clear_ev; ev_selected := []; ev_bounds := None |} st3.

  (** The public calls a client can make, and a run of them. *)
Inductive Call :=
  | CallSelect (f : Feature) (src lyr : string) (setAsCurrent : option bool) (rnd : string)
  | CallDeselect (featureId : string)
  | CallClearSelection
  | CallOn (t : SelectionEventType) (l : Listener)
  | CallOff (t : SelectionEventType) (l : Listener).

Definition step (st : State) (c : Call) : State :=
    match c with
    | CallSelect f src lyr cur rnd => snd (select f src lyr cur rnd st)
    | CallDeselect i => snd (deselect i st)
    | CallClearSelection => clearSelection st
    | CallOn t l => on t l st
    | CallOff t l => off t l st
    end.

Definition run (cs : list Call) (st : State) : State := fold_left step cs st.

  (** Number of entries of the selection flagged as current. *)
Definition countCurrent (st : State) : nat :=
    List.length (filter isCurrentSelection (getSelection st)).

End WithTurf.

End SelectionManager.

(** ** HandleManager (src/lib/HandleManager.ts, src/lib/types.ts) *)

Module HandleManager.

Record Position := { lon : float; lat : float }.

Inductive HandleType := resize | rotate | move | curve | label | snap.

Inductive HandleShape := square | circle | diamond | triangle.

Inductive Axis := axis_x | axis_y.

Definition HandleType_eqb (a b : HandleType) : bool :=
  match a, b with
  | resize, resize | rotate, rotate | move, move
  | curve, curve | label, label | snap, snap => true
  | _, _ => false
  end.

Definition HandleShape_eqb (a b : HandleShape) : bool :=
  match a, b with
  | square, square | circle, circle
  | diamond, diamond | triangle, triangle => true
  | _, _ => false
  end.

Record Constraints := {
  snapToGrid : option bool;
  lockAxis : option Axis;
  proportional : option bool
}.

Record Handle := {
  id : string;
  type : HandleType;
  shape : HandleShape;
  position : Position;
  color : string;
  size : float;
  cursor : string;
  visible : bool;
  draggable : bool;
  constraints : option Constraints
}.

(** [Partial<Handle>]: each property present or not.  A key that is present
    with the value [undefined] is not represented. *)
Record HandlePatch := {
  p_id : option string;
  p_type : option HandleType;
  p_shape : option HandleShape;
  p_position : option Position;
  p_color : option string;
  p_size : option float;
  p_cursor : option string;
  p_visible : option bool;
  p_draggable : option bool;
  p_constraints : option Constraints
}.

Definition noPatch : HandlePatch :=
  {| p_id := None; p_type := None; p_shape := None; p_position := None;
     p_color := None; p_size := None; p_cursor := None; p_visible := None;
     p_draggable := None; p_constraints := None |}.

(** A whole handle passed where a [Partial<Handle>] is expected. *)
Definition patchOf (h : Handle) : HandlePatch :=
  {| p_id := Some h.(id); p_type := Some h.(type); p_shape := Some h.(shape);
     p_position := Some h.(position); p_color := Some h.(color);
     p_size := Some h.(size); p_cursor := Some h.(cursor);
     p_visible := Some h.(visible); p_draggable := Some h.(draggable);
     p_constraints := h.(constraints) |}.

Definition orElse {A : Type} (o : option A) (d : A) : A :=
  match o with Some a => a | None => d end.

(** [{ ...handle, ...newProps }]. *)
Definition spread (h : Handle) (p : HandlePatch) : Handle :=
  {| id := orElse p.(p_id) h.(id);
     type := orElse p.(p_type) h.(type);
     shape := orElse p.(p_shape) h.(shape);
     position := orElse p.(p_position) h.(position);
     color := orElse p.(p_color) h.(color);
     size := orElse p.(p_size) h.(size);
     cursor := orElse p.(p_cursor) h.(cursor);
     visible := orElse p.(p_visible) h.(visible);
     draggable := orElse p.(p_draggable) h.(draggable);
     constraints :=
       match p.(p_constraints) with
       | Some c => Some c
       | None => h.(constraints)
       end |}.

(** [handle.position = pos], an assignment to a field of the object. *)
Definition setPosition (h : Handle) (pos : Position) : Handle :=
  {| id := h.(id); type := h.(type); shape := h.(shape); position := pos;
     color := h.(color); size := h.(size); cursor := h.(cursor);
     visible := h.(visible); draggable := h.(draggable);
     constraints := h.(constraints) |}.

(** A handle is a JavaScript object: the manager's map, the drag session and
    the tools hold references to it, and the drag handler assigns to its
    [position] field.  Objects live in a store; a reference is an index. *)
Definition Ref := nat.

Inductive HandleEventType :=
| dragstart | drag | dragend | click | mouseover | mouseout.

Definition HandleEventType_eqb (a b : HandleEventType) : bool :=
  match a, b with
  | dragstart, dragstart | drag, drag | dragend, dragend
  | click, click | mouseover, mouseover | mouseout, mouseout => true
  | _, _ => false
  end.

(** The event payload, without the DOM event it forwards. *)
Record HandleEvent := {
  ev_type : HandleEventType;
  ev_handle : Ref;
  ev_position : Position
}.

Record DragState := {
  handle : Ref;
  initialPosition : Position;
  currentPosition : Position
}.

Record State := {
  (** the handle objects allocated so far *)
  objects : list Handle;
  handles : JSMap.t string Ref;
  eventListeners : JSMap.t HandleEventType (JSSet.t Listener);
  activeHandle : option string;
  dragState : option DragState;
  (** [map.getCenter()] *)
  mapCenter : Position;
  (** point features last pushed to the handle source of the map *)
  sourceData : list Handle;
  (** events passed to [emitEvent] so far, oldest first *)
  emitted : list HandleEvent;
  (** listener calls made so far, oldest first *)
  delivered : list (Listener * HandleEvent)
}.

Definition init (c : Position) : State :=
  {| objects := []; handles := JSMap.empty _ _;
     eventListeners := JSMap.empty _ _;
     activeHandle := None; dragState := None; mapCenter := c;
     sourceData := []; emitted := []; delivered := [] |}.

Definition withObjects (o : list Handle) (st : State) : State :=
  {| objects := o; handles := st.(handles);
     eventListeners := st.(eventListeners);
     activeHandle := st.(activeHandle); dragState := st.(dragState);
     mapCenter := st.(mapCenter); sourceData := st.(sourceData);
     emitted := st.(emitted); delivered := st.(delivered) |}.

Definition withHandles (m : JSMap.t string Ref) (st : State) : State :=
  {| objects := st.(objects); handles := m;
     eventListeners := st.(eventListeners);
     activeHandle := st.(activeHandle); dragState := st.(dragState);
     mapCenter := st.(mapCenter); sourceData := st.(sourceData);
     emitted := st.(emitted); delivered := st.(delivered) |}.

Definition withListeners (m : JSMap.t HandleEventType (JSSet.t Listener))
           (st : State) : State :=
  {| objects := st.(objects); handles := st.(handles);
     eventListeners := m;
     activeHandle := st.(activeHandle); dragState := st.(dragState);
     mapCenter := st.(mapCenter); sourceData := st.(sourceData);
     emitted := st.(emitted); delivered := st.(delivered) |}.

Definition withDrag (a : option string) (d : option DragState) (st : State) : State :=
  {| objects := st.(objects); handles := st.(handles);
     eventListeners := st.(eventListeners);
     activeHandle := a; dragState := d;
     mapCenter := st.(mapCenter); sourceData := st.(sourceData);
     emitted := st.(emitted); delivered := st.(delivered) |}.

Definition withSourceData (d : list Handle) (st : State) : State :=
  {| objects := st.(objects); handles := st.(handles);
     eventListeners := st.(eventListeners);
     activeHandle := st.(activeHandle); dragState := st.(dragState);
     mapCenter := st.(mapCenter); sourceData := d;
     emitted := st.(emitted); delivered := st.(delivered) |}.

Definition withLogs (e : list HandleEvent) (d : list (Listener * HandleEvent))
           (st : State) : State :=
  {| objects := st.(objects); handles := st.(handles);
     eventListeners := st.(eventListeners);
     activeHandle := st.(activeHandle); dragState := st.(dragState);
     mapCenter := st.(mapCenter); sourceData := st.(sourceData);
     emitted := e; delivered := d |}.

(** The object behind a reference. *)
Definition deref (st : State) (r : Ref) : option Handle :=
  nth_error st.(objects) r.

(** A new object. *)
Definition alloc (h : Handle) (st : State) : Ref * State :=
  (List.length st.(objects), withObjects (st.(objects) ++ [h]) st).

Fixpoint replaceNth {A : Type} (l : list A) (n : nat) (a : A) : list A :=
  match l, n with
  | [], _ => []
  | _ :: r, O => a :: r
  | b :: r, S k => b :: replaceNth r k a
  end.

(** An assignment to the object behind [r]. *)
Definition assign (r : Ref) (h : Handle) (st : State) : State :=
  withObjects (replaceNth st.(objects) r h) st.

Definition listenersOf (st : State) (t : HandleEventType) : list Listener :=
  match JSMap.get HandleEventType_eqb st.(eventListeners) t with
  | Some ls => ls
  | None => []
  end.

Definition on (t : HandleEventType) (l : Listener) (st : State) : State :=
  let m :=
    if JSMap.has HandleEventType_eqb st.(eventListeners) t
    then st.(eventListeners)
    else JSMap.set HandleEventType_eqb st.(eventListeners) t [] in
  withListeners
    match JSMap.get HandleEventType_eqb m t with
    | Some s => JSMap.set HandleEventType_eqb m t (JSSet.add Nat.eqb s l)
    | None => m
    end st.

Definition off (t : HandleEventType) (l : Listener) (st : State) : State :=
  withListeners
    match JSMap.get HandleEventType_eqb st.(eventListeners) t with
    | Some s =>
        JSMap.set HandleEventType_eqb st.(eventListeners) t
          (JSSet.delete Nat.eqb s l)
    | None => st.(eventListeners)
    end st.

Definition emitEvent (t : HandleEventType) (e : HandleEvent) (st : State) : State :=
  withLogs (st.(emitted) ++ [e])
           (st.(delivered) ++ map (fun l => (l, e)) (listenersOf st t)) st.

(** The objects behind a list of references (a dangling one is skipped). *)
Fixpoint derefAll (st : State) (rs : list Ref) : list Handle :=
  match rs with
  | [] => []
  | r :: rest =>
      match deref st r with
      | Some h => h :: derefAll st rest
      | None => derefAll st rest
      end
  end.

(** One point feature per visible handle, carrying the handle's fields. *)
Definition getHandlesAsFeatureCollection (st : State) : list Handle :=
  filter visible (derefAll st (JSMap.values st.(handles))).

Definition updateSource (st : State) : State :=
  withSourceData (getHandlesAsFeatureCollection st) st.

(** [const gridSize = 0.001]. *)
Definition gridSize : float := 0.001%float.

(** [Math.round(v / gridSize) * gridSize]. *)
Definition snapCoordinate (v : float) : float :=
  (JS.Math_round (v / gridSize) * gridSize)%float.

(** The axis-lock step of [applyConstraints]. *)
Definition applyLockAxis (st : State) (c : Constraints) (result : Position) : Position :=
  match c.(lockAxis) with
  | Some a =>
      match st.(dragState) with
      | Some ds =>
          match a with
          | axis_x => {| lon := ds.(initialPosition).(lon); lat := result.(lat) |}
          | axis_y => {| lon := result.(lon); lat := ds.(initialPosition).(lat) |}
          end
      | None => result
      end
  | None => result
  end.

(** The grid-snap step of [applyConstraints]. *)
Definition applySnapToGrid (c : Constraints) (result : Position) : Position :=
  if JS.truthy c.(snapToGrid)
  then {| lon := snapCoordinate result.(lon); lat := snapCoordinate result.(lat) |}
  else result.

Definition applyConstraints (st : State) (h : Handle) (newPosition : Position) : Position :=
  match h.(constraints) with
  | None => newPosition
  | Some c => applySnapToGrid c (applyLockAxis st c newPosition)
  end.

Definition addHandle (r : Ref) (st : State) : State :=
  match deref st r with
  | Some h => updateSource (withHandles (JSMap.set String.eqb st.(handles) h.(id) r) st)
  | None => st
  end.

Definition addHandles (rs : list Ref) (st : State) : State :=
  updateSource
    (fold_left
       (fun s r =>
          match deref s r with
          | Some h => withHandles (JSMap.set String.eqb s.(handles) h.(id) r) s
          | None => s
          end) rs st).

Definition removeHandle (handleId : string) (st : State) : bool * State :=
  let removed := JSMap.has String.eqb st.(handles) handleId in
  let st1 := withHandles (JSMap.delete String.eqb st.(handles) handleId) st in
  if removed then (true, updateSource st1) else (false, st1).

(** [updateHandle]: the stored object is not assigned to, a new object
    takes its place in the map. *)
Definition updateHandle (handleId : string) (newProps : HandlePatch) (st : State)
  : option Ref * State :=
  match JSMap.get String.eqb st.(handles) handleId with
  | None => (None, st)
  | Some r0 =>
      match deref st r0 with
      | None => (None, st)
      | Some h =>
          let (r, st1) := alloc (spread h newProps) st in
          (Some r, updateSource (withHandles (JSMap.set String.eqb st1.(handles) handleId r) st1))
      end
  end.

Definition getHandle (handleId : string) (st : State) : option Ref :=
  JSMap.get String.eqb st.(handles) handleId.

Definition getAllHandles (st : State) : list Ref :=
  JSMap.values st.(handles).

Definition setHandleVisibility (handleId : string) (v : bool) (st : State) :=
  updateHandle handleId
    {| p_id := None; p_type := None; p_shape := None; p_position := None;
       p_color := None; p_size := None; p_cursor := None; p_visible := Some v;
       p_draggable := None; p_constraints := None |} st.

Definition setHandlePosition (handleId : string) (pos : Position) (st : State) :=
  updateHandle handleId
    {| p_id := None; p_type := None; p_shape := None; p_position := Some pos;
       p_color := None; p_size := None; p_cursor := None; p_visible := None;
       p_draggable := None; p_constraints := None |} st.

Definition clearHandles (st : State) : State :=
  updateSource (withHandles (JSMap.empty _ _) st).

(** ['handle-' + Math.random().toString(36).substring(2, 9)]. *)
Definition generateId (rnd : string) : string := ("handle-" ++ rnd)%string.

Definition getColorForType (t : HandleType) : string :=
  match t with
  | resize => "#ff5733" | rotate => "#33bbff" | move => "#33ff57"
  | curve => "#b533ff" | label => "#ffbb33" | snap => "#ff33bb"
  end%string.

Definition getCursorForType (t : HandleType) : string :=
  match t with
  | resize => "nwse-resize" | rotate => "crosshair" | move => "move"
  | curve => "pointer" | label => "text" | snap => "cell"
  end%string.

Definition getConstraintsForType (t : HandleType) : option Constraints :=
  match t with
  | resize => Some {| snapToGrid := None; lockAxis := None; proportional := Some true |}
  | snap => Some {| snapToGrid := Some true; lockAxis := None; proportional := None |}
  | _ => Some {| snapToGrid := None; lockAxis := None; proportional := None |}
  end.

(** The object literal [createHandle] returns. *)
Definition newHandle (t : HandleType) (s : HandleShape) (pos : Position)
           (rnd : string) : Handle :=
  {| id := generateId rnd; type := t; shape := s; position := pos;
     color := getColorForType t; size := 1%float;
     cursor := getCursorForType t; visible := true; draggable := true;
     constraints := getConstraintsForType t |}.

Definition createHandle (t : HandleType) (s : HandleShape) (pos : option Position)
           (rnd : string) (st : State) : Ref * State :=
  alloc (newHandle t s (orElse pos st.(mapCenter)) rnd) st.

Definition createAndAddHandle (t : HandleType) (s : HandleShape) (pos : option Position)
           (rnd : string) (st : State) : Ref * State :=
  let (r, st1) := createHandle t s pos rnd st in
  (r, addHandle r st1).

(** *** The map's pointer events, as the handlers of [setupEventHandlers]
    receive them.  [features] of a layer event is the list of hit features,
    each with its [properties?.id]. *)

Definition mousemove (lng lt : float) (st : State) : State :=
  match st.(dragState) with
  | None => st
  | Some ds =>
      match deref st ds.(handle) with
      | None => st
      | Some h =>
          let constrainedPosition :=
            applyConstraints st h {| lon := lng; lat := lt |} in
          let h' := setPosition h constrainedPosition in
          let st1 := assign ds.(handle) h' st in
          let st2 :=
            withDrag st1.(activeHandle)
              (Some {| handle := ds.(handle);
                       initialPosition := ds.(initialPosition);
                       currentPosition := constrainedPosition |}) st1 in
          let st3 := snd (updateHandle h'.(id) (patchOf h') st2) in
          emitEvent drag
            {| ev_type := drag; ev_handle := ds.(handle);
               ev_position := constrainedPosition |} st3
      end
  end.

(** The handle a layer event falls on: [this.handles.get(features[0].properties?.id)]. *)
Definition hitHandle (features : list (option string)) (st : State)
  : option (string * Ref * Handle) :=
  match features with
  | Some handleId :: _ =>
      match JSMap.get String.eqb st.(handles) handleId with
      | Some r =>
          match deref st r with
          | Some h => Some (handleId, r, h)
          | None => None
          end
      | None => None
      end
  | _ => None
  end.

Definition mousedown (features : list (option string)) (st : State) : State :=
  match hitHandle features st with
  | Some (handleId, r, h) =>
      if h.(draggable) then
        let st1 :=
          withDrag (Some handleId)
            (Some {| handle := r; initialPosition := h.(position);
                     currentPosition := h.(position) |}) st in
        emitEvent dragstart
          {| ev_type := dragstart; ev_handle := r; ev_position := h.(position) |} st1
      else st
  | None => st
  end.

Definition mouseup (st : State) : State :=
  match st.(dragState) with
  | None => st
  | Some ds =>
      match deref st ds.(handle) with
      | None => st
      | Some h =>
          let st1 :=
            emitEvent dragend
              {| ev_type := dragend; ev_handle := ds.(handle);
                 ev_position := h.(position) |} st in
          withDrag None None st1
      end
  end.

Definition clickHandle (features : list (option string)) (st : State) : State :=
  match hitHandle features st with
  | Some (_, r, h) =>
      emitEvent click {| ev_type := click; ev_handle := r; ev_position := h.(position) |} st
  | None => st
  end.

Inductive MapEvent :=
| MouseDown (features : list (option string))
| MouseMove (lng lt : float)
| MouseUp.

Definition handleMapEvent (st : State) (e : MapEvent) : State :=
  match e with
  | MouseDown fs => mousedown fs st
  | MouseMove lng lt => mousemove lng lt st
  | MouseUp => mouseup st
  end.

(** A run of pointer moves, each given as [(lng, lat)]. *)
Definition mousemoves (ps : list (float * float)) (st : State) : State :=
  fold_left (fun s p => mousemove (fst p) (snd p) s) ps st.


End HandleManager.

(** ** Tools (src/lib/tools) *)

(** A tool is an object too; the tool manager holds references to tools. *)
Definition ToolRef := nat.

Inductive ToolState := inactive | active | pending | completed.

Definition ToolState_eqb (a b : ToolState) : bool :=
  match a, b with
  | inactive, inactive | active, active
  | pending, pending | completed, completed => true
  | _, _ => false
  end.

Inductive ToolEventType :=
| activate_ev | deactivate_ev | start_ev | update_ev | complete_ev | cancel_ev.

Definition ToolEventType_eqb (a b : ToolEventType) : bool :=
  match a, b with
  | activate_ev, activate_ev | deactivate_ev, deactivate_ev
  | start_ev, start_ev | update_ev, update_ev
  | complete_ev, complete_ev | cancel_ev, cancel_ev => true
  | _, _ => false
  end.

(** The event payload; the optional fields are never set by this code. *)
Record ToolEvent := {
  te_type : ToolEventType;
  te_tool : ToolRef;
  te_state : ToolState
}.

(** What a tool works on besides its own fields: the two managers it was
    given, the cursor of the map's canvas, and the listener calls and
    emissions made by tools so far. *)
Record Ctx := {
  handleManager : HandleManager.State;
  selectionManager : SelectionManager.State;
  canvasCursor : string;
  emitted : list ToolEvent;
  delivered : list (Listener * ToolEvent)
}.

Definition withHandleManager (h : HandleManager.State) (c : Ctx) : Ctx :=
  {| handleManager := h; selectionManager := c.(selectionManager);
     canvasCursor := c.(canvasCursor); emitted := c.(emitted);
     delivered := c.(delivered) |}.

Definition withCursor (s : string) (c : Ctx) : Ctx :=
  {| handleManager := c.(handleManager); selectionManager := c.(selectionManager);
     canvasCursor := s; emitted := c.(emitted); delivered := c.(delivered) |}.

Module BaseTool.

Record Obj := {
  id : string;
  name : string;
  type : string;
  cursor : string;
  state : ToolState;
  handles : list HandleManager.Ref;
  eventListeners : JSMap.t ToolEventType (JSSet.t Listener)
}.

(** The fields a constructor sets; [rnd] is the random part of the id. *)
Definition new (rnd : string) : Obj :=
  {| id := ("tool-" ++ rnd)%string; name := "Base Tool"; type := "base";
     cursor := "default"; state := inactive; handles := [];
     eventListeners := JSMap.empty _ _ |}.

Definition withState (s : ToolState) (o : Obj) : Obj :=
  {| id := o.(id); name := o.(name); type := o.(type); cursor := o.(cursor);
     state := s; handles := o.(handles); eventListeners := o.(eventListeners) |}.

Definition withHandles (hs : list HandleManager.Ref) (o : Obj) : Obj :=
  {| id := o.(id); name := o.(name); type := o.(type); cursor := o.(cursor);
     state := o.(state); handles := hs; eventListeners := o.(eventListeners) |}.

Definition withListeners (m : JSMap.t ToolEventType (JSSet.t Listener)) (o : Obj) : Obj :=
  {| id := o.(id); name := o.(name); type := o.(type); cursor := o.(cursor);
     state := o.(state); handles := o.(handles); eventListeners := m |}.

Definition listenersOf (o : Obj) (t : ToolEventType) : list Listener :=
  match JSMap.get ToolEventType_eqb o.(eventListeners) t with
  | Some ls => ls
  | None => []
  end.

Definition on (t : ToolEventType) (l : Listener) (o : Obj) : Obj :=
  let m :=
    if JSMap.has ToolEventType_eqb o.(eventListeners) t
    then o.(eventListeners)
    else JSMap.set ToolEventType_eqb o.(eventListeners) t [] in
  withListeners
    match JSMap.get ToolEventType_eqb m t with
    | Some s => JSMap.set ToolEventType_eqb m t (JSSet.add Nat.eqb s l)
    | None => m
    end o.

Definition off (t : ToolEventType) (l : Listener) (o : Obj) : Obj :=
  withListeners
    match JSMap.get ToolEventType_eqb o.(eventListeners) t with
    | Some s =>
        JSMap.set ToolEventType_eqb o.(eventListeners) t (JSSet.delete Nat.eqb s l)
    | None => o.(eventListeners)
    end o.

Definition emitEvent (o : Obj) (t : ToolEventType) (e : ToolEvent) (c : Ctx) : Ctx :=
  {| handleManager := c.(handleManager); selectionManager := c.(selectionManager);
     canvasCursor := c.(canvasCursor);
     emitted := c.(emitted) ++ [e];
     delivered := c.(delivered) ++ map (fun l => (l, e)) (listenersOf o t) |}.

(** [this.handles.forEach(h => this.handleManager.removeHandle(h.id))], then
    [this.handles = []]. *)
Definition clearHandles (o : Obj) (c : Ctx) : Obj * Ctx :=
  let hm :=
    fold_left
      (fun s r =>
         match HandleManager.deref s r with
         | Some h => snd (HandleManager.removeHandle h.(HandleManager.id) s)
         | None => s
         end) o.(handles) c.(handleManager) in
  (withHandles [] o, withHandleManager hm c).

(** [self] is the reference to the object itself ([this]), which goes into
    the events it emits. *)
Definition activate (self : ToolRef) (o : Obj) (c : Ctx) : Obj * Ctx :=
  if negb (ToolState_eqb o.(state) inactive) then (o, c)
  else
    let o1 := withState active o in
    let c1 := withCursor o1.(cursor) c in
    (o1, emitEvent o1 activate_ev
           {| te_type := activate_ev; te_tool := self; te_state := o1.(state) |} c1).

Definition deactivate (self : ToolRef) (o : Obj) (c : Ctx) : Obj * Ctx :=
  if ToolState_eqb o.(state) inactive then (o, c)
  else
    let (o1, c1) := clearHandles o c in
    let c2 := withCursor "" c1 in
    let o2 := withState inactive o1 in
    (o2, emitEvent o2 deactivate_ev
           {| te_type := deactivate_ev; te_tool := self; te_state := o2.(state) |} c2).

Definition cancel (self : ToolRef) (o : Obj) (c : Ctx) : Obj * Ctx :=
  let (o1, c1) := clearHandles o c in
  (o1, emitEvent o1 cancel_ev
         {| te_type := cancel_ev; te_tool := self; te_state := o1.(state) |} c1).

Definition handleKeyEvent (key : string) (self : ToolRef) (o : Obj) (c : Ctx) : Obj * Ctx :=
  if String.eqb key "Escape" then cancel self o c else (o, c).

Definition destroy (o : Obj) (c : Ctx) : Obj * Ctx :=
  let (o1, c1) := clearHandles o c in
  (withListeners (JSMap.empty _ _) o1, c1).

End BaseTool.

(** The [Tool] interface, as far as the tool manager uses it.  A method
    works on the fields of its own object and on the shared context. *)
Class Tool (T : Type) := {
  tool_id : T -> string;
  tool_activate : ToolRef -> T -> Ctx -> T * Ctx;
  tool_deactivate : ToolRef -> T -> Ctx -> T * Ctx;
  tool_destroy : ToolRef -> T -> Ctx -> T * Ctx;
  tool_on : ToolEventType -> Listener -> T -> T
}.

(** A tool that inherits every method of [BaseTool]. *)
#[export] Instance BaseTool_Tool : Tool BaseTool.Obj := {
  tool_id := BaseTool.id;
  tool_activate := BaseTool.activate;
  tool_deactivate := BaseTool.deactivate;
  tool_destroy := fun _ => BaseTool.destroy;
  tool_on := BaseTool.on
}.

(** The manager's registry and active-tool slot.  Its routing of the map's
    pointer and keyboard events and of the handle events to the active tool
    goes through the event-handling methods of [Tool], which are not part
    of the interface above and are not embedded. *)
Module ToolManager.

(** A method call the manager makes on a tool. *)
Inductive ToolCall :=
| Activate (r : ToolRef)
| Deactivate (r : ToolRef)
| Destroy (r : ToolRef).

Section WithTool.
Variable T : Type.
Context {TT : Tool T}.

Record State := {
    (** the tool objects, by reference *)
    objects : list T;
    ctx : Ctx;
    tools : JSMap.t string ToolRef;
    activeTool : option ToolRef;
    eventListeners : JSMap.t ToolEventType (JSSet.t Listener);
    (** the calls of [activate], [deactivate] and [destroy] made on tools
        so far, oldest first *)
    calls : list ToolCall
  }.

Definition init (c : Ctx) : State :=
    {| objects := []; ctx := c; tools := JSMap.empty _ _; activeTool := None;
       eventListeners := JSMap.empty _ _; calls := [] |}.

  (** The call [tool.m()] of a method [m] on the tool behind [r]. *)
Definition invoke (m : ToolRef -> T -> Ctx -> T * Ctx) (what : ToolCall)
             (r : ToolRef) (st : State) : State :=
    match nth_error st.(objects) r with
    | Some o =>
        let (o', c') := m r o st.(ctx) in
        {| objects := HandleManager.replaceNth st.(objects) r o'; ctx := c';
           tools := st.(tools); activeTool := st.(activeTool);
           eventListeners := st.(eventListeners);
           calls := st.(calls) ++ [what] |}
    | None => st
    end.

Definition withActiveTool (a : option ToolRef) (st : State) : State :=
    {| objects := st.(objects); ctx := st.(ctx); tools := st.(tools);
       activeTool := a; eventListeners := st.(eventListeners);
       calls := st.(calls) |}.

Definition withTools (m : JSMap.t string ToolRef) (st : State) : State :=
    {| objects := st.(objects); ctx := st.(ctx); tools := m;
       activeTool := st.(activeTool); eventListeners := st.(eventListeners);
       calls := st.(calls) |}.

Definition withObjects (os : list T) (st : State) : State :=
    {| objects := os; ctx := st.(ctx); tools := st.(tools);
       activeTool := st.(activeTool); eventListeners := st.(eventListeners);
       calls := st.(calls) |}.

  (** A tool object is created outside the manager. *)
Definition construct (o : T) (st : State) : ToolRef * State :=
    (List.length st.(objects), withObjects (st.(objects) ++ [o]) st).

  (** [registerTool]; [fwd t] is the closure that forwards the tool's events
      of type [t] to the manager's listeners. *)
Definition registerTool (r : ToolRef) (fwd : ToolEventType -> Listener) (st : State) : State :=
    match nth_error st.(objects) r with
    | Some o =>
        let o' :=
          fold_left (fun ob t => tool_on t (fwd t) ob)
            [activate_ev; deactivate_ev; start_ev; update_ev; complete_ev; cancel_ev] o in
        withObjects (HandleManager.replaceNth st.(objects) r o')
          (withTools (JSMap.set String.eqb st.(tools) (tool_id o) r) st)
    | None => st
    end.

Definition deactivateTool (st : State) : bool * State :=
    match st.(activeTool) with
    | Some a => (true, withActiveTool None (invoke tool_deactivate (Deactivate a) a st))
    | None => (false, st)
    end.

Definition activateTool (toolId : string) (st : State) : option ToolRef * State :=
    match JSMap.get String.eqb st.(tools) toolId with
    | None => (None, st)
    | Some tool =>
        let st1 :=
          match st.(activeTool) with
          | Some a => invoke tool_deactivate (Deactivate a) a st
          | None => st
          end in
        let st2 := invoke tool_activate (Activate tool) tool st1 in
        (Some tool, withActiveTool (Some tool) st2)
    end.

Definition unregisterTool (toolId : string) (st : State) : bool * State :=
    match JSMap.get String.eqb st.(tools) toolId with
    | Some tool =>
        let st1 :=
          match st.(activeTool) with
          | Some a => if Nat.eqb a tool then snd (deactivateTool st) else st
          | None => st
          end in
        let st2 := invoke tool_destroy (Destroy tool) tool st1 in
        (true, withTools (JSMap.delete String.eqb st2.(tools) toolId) st2)
    | None => (false, st)
    end.

Definition getTool (toolId : string) (st : State) : option ToolRef :=
    JSMap.get String.eqb st.(tools) toolId.

Definition getAllTools (st : State) : list ToolRef := JSMap.values st.(tools).

Definition getActiveTool (st : State) : option ToolRef := st.(activeTool).

End WithTool.

End ToolManager.

(** ** SelectionTool (src/lib/tools/selection-tool.ts): handle regeneration

    Of the selection tool, the fields and methods that rebuild the handles
    around the selection bounds.  Note that [addHandle] of this version does
    not record the new handle in [this.handles], the list that
    [clearHandles] of [BaseTool] walks. *)

Module SelectionTool.

Record Obj := {
  base : BaseTool.Obj;
  cornerHandles : list HandleManager.Ref;
  edgeHandles : list HandleManager.Ref;
  centerHandle : option HandleManager.Ref
}.

(** [addHandle]: create the handle, give it to the handle manager, return it. *)
Definition addHandle (t : HandleManager.HandleType) (s : HandleManager.HandleShape)
           (pos : HandleManager.Position) (rnd : string) (c : Ctx)
  : HandleManager.Ref * Ctx :=
  let (r, hm1) := HandleManager.createHandle t s (Some pos) rnd c.(handleManager) in
  (r, withHandleManager (HandleManager.addHandle r hm1) c).

(** [createHandlesForSelection]; [rnd k] is the random part of the id of the
    handle created by the [k]-th call of [addHandle]. *)
Definition createHandlesForSelection (rnd : nat -> string) (o : Obj) (c : Ctx) : Obj * Ctx :=
  let (b, c0) := BaseTool.clearHandles o.(base) c in
  match SelectionManager.getSelectionBounds c0.(selectionManager) with
  | None =>
      ({| base := b; cornerHandles := []; edgeHandles := []; centerHandle := None |}, c0)
  | Some bounds =>
      let bbox := bounds.(SelectionManager.bbox) in
      let x0 := bbox.(SelectionManager.minX) in
      let y0 := bbox.(SelectionManager.minY) in
      let x1 := bbox.(SelectionManager.maxX) in
      let y1 := bbox.(SelectionManager.maxY) in
      let nw := {| HandleManager.lon := x0; HandleManager.lat := y1 |} in
      let ne := {| HandleManager.lon := x1; HandleManager.lat := y1 |} in
      let se := {| HandleManager.lon := x1; HandleManager.lat := y0 |} in
      let sw := {| HandleManager.lon := x0; HandleManager.lat := y0 |} in
      let n := {| HandleManager.lon := ((x0 + x1) / 2)%float; HandleManager.lat := y1 |} in
      let e := {| HandleManager.lon := x1; HandleManager.lat := ((y0 + y1) / 2)%float |} in
      let s := {| HandleManager.lon := ((x0 + x1) / 2)%float; HandleManager.lat := y0 |} in
      let w := {| HandleManager.lon := x0; HandleManager.lat := ((y0 + y1) / 2)%float |} in
      let (nwHandle, c1) := addHandle HandleManager.resize HandleManager.square nw (rnd 0) c0 in
      let (neHandle, c2) := addHandle HandleManager.resize HandleManager.square ne (rnd 1) c1 in
      let (seHandle, c3) := addHandle HandleManager.resize HandleManager.square se (rnd 2) c2 in
      let (swHandle, c4) := addHandle HandleManager.resize HandleManager.square sw (rnd 3) c3 in
      let (nHandle, c5) := addHandle HandleManager.resize HandleManager.circle n (rnd 4) c4 in
      let (eHandle, c6) := addHandle HandleManager.resize HandleManager.circle e (rnd 5) c5 in
      let (sHandle, c7) := addHandle HandleManager.resize HandleManager.circle s (rnd 6) c6 in
      let (wHandle, c8) := addHandle HandleManager.resize HandleManager.circle w (rnd 7) c7 in
      ({| base := b;
          cornerHandles := [nwHandle; neHandle; seHandle; swHandle];
          edgeHandles := [nHandle; eHandle; sHandle; wHandle];
          centerHandle := None |}, c8)
  end.



End SelectionTool.

(** ** The earlier SelectionTool kept at the end of src/lib/tools/BaseTool.ts *)

Module SelectionToolBundled.

(** This version has no field besides those of [BaseTool] that handle
    regeneration touches: the handles go to [this.handles]. *)
Definition addHandle (t : HandleManager.HandleType) (s : HandleManager.HandleShape)
           (pos : HandleManager.Position) (rnd : string) (o : BaseTool.Obj) (c : Ctx)
  : HandleManager.Ref * (BaseTool.Obj * Ctx) :=
  let (r, hm1) := HandleManager.createHandle t s (Some pos) rnd c.(handleManager) in
  (r, (BaseTool.withHandles (o.(BaseTool.handles) ++ [r]) o,
       withHandleManager (HandleManager.addHandle r hm1) c)).

Definition createHandlesForSelection (rnd : nat -> string) (o : BaseTool.Obj) (c : Ctx)
  : BaseTool.Obj * Ctx :=
  let (o0, c0) := BaseTool.clearHandles o c in
  match SelectionManager.getSelectionBounds c0.(selectionManager) with
  | None => (o0, c0)
  | Some bounds =>
      let bbox := bounds.(SelectionManager.bbox) in
      let x0 := bbox.(SelectionManager.minX) in
      let y0 := bbox.(SelectionManager.minY) in
      let x1 := bbox.(SelectionManager.maxX) in
      let y1 := bbox.(SelectionManager.maxY) in
      let nw := {| HandleManager.lon := x0; HandleManager.lat := y1 |} in
      let ne := {| HandleManager.lon := x1; HandleManager.lat := y1 |} in
      let se := {| HandleManager.lon := x1; HandleManager.lat := y0 |} in
      let sw := {| HandleManager.lon := x0; HandleManager.lat := y0 |} in
      let n := {| HandleManager.lon := ((x0 + x1) / 2)%float; HandleManager.lat := y1 |} in
      let e := {| HandleManager.lon := x1; HandleManager.lat := ((y0 + y1) / 2)%float |} in
      let s := {| HandleManager.lon := ((x0 + x1) / 2)%float; HandleManager.lat := y0 |} in
      let w := {| HandleManager.lon := x0; HandleManager.lat := ((y0 + y1) / 2)%float |} in
      let center :=
        {| HandleManager.lon := fst bounds.(SelectionManager.center);
           HandleManager.lat := snd bounds.(SelectionManager.center) |} in
      let '(_, (o1, c1)) := addHandle HandleManager.resize HandleManager.square nw (rnd 0) o0 c0 in
      let '(_, (o2, c2)) := addHandle HandleManager.resize HandleManager.square ne (rnd 1) o1 c1 in
      let '(_, (o3, c3)) := addHandle HandleManager.resize HandleManager.square se (rnd 2) o2 c2 in
      let '(_, (o4, c4)) := addHandle HandleManager.resize HandleManager.square sw (rnd 3) o3 c3 in
      let '(_, (o5, c5)) := addHandle HandleManager.resize HandleManager.circle n (rnd 4) o4 c4 in
      let '(_, (o6, c6)) := addHandle HandleManager.resize HandleManager.circle e (rnd 5) o5 c5 in
      let '(_, (o7, c7)) := addHandle HandleManager.resize HandleManager.circle s (rnd 6) o6 c6 in
      let '(_, (o8, c8)) := addHandle HandleManager.resize HandleManager.circle w (rnd 7) o7 c7 in
      let '(_, (o9, c9)) := addHandle HandleManager.move HandleManager.circle center (rnd 8) o8 c8 in
      (o9, c9)
  end.

End SelectionToolBundled.

(** * More of the library

    The public calls of the managers as runs, the key routing of the tool
    manager, and the click handling of the selection tool. *)

(** ** Runs of the handle manager *)

Module HandleManagerAPI.
Import HandleManager.

(** What client code and the map can do to a handle manager: build a handle
    object, call a public method, deliver a pointer event. *)
Inductive Call :=
| New (h : Handle)
| CreateHandle (t : HandleType) (s : HandleShape) (pos : option Position) (rnd : string)
| CreateAndAddHandle (t : HandleType) (s : HandleShape) (pos : option Position) (rnd : string)
| AddHandle (r : Ref)
| AddHandles (rs : list Ref)
| RemoveHandle (handleId : string)
| UpdateHandle (handleId : string) (p : HandlePatch)
| SetHandleVisibility (handleId : string) (v : bool)
| SetHandlePosition (handleId : string) (pos : Position)
| ClearHandles
| On (t : HandleEventType) (l : Listener)
| Off (t : HandleEventType) (l : Listener)
| Pointer (e : MapEvent)
| Click (features : list (option string)).

Definition step (st : State) (c : Call) : State :=
  match c with
  | New h => snd (alloc h st)
  | CreateHandle t s pos rnd => snd (createHandle t s pos rnd st)
  | CreateAndAddHandle t s pos rnd => snd (createAndAddHandle t s pos rnd st)
  | AddHandle r => addHandle r st
  | AddHandles rs => addHandles rs st
  | RemoveHandle i => snd (removeHandle i st)
  | UpdateHandle i p => snd (updateHandle i p st)
  | SetHandleVisibility i v => snd (setHandleVisibility i v st)
  | SetHandlePosition i pos => snd (setHandlePosition i pos st)
  | ClearHandles => clearHandles st
  | On t l => on t l st
  | Off t l => off t l st
  | Pointer e => handleMapEvent st e
  | Click fs => clickHandle fs st
  end.

Definition run (cs : list Call) (st : State) : State := fold_left step cs st.

(** The handles of a manager, by key, as objects. *)
Definition stored (st : State) (handleId : string) : option Handle :=
  match getHandle handleId st with
  | Some r => deref st r
  | None => None
  end.

End HandleManagerAPI.

(** ** Runs of the tool manager over tools that inherit [BaseTool] *)

Module ToolManagerAPI.
Import ToolManager.

(** [this.id = id] in the constructor of a subclass. *)
Definition withId (i : string) (o : BaseTool.Obj) : BaseTool.Obj :=
  {| BaseTool.id := i; BaseTool.name := o.(BaseTool.name);
     BaseTool.type := o.(BaseTool.type); BaseTool.cursor := o.(BaseTool.cursor);
     BaseTool.state := o.(BaseTool.state); BaseTool.handles := o.(BaseTool.handles);
     BaseTool.eventListeners := o.(BaseTool.eventListeners) |}.

(** The [keydown] handler of [setupEventHandlers]: the key goes to the active
    tool, if there is one. *)
Definition keydown (key : string) (st : State BaseTool.Obj) : State BaseTool.Obj :=
  match st.(activeTool) with
  | Some a =>
      match nth_error st.(objects) a with
      | Some o =>
          let (o', c') := BaseTool.handleKeyEvent key a o st.(ctx) in
          {| objects := HandleManager.replaceNth st.(objects) a o'; ctx := c';
             tools := st.(tools); activeTool := st.(activeTool);
             eventListeners := st.(eventListeners); calls := st.(calls) |}
      | None => st
      end
  | None => st
  end.

Inductive Call :=
| Construct (rnd : string) (i : option string)
| RegisterTool (r : ToolRef) (fwd : ToolEventType -> Listener)
| ActivateTool (toolId : string)
| DeactivateTool
| UnregisterTool (toolId : string)
| KeyDown (key : string).

Definition step (st : State BaseTool.Obj) (c : Call) : State BaseTool.Obj :=
  match c with
  | Construct rnd None => snd (construct (BaseTool.new rnd) st)
  | Construct rnd (Some i) => snd (construct (withId i (BaseTool.new rnd)) st)
  | RegisterTool r fwd => registerTool r fwd st
  | ActivateTool i => snd (activateTool i st)
  | DeactivateTool => snd (deactivateTool st)
  | UnregisterTool i => snd (unregisterTool i st)
  | KeyDown k => keydown k st
  end.

Definition run (cs : list Call) (st : State BaseTool.Obj) : State BaseTool.Obj :=
  fold_left step cs st.

(** The references of the tools that are not inactive. *)
Fixpoint notInactive (os : list BaseTool.Obj) (from : ToolRef) : list ToolRef :=
  match os with
  | [] => []
  | o :: r =>
      if ToolState_eqb o.(BaseTool.state) inactive
      then notInactive r (S from)
      else from :: notInactive r (S from)
  end.

End ToolManagerAPI.

(** ** SelectionTool: clicks (src/lib/tools/selection-tool.ts) *)

Module SelectionToolClick.

(** A feature returned by [map.queryRenderedFeatures], with the source and
    the layer it was rendered from. *)
Record HitFeature := {
  hit : SelectionManager.Feature;
  source : string;
  layer : string
}.

(** The tool with the fields its click handler reads besides those of
    handle regeneration: the multi-select option and the start of a drag box
    in progress. *)
Record Obj := {
  tool : SelectionTool.Obj;
  multiSelect : bool;
  dragStart : option (float * float)
}.

Definition withSelectionManager (s : SelectionManager.State) (c : Ctx) : Ctx :=
  {| handleManager := c.(handleManager); selectionManager := s;
     canvasCursor := c.(canvasCursor); emitted := c.(emitted);
     delivered := c.(delivered) |}.

Section WithTurf.
Variable turf : SelectionManager.Turf.

(** [features.forEach(feature => this.selectionManager.select(feature,
    feature.source, feature.layer.id, !this.multiSelect))]; the [k]-th call
    draws [rnd k]. *)
Fixpoint selectEach (multi : bool) (rnd : nat -> string) (k : nat)
         (features : list HitFeature) (s : SelectionManager.State)
  : SelectionManager.State :=
  match features with
  | [] => s
  | f :: rest =>
      selectEach multi rnd (S k) rest
        (snd (SelectionManager.select turf f.(hit) f.(source) f.(layer)
                (Some (negb multi)) (rnd k) s))
  end.

(** The selection manager after the clearing and selecting part of
    [handleClick] and of [handleMouseUp]. *)
Definition selectHits (multi : bool) (rnd : nat -> string)
           (features : list HitFeature) (s : SelectionManager.State)
  : SelectionManager.State :=
  selectEach multi rnd 0 features
    (if negb multi then SelectionManager.clearSelection s else s).

(** [handleClick]; [features] is the answer of [queryFeaturesAtPoint] for
    the clicked point, [rndSel] and [rndHandle] are the random draws of the
    [select] calls and of handle regeneration. *)
Definition handleClick (features : list HitFeature) (rndSel rndHandle : nat -> string)
           (o : Obj) (c : Ctx) : Obj * Ctx :=
  match o.(dragStart) with
  | Some _ => (o, c)
  | None =>
      if (List.length features =? 0) && negb o.(multiSelect)
      then (o, withSelectionManager
                 (SelectionManager.clearSelection c.(selectionManager)) c)
      else
        let c1 :=
          withSelectionManager
            (selectHits o.(multiSelect) rndSel features c.(selectionManager)) c in
        let (t, c2) := SelectionTool.createHandlesForSelection rndHandle o.(tool) c1 in
        ({| tool := t; multiSelect := o.(multiSelect); dragStart := o.(dragStart) |}, c2)
  end.

End WithTurf.

End SelectionToolClick.

(** * Observations

    Readings of a state that the properties below are stated with. *)

Module Observations.

(** The stored bounds are those of the stored selection. *)
Definition boundsInSync (turf : SelectionManager.Turf) (st : SelectionManager.State) : Prop :=
  SelectionManager.selectionBounds st = SelectionManager.calculateSelectionBounds turf st.

(** The payload of the event a mutating call emits, built from the state the
    call has reached. *)
Definition payload (t : SelectionManager.SelectionEventType) (st : SelectionManager.State)
  : SelectionManager.SelectionEvent :=
  {| SelectionManager.type := t;
     SelectionManager.ev_selected := SelectionManager.getSelection st;
     SelectionManager.ev_bounds := SelectionManager.getSelectionBounds st |}.

(** The position [mousemove] computes for the dragged handle. *)
Definition constrained (st : HandleManager.State) (h : HandleManager.Handle)
           (lng lt : float) : HandleManager.Position :=
  HandleManager.applyConstraints st h
    {| HandleManager.lon := lng; HandleManager.lat := lt |}.

(** The pointer position after the axis lock of a session, before any
    snapping: [lockAxis = 'x'] puts the longitude of the session's initial
    position in place of the pointer's, [lockAxis = 'y'] the latitude. *)
Definition afterLock (c : HandleManager.Constraints) (ds : HandleManager.DragState)
           (lng lt : float) : HandleManager.Position :=
  match HandleManager.lockAxis c with
  | Some HandleManager.axis_x =>
      {| HandleManager.lon := HandleManager.lon (HandleManager.initialPosition ds);
         HandleManager.lat := lt |}
  | Some HandleManager.axis_y =>
      {| HandleManager.lon := lng;
         HandleManager.lat := HandleManager.lat (HandleManager.initialPosition ds) |}
  | None => {| HandleManager.lon := lng; HandleManager.lat := lt |}
  end.




End Observations.

(** * Concrete inputs

    Small worlds on which the operations are run in the examples and
    counterexamples below. *)

Module Examples.
Import SelectionManager.

(** An instance of the geospatial collaborator to run examples with: the
    bounding box is the running minimum and maximum over the vertices, the
    center is the middle of the box; areas and lengths, which need geodesic
    formulas, are left at zero. *)
Definition vertices (f : Feature) : list (float * float) :=
  List.concat (List.concat f.(geometry).(coordinates)).

Definition growBbox (b : Bbox) (p : float * float) : Bbox :=
  {| minX := if PrimFloat.ltb (fst p) b.(minX) then fst p else b.(minX);
     minY := if PrimFloat.ltb (snd p) b.(minY) then snd p else b.(minY);
     maxX := if PrimFloat.ltb b.(maxX) (fst p) then fst p else b.(maxX);
     maxY := if PrimFloat.ltb b.(maxY) (snd p) then snd p else b.(maxY) |}.

Definition exampleBbox (fs : list Feature) : Bbox :=
  fold_left growBbox (List.concat (map vertices fs))
    {| minX := infinity; minY := infinity;
       maxX := neg_infinity; maxY := neg_infinity |}.

Definition exampleTurf : Turf :=
  {| turf_bbox := exampleBbox;
     turf_center := fun fs =>
       let b := exampleBbox fs in
       ((b.(minX) + b.(maxX)) / 2, (b.(minY) + b.(maxY)) / 2)%float;
     turf_area := fun _ => 0%float;
     turf_polygonToLine := fun g => OneLine {| fid := None; geometry := g |};
     turf_length := fun _ => 0%float |}.

Definition triangleA : Feature :=
  {| fid := Some "A"%string;
     geometry := {| gtype := Polygon;
                    coordinates := [[[(0, 0); (2, 0); (0, 1); (0, 0)]]]%float |} |}.

Definition pointB : Feature :=
  {| fid := Some "B"%string;
     geometry := {| gtype := Point; coordinates := [[[(5, 3)]]]%float |} |}.


End Examples.

Module HandleExamples.
Import HandleManager.

(** A handle made by client code, locked on the x axis, and a grid-snapping
    handle made by [createHandle]. *)
Definition lockedHandle : Handle :=
  {| id := "h1"; type := move; shape := circle;
     position := {| lon := 1; lat := 2 |};
     color := "#33ff57"; size := 1; cursor := "move";
     visible := true; draggable := true;
     constraints :=
       Some {| snapToGrid := None; lockAxis := Some axis_x; proportional := None |} |}%float.

(** A manager holding [lockedHandle] (reference 0, key "h1") and a [snap]
    handle at (3, 4) (reference 1, key "handle-abc"). *)
Definition twoHandles : State :=
  let (r1, s1) := alloc lockedHandle (init {| lon := 0; lat := 0 |}%float) in
  snd (createAndAddHandle snap triangle (Some {| lon := 3; lat := 4 |}%float) "abc"
         (addHandle r1 s1)).

(** The pointer goes down on "h1". *)
Definition draggingLocked : State := mousedown [Some "h1"%string] twoHandles.

(** The pointer goes down on "handle-abc". *)
Definition draggingSnap : State := mousedown [Some "handle-abc"%string] twoHandles.

(** A handle locked on the x axis that also snaps to the grid, off the
    grid at (1.2345, 2), in a manager of its own, with the pointer down on
    it. *)
Definition lockedSnapHandle : Handle :=
  {| id := "h3"; type := snap; shape := diamond;
     position := {| lon := 1.2345; lat := 2 |};
     color := "#ff33bb"; size := 1; cursor := "cell";
     visible := true; draggable := true;
     constraints :=
       Some {| snapToGrid := Some true; lockAxis := Some axis_x;
               proportional := None |} |}%float.

Definition draggingLockedSnap : State :=
  let (r, s) := alloc lockedSnapHandle (init {| lon := 0; lat := 0 |}%float) in
  mousedown [Some "h3"%string] (addHandle r s).

End HandleExamples.


Module ToolExamples.
Import ToolManager.

(** A method of a tool run on the object behind a reference, as client code
    or an event handler would call it. *)
Definition withTool (m : BaseTool.Obj -> Ctx -> BaseTool.Obj * Ctx) (r : ToolRef)
           (st : State BaseTool.Obj) : State BaseTool.Obj :=
  match nth_error st.(objects) r with
  | Some o =>
      let (o', c') := m o st.(ctx) in
      {| objects := HandleManager.replaceNth st.(objects) r o'; ctx := c';
         tools := st.(tools); activeTool := st.(activeTool);
         eventListeners := st.(eventListeners); calls := st.(calls) |}
  | None => st
  end.

(** The k-th random draw of the examples: "a", "b", "c", ... *)
Definition draws (k : nat) : string :=
  String (Ascii.ascii_of_nat (97 + k)) EmptyString.

(** A map with the triangle [triangleA] selected and no handle yet. *)
Definition ctx0 : Ctx :=
  Eval vm_compute in
  {| handleManager :=
       HandleManager.init {| HandleManager.lon := 0; HandleManager.lat := 0 |}%float;
     selectionManager :=
       snd (SelectionManager.select Examples.exampleTurf Examples.triangleA
              "src" "lyr" None "r" SelectionManager.init);
     canvasCursor := ""; emitted := []; delivered := [] |}.

(** Two tools "tool-a" (reference 0) and "tool-b" (reference 1), registered;
    listeners 10.. and 20.. are the manager's forwarding closures. *)
Definition forwarder (n : nat) (t : ToolEventType) : Listener :=
  n + match t with
      | activate_ev => 0 | deactivate_ev => 1 | start_ev => 2
      | update_ev => 3 | complete_ev => 4 | cancel_ev => 5
      end.

Definition registered : State BaseTool.Obj :=
  let (a, s1) := construct (BaseTool.new "a") (init BaseTool.Obj ctx0) in
  let (b, s2) := construct (BaseTool.new "b") s1 in
  registerTool b (forwarder 20) (registerTool a (forwarder 10) s2).

(** "tool-a" is activated and has regenerated its handles around the
    selection, the way the SelectionTool kept in BaseTool.ts does. *)
Definition toolAActive : State BaseTool.Obj :=
  Eval vm_compute in
    withTool (SelectionToolBundled.createHandlesForSelection draws) 0
      (snd (activateTool "tool-a" registered)).

(** A SelectionTool of selection-tool.ts, before any handle was made. *)
Definition selectionTool0 : SelectionTool.Obj :=
  {| SelectionTool.base := BaseTool.new "s";
     SelectionTool.cornerHandles := [];
     SelectionTool.edgeHandles := [];
     SelectionTool.centerHandle := None |}.

End ToolExamples.

(** * More observations and inputs *)

Module MoreObservations.

(** A handle whose constraints neither lock an axis nor snap to the grid
    (or that has no constraints at all). *)
Definition unconstrained (h : HandleManager.Handle) : bool :=
  match HandleManager.constraints h with
  | None => true
  | Some c =>
      negb (JS.truthy (HandleManager.snapToGrid c))
      && match HandleManager.lockAxis c with
         | None => true
         | Some _ => false
         end
  end.

(** The position object the [mousemove] handler builds from [e.lngLat]. *)
Definition pointerAt (p : float * float) : HandleManager.Position :=
  {| HandleManager.lon := fst p; HandleManager.lat := snd p |}.

(** A handle event of a type, about a handle, at a position. *)
Definition handleEvent (t : HandleManager.HandleEventType) (r : HandleManager.Ref)
           (pos : HandleManager.Position) : HandleManager.HandleEvent :=
  {| HandleManager.ev_type := t; HandleManager.ev_handle := r;
     HandleManager.ev_position := pos |}.

(** [{ position }] as [Partial<Handle>]. *)
Definition positionPatch (pos : HandleManager.Position) : HandleManager.HandlePatch :=
  {| HandleManager.p_id := None; HandleManager.p_type := None;
     HandleManager.p_shape := None; HandleManager.p_position := Some pos;
     HandleManager.p_color := None; HandleManager.p_size := None;
     HandleManager.p_cursor := None; HandleManager.p_visible := None;
     HandleManager.p_draggable := None; HandleManager.p_constraints := None |}.

(** The state a tool is expected to be in, given the active-tool slot:
    [active] for the tool in the slot, [inactive] for any other. *)
Definition expectedState (slot : option ToolRef) (r : ToolRef) : ToolState :=
  match slot with
  | Some a => if Nat.eqb a r then active else inactive
  | None => inactive
  end.

End MoreObservations.

Module MoreHandleExamples.
Import HandleManager HandleManagerAPI.

(** A manager with a [move] handle made by [createAndAddHandle] at (3, 4),
    under the key "handle-m" (reference 0). *)
Definition oneMoveHandle : State :=
  Eval vm_compute in
    run [CreateAndAddHandle move circle (Some {| lon := 3; lat := 4 |}%float) "m"]
        (init {| lon := 0; lat := 0 |}%float).

(** The object behind reference 0 of [oneMoveHandle]. *)
Definition moveHandle : Handle :=
  newHandle move circle {| lon := 3; lat := 4 |}%float "m".

End MoreHandleExamples.

Module ClickExamples.
Import SelectionToolClick.

(** The triangle [triangleA] as [queryRenderedFeatures] returns it. *)
Definition hitA : HitFeature :=
  {| hit := Examples.triangleA; source := "src"; layer := "lyr" |}.

(** A SelectionTool of selection-tool.ts as constructed, in single-select
    and in multi-select mode. *)
Definition singleTool : Obj :=
  {| tool := ToolExamples.selectionTool0; multiSelect := false; dragStart := None |}.

Definition multiTool : Obj :=
  {| tool := ToolExamples.selectionTool0; multiSelect := true; dragStart := None |}.

End ClickExamples.

(** * Properties *)

Unset Implicit Arguments.

(** ** Facts about the containers *)

Module ListFacts.

Lemma nth_error_replaceNth_same {A : Type} (l : list A) n a b :
  nth_error l n = Some b -> nth_error (HandleManager.replaceNth l n a) n = Some a.
Proof.
  revert n. induction l as [|c l IH]; intros [|n]; simpl; try discriminate; auto.
Qed.

Lemma nth_error_replaceNth_other {A : Type} (l : list A) n m a :
  n <> m -> nth_error (HandleManager.replaceNth l n a) m = nth_error l m.
Proof.
  revert n m. induction l as [|c l IH]; intros [|n] [|m] H; simpl; auto;
    congruence.
Qed.

Lemma nth_error_snoc_old {A : Type} (l : list A) n a b :
  nth_error l n = Some b -> nth_error (l ++ [a]) n = Some b.
Proof.
  intro H. rewrite nth_error_app1; [exact H|].
  apply nth_error_Some. congruence.
Qed.

Lemma replaceNth_twice {A : Type} (l : list A) n a b :
  HandleManager.replaceNth (HandleManager.replaceNth l n a) n b
  = HandleManager.replaceNth l n b.
Proof.
  revert n. induction l as [|c l IH]; intros [|n]; cbn; auto. now rewrite IH.
Qed.

End ListFacts.

Module JSMapFacts.
Section Facts.
Variables K V : Type.
Variable eqb : K -> K -> bool.
Hypothesis eqb_refl : forall k, eqb k k = true.

Lemma get_set_same (m : JSMap.t K V) k v :
  JSMap.get eqb (JSMap.set eqb m k v) k = Some v.
Proof.
  induction m as [|[k' v'] r IH]; simpl.
  - now rewrite eqb_refl.
  - destruct (eqb k' k) eqn:E; simpl; rewrite E; auto.
Qed.

Lemma size_set_pos (m : JSMap.t K V) k v :
  JSMap.size (JSMap.set eqb m k v) <> 0.
Proof.
  destruct m as [|[k' v'] r]; simpl; [discriminate|].
  destruct (eqb k' k); simpl; discriminate.
Qed.

Lemma values_nil_iff (m : JSMap.t K V) :
  JSMap.values m = [] <-> JSMap.size m = 0.
Proof.
  destruct m; simpl; split; intro H; try reflexivity; discriminate.
Qed.
End Facts.
End JSMapFacts.

(** ** SelectionManager *)

Module SelectionManagerFacts.
Import SelectionManager Observations Examples.

Section Facts.
Variable turf : Turf.

Lemma current_forEach_notCurrent (m : JSMap.t string SelectedFeature) :
  filter isCurrentSelection (JSMap.values (JSMap.forEach_mutate notCurrent m)) = [].
Proof.
  unfold JSMap.values.
  induction m as [|[k v] r IH]; simpl; auto.
Qed.

Lemma current_set_le (m : JSMap.t string SelectedFeature) k v :
  List.length (filter isCurrentSelection (JSMap.values (JSMap.set String.eqb m k v)))
  <= List.length (filter isCurrentSelection (JSMap.values m))
     + (if isCurrentSelection v then 1 else 0).
Proof.
  unfold JSMap.values.
  induction m as [|[k' v'] r IH]; simpl.
  - destruct (isCurrentSelection v); simpl; lia.
  - destruct (String.eqb k' k); simpl.
    + destruct (isCurrentSelection v), (isCurrentSelection v'); simpl; lia.
    + destruct (isCurrentSelection v'); simpl; lia.
Qed.

Lemma current_set_none (m : JSMap.t string SelectedFeature) k v :
  filter isCurrentSelection (JSMap.values m) = [] ->
  List.length (filter isCurrentSelection (JSMap.values (JSMap.set String.eqb m k v)))
  = if isCurrentSelection v then 1 else 0.
Proof.
  unfold JSMap.values.
  induction m as [|[k' v'] r IH]; simpl; intro H.
  - destruct (isCurrentSelection v); reflexivity.
  - destruct (isCurrentSelection v') eqn:E; [discriminate|].
    destruct (String.eqb k' k); simpl.
    + rewrite H.
      destruct (isCurrentSelection v); reflexivity.
    + rewrite E. apply IH, H.
Qed.

Lemma current_delete_le (m : JSMap.t string SelectedFeature) k :
  List.length (filter isCurrentSelection (JSMap.values (JSMap.delete String.eqb m k)))
  <= List.length (filter isCurrentSelection (JSMap.values m)).
Proof.
  unfold JSMap.values.
  induction m as [|[k' v'] r IH]; simpl; auto.
  destruct (String.eqb k' k); simpl.
  - destruct (isCurrentSelection v'); simpl; lia.
  - destruct (isCurrentSelection v'); simpl; lia.
Qed.

Lemma selected_emitEvent t e st :
  selectedFeatures (emitEvent t e st) = selectedFeatures st.
Proof. destruct t; reflexivity. Qed.

Lemma bounds_emitEvent t e st :
  selectionBounds (emitEvent t e st) = selectionBounds st.
Proof. destruct t; reflexivity. Qed.

Lemma listeners_emitEvent t e st :
  eventListeners (emitEvent t e st) = eventListeners st.
Proof. destruct t; reflexivity. Qed.

Lemma selected_select f src lyr cur0 rnd st :
  selectedFeatures (snd (select turf f src lyr cur0 rnd st))
  = JSMap.set String.eqb
      (selectedFeatures (resetCurrent (match cur0 with Some b => b | None => true end) st))
      (featureIdOf f rnd) (fst (select turf f src lyr cur0 rnd st)).
Proof. reflexivity. Qed.

Lemma selected_deselect i st :
  selectedFeatures (snd (deselect turf i st))
  = JSMap.delete String.eqb (selectedFeatures st) i.
Proof.
  unfold deselect. destruct (JSMap.has _ _ _); reflexivity.
Qed.

Lemma countCurrent_step st c :
  countCurrent st <= 1 -> countCurrent (step turf st c) <= 1.
Proof.
  unfold countCurrent, getSelection. intro H.
  destruct c as [f src lyr cur0 rnd|i| |t l|t l]; cbn [step].
  - rewrite selected_select.
    destruct cur0 as [[|]|]; simpl.
    + rewrite current_set_none by apply current_forEach_notCurrent. simpl. lia.
    + eapply Nat.le_trans; [apply current_set_le|]. simpl. lia.
    + rewrite current_set_none by apply current_forEach_notCurrent. simpl. lia.
  - rewrite selected_deselect.
    eapply Nat.le_trans; [apply current_delete_le|exact H].
  - simpl. lia.
  - exact H.
  - exact H.
Qed.

Lemma run_snoc cs c st :
  run turf (cs ++ [c]) st = step turf (run turf cs st) c.
Proof. unfold run. now rewrite fold_left_app. Qed.

Lemma countCurrent_run cs : countCurrent (run turf cs init) <= 1.
Proof.
  induction cs as [|c cs IH] using rev_ind.
  - simpl. unfold countCurrent. simpl. lia.
  - rewrite run_snoc. now apply countCurrent_step.
Qed.

Lemma countCurrent_le_size st :
  countCurrent st <= List.length (getSelection st).
Proof. unfold countCurrent. apply filter_length_le. Qed.

(** C1 (as amended): over every run of [select], [deselect] and
    [clearSelection] (with listeners coming and going) from the empty
    selection, at most one entry is flagged current, and none when the
    selection is empty.  A [select] with [setAsCurrent = true] first turns the
    flag off on every existing entry, then stores the new entry, which is
    then the only current one.  A [select] with [setAsCurrent = false] stores
    a non-current entry and does not touch the flag of any other entry, so
    the number of current entries does not grow (and an earlier current entry
    stays current). *)
Theorem C1_at_most_one_current_selection :
  (forall cs,
      countCurrent (run turf cs init) <= 1
      /\ countCurrent (run turf cs init) <= List.length (getSelection (run turf cs init)))
  /\ (forall st f src lyr rnd,
        countCurrent (resetCurrent true st) = 0
        /\ selectedFeatures (snd (select turf f src lyr (Some true) rnd st))
           = JSMap.set String.eqb (selectedFeatures (resetCurrent true st))
               (featureIdOf f rnd) (fst (select turf f src lyr (Some true) rnd st))
        /\ isCurrentSelection (fst (select turf f src lyr (Some true) rnd st)) = true
        /\ JSMap.get String.eqb
             (selectedFeatures (snd (select turf f src lyr (Some true) rnd st)))
             (featureIdOf f rnd)
           = Some (fst (select turf f src lyr (Some true) rnd st))
        /\ countCurrent (snd (select turf f src lyr (Some true) rnd st)) = 1)
  /\ (forall st f src lyr rnd,
        selectedFeatures (snd (select turf f src lyr (Some false) rnd st))
        = JSMap.set String.eqb (selectedFeatures st)
            (featureIdOf f rnd) (fst (select turf f src lyr (Some false) rnd st))
        /\ isCurrentSelection (fst (select turf f src lyr (Some false) rnd st)) = false
        /\ countCurrent (snd (select turf f src lyr (Some false) rnd st))
           <= countCurrent st).
Proof.
  split; [|split].
  - intro cs. split; [apply countCurrent_run | apply countCurrent_le_size].
  - intros st f src lyr rnd.
    assert (Z : countCurrent (resetCurrent true st) = 0).
    { unfold countCurrent, getSelection. simpl.
      now rewrite current_forEach_notCurrent. }
    split; [exact Z|]. split; [reflexivity|]. split; [reflexivity|]. split.
    + rewrite selected_select. apply JSMapFacts.get_set_same, String.eqb_refl.
    + unfold countCurrent, getSelection. rewrite selected_select.
      rewrite current_set_none; [reflexivity|].
      apply current_forEach_notCurrent.
  - intros st f src lyr rnd.
    split; [reflexivity|]. split; [reflexivity|].
    unfold countCurrent, getSelection. rewrite selected_select.
    eapply Nat.le_trans; [apply current_set_le|]. simpl. lia.
Qed.

(** *** Bounds *)

Lemma calculateSelectionBounds_ext a b :
  selectedFeatures a = selectedFeatures b ->
  calculateSelectionBounds turf a = calculateSelectionBounds turf b.
Proof. unfold calculateSelectionBounds. now intros ->. Qed.

Lemma calculateSelectionBounds_None st :
  calculateSelectionBounds turf st = None <-> getSelection st = [].
Proof.
  unfold calculateSelectionBounds, getSelection.
  destruct (selectedFeatures st) as [|kv r]; simpl.
  - split; reflexivity.
  - destruct (fold_left _ _ _). split; discriminate.
Qed.

Lemma boundsInSync_select f src lyr cur0 rnd st :
  boundsInSync turf (snd (select turf f src lyr cur0 rnd st)).
Proof.
  unfold boundsInSync. unfold select at 1. cbn [snd].
  rewrite bounds_emitEvent. cbn [updateSource withBounds selectionBounds].
  apply calculateSelectionBounds_ext. now rewrite selected_select.
Qed.


Lemma bounds_deselect i st :
  selectionBounds (snd (deselect turf i st))
  = if JSMap.has String.eqb (selectedFeatures st) i
    then calculateSelectionBounds turf (snd (deselect turf i st))
    else selectionBounds st.
Proof.
  unfold deselect. destruct (JSMap.has _ _ _) eqn:E; [|reflexivity].
  cbn [snd]. rewrite bounds_emitEvent. reflexivity.
Qed.





(** *** Events *)

Lemma delivered_emitEvent t e st :
  delivered (emitEvent t e st)
  = delivered st ++ map (fun l => (l, e)) (listenersOf st t)
    ++ (if SelectionEventType_eqb t change_ev then []
        else map (fun l => (l, {| type := change_ev;
                                  ev_selected := ev_selected e;
                                  ev_bounds := ev_bounds e |}))
                 (listenersOf st change_ev)).
Proof.
  destruct t; simpl; rewrite <- ?app_assoc; try reflexivity.
  now rewrite app_nil_r.
Qed.

(** C9: every mutating call delivers its event first to the listeners of its
    own type, in their order of registration, and then to the listeners of
    [change], with the same payload but for the type, which is [change];
    an emission of [change] itself reaches the [change] listeners once and
    is not followed by another; a [deselect] that removes nothing delivers
    nothing. *)
Theorem C9_specific_listeners_then_change_listeners :
  (forall t e st,
      delivered (emitEvent t e st)
      = delivered st ++ map (fun l => (l, e)) (listenersOf st t)
        ++ (if SelectionEventType_eqb t change_ev then []
            else map (fun l => (l, {| type := change_ev;
                                      ev_selected := ev_selected e;
                                      ev_bounds := ev_bounds e |}))
                     (listenersOf st change_ev)))
  /\ (forall f src lyr cur0 rnd st,
        delivered (snd (select turf f src lyr cur0 rnd st))
        = delivered st
          ++ map (fun l => (l, payload select_ev (snd (select turf f src lyr cur0 rnd st))))
                 (listenersOf st select_ev)
          ++ map (fun l => (l, payload change_ev (snd (select turf f src lyr cur0 rnd st))))
                 (listenersOf st change_ev))
  /\ (forall i st,
        delivered (snd (deselect turf i st))
        = if fst (deselect turf i st)
          then delivered st
               ++ map (fun l => (l, payload deselect_ev (snd (deselect turf i st))))
                      (listenersOf st deselect_ev)
               ++ map (fun l => (l, payload change_ev (snd (deselect turf i st))))
                      (listenersOf st change_ev)
          else delivered st)
  /\ (forall st,
        delivered (clearSelection st)
        = delivered st
          ++ map (fun l => (l, payload clear_ev (clearSelection st)))
                 (listenersOf st clear_ev)
          ++ map (fun l => (l, payload change_ev (clearSelection st)))
                 (listenersOf st change_ev))
  /\ (forall t l st,
        listenersOf (on t l st) t = JSSet.add Nat.eqb (listenersOf st t) l).
Proof.
  split; [exact delivered_emitEvent|]. split; [|split; [|split]].
  - intros. unfold select. cbn [snd]. rewrite delivered_emitEvent.
    unfold payload, getSelection, getSelectionBounds.
    rewrite selected_emitEvent, bounds_emitEvent.
    destruct cur0 as [[|]|]; reflexivity.
  - intros i st. unfold deselect.
    destruct (JSMap.has _ _ _); cbn [fst snd]; [|reflexivity].
    rewrite delivered_emitEvent.
    unfold payload, getSelection, getSelectionBounds.
    rewrite selected_emitEvent, bounds_emitEvent. reflexivity.
  - intro st. unfold clearSelection. rewrite delivered_emitEvent. reflexivity.
  - intros t l st. unfold on, listenersOf, JSMap.has. cbn [eventListeners].
    assert (R : forall a, SelectionEventType_eqb a a = true) by (now intros []).
    destruct (JSMap.get SelectionEventType_eqb (eventListeners st) t) eqn:E.
    + rewrite E. now rewrite JSMapFacts.get_set_same.
    + rewrite !JSMapFacts.get_set_same by exact R. reflexivity.
Qed.

(** C10: [clearSelection] on an empty selection returns normally; it leaves
    the selection empty, sets the bounds to [null], and still delivers a
    [clear] event (no selected feature, no bounds) to the [clear] listeners
    and then the same payload as [change] to the [change] listeners. *)
Theorem C10_clearSelection_on_empty_still_emits st :
  getSelection st = [] ->
  getSelection (clearSelection st) = []
  /\ getSelectionBounds (clearSelection st) = None
  /\ delivered (clearSelection st)
     = delivered st
       ++ map (fun l => (l, {| type := clear_ev; ev_selected := []; ev_bounds := None |}))
              (listenersOf st clear_ev)
       ++ map (fun l => (l, {| type := change_ev; ev_selected := []; ev_bounds := None |}))
              (listenersOf st change_ev).
Proof.
  intros _. split; [reflexivity|]. split; [reflexivity|].
  unfold clearSelection. rewrite delivered_emitEvent. reflexivity.
Qed.

End Facts.

(** Counterexample to C1 as stated: a [select] with [setAsCurrent = false] that
    follows a [select] with [setAsCurrent = true] leaves the first entry
    current, so the most recent [select] used [setAsCurrent = false] and
    yet one entry, not zero, is current. *)
Lemma C1_current_entry_survives_noncurrent_select :
  map (fun s => (id s, isCurrentSelection s))
      (getSelection
         (run exampleTurf
            [CallSelect triangleA "src" "lyr" (Some true) "r1";
             CallSelect pointB "src" "lyr" (Some false) "r2"] init))
  = [("A", true); ("B", false)]%string
  /\ countCurrent
       (run exampleTurf
          [CallSelect triangleA "src" "lyr" (Some true) "r1";
           CallSelect pointB "src" "lyr" (Some false) "r2"] init) = 1.
Proof. split; reflexivity. Qed.

(** Zero current entries is not tied to an empty set or to a last [select]
    with [setAsCurrent = false] either: deselecting the current entry leaves
    the older entry, which is not current. *)
Lemma deselecting_current_leaves_no_current :
  map (fun s => (id s, isCurrentSelection s))
      (getSelection
         (run exampleTurf
            [CallSelect triangleA "src" "lyr" (Some true) "r1";
             CallSelect pointB "src" "lyr" (Some true) "r2";
             CallDeselect "B"] init))
  = [("A", false)]%string.
Proof. reflexivity. Qed.

(** An empty manager with one [clear] listener and one [change] listener:
    both are called by [clearSelection]. *)
Lemma C10_witness :
  getSelection (on clear_ev 1 (on change_ev 2 init)) = []
  /\ delivered (clearSelection (on clear_ev 1 (on change_ev 2 init)))
     = [(1, {| type := clear_ev; ev_selected := []; ev_bounds := None |});
        (2, {| type := change_ev; ev_selected := []; ev_bounds := None |})].
Proof.
  split; [reflexivity|].
  exact (proj2 (proj2 (C10_clearSelection_on_empty_still_emits
                         (on clear_ev 1 (on change_ev 2 init)) eq_refl))).
Defined.

End SelectionManagerFacts.

(** ** HandleManager *)

Module HandleManagerFacts.
Import HandleManager Observations HandleExamples ListFacts.

(** [updateHandle] allocates: the objects that exist keep their fields, and
    the session and the logs are not touched. *)
Lemma updateHandle_frame handleId p st :
  dragState (snd (updateHandle handleId p st)) = dragState st
  /\ activeHandle (snd (updateHandle handleId p st)) = activeHandle st
  /\ emitted (snd (updateHandle handleId p st)) = emitted st
  /\ delivered (snd (updateHandle handleId p st)) = delivered st
  /\ eventListeners (snd (updateHandle handleId p st)) = eventListeners st
  /\ (forall r h, deref st r = Some h ->
                 deref (snd (updateHandle handleId p st)) r = Some h).
Proof.
  unfold updateHandle.
  destruct (JSMap.get String.eqb (handles st) handleId) as [r0|]; [|now repeat split].
  destruct (deref st r0) as [h0|]; [|now repeat split].
  cbn. repeat split; try reflexivity.
  intros r h H. unfold deref in *. cbn. now apply nth_error_snoc_old.
Qed.

(** One pointer move during a session: the dragged object gets the
    constrained position, the session records it, a [drag] event carries it. *)
Lemma mousemove_session st ds h lng lt :
  dragState st = Some ds ->
  deref st (handle ds) = Some h ->
  deref (mousemove lng lt st) (handle ds)
  = Some (setPosition h (constrained st h lng lt))
  /\ dragState (mousemove lng lt st)
     = Some {| handle := handle ds; initialPosition := initialPosition ds;
               currentPosition := constrained st h lng lt |}
  /\ emitted (mousemove lng lt st)
     = emitted st ++ [{| ev_type := drag; ev_handle := handle ds;
                         ev_position := constrained st h lng lt |}].
Proof.
  intros D H. unfold mousemove. rewrite D, H.
  fold (constrained st h lng lt).
  set (h' := setPosition h (constrained st h lng lt)).
  set (st2 := withDrag _ _ _).
  destruct (updateHandle_frame (id h') (patchOf h') st2) as (E1 & _ & E3 & _ & _ & E6).
  cbn [emitEvent withLogs objects dragState emitted deref].
  split; [|split].
  - apply E6. unfold st2, deref. cbn.
    eapply nth_error_replaceNth_same. exact H.
  - rewrite E1. reflexivity.
  - rewrite E3. reflexivity.
Qed.

(** The map's copy of the dragged handle follows: [updateHandle] stores a
    new object with the constrained position under the handle's id. *)
Lemma mousemove_stored st ds h lng lt r0 h0 :
  dragState st = Some ds ->
  deref st (handle ds) = Some h ->
  JSMap.get String.eqb (handles st) (id h) = Some r0 ->
  deref st r0 = Some h0 ->
  exists r1 h1,
    getHandle (id h) (mousemove lng lt st) = Some r1
    /\ deref (mousemove lng lt st) r1 = Some h1
    /\ position h1 = constrained st h lng lt.
Proof.
  intros D H G H0. unfold mousemove. rewrite D, H.
  fold (constrained st h lng lt).
  set (h' := setPosition h (constrained st h lng lt)).
  set (st2 := withDrag _ _ _).
  assert (G2 : JSMap.get String.eqb (handles st2) (id h') = Some r0) by exact G.
  assert (exists h0', deref st2 r0 = Some h0') as [h0' H0'].
  { unfold st2, deref. cbn.
    destruct (Nat.eq_dec (handle ds) r0) as [->|N].
    - eexists. eapply nth_error_replaceNth_same. exact H0.
    - exists h0. rewrite nth_error_replaceNth_other by exact N. exact H0. }
  unfold updateHandle. rewrite G2, H0'.
  exists (List.length (objects st2)), (spread h0' (patchOf h')).
  cbn. split; [|split].
  - unfold getHandle. cbn. apply JSMapFacts.get_set_same, String.eqb_refl.
  - unfold deref. cbn. rewrite nth_error_app2 by lia.
    now rewrite Nat.sub_diag.
  - reflexivity.
Qed.

Lemma mousedown_hit st handleId fs r h :
  JSMap.get String.eqb (handles st) handleId = Some r ->
  deref st r = Some h ->
  draggable h = true ->
  dragState (mousedown (Some handleId :: fs) st)
  = Some {| handle := r; initialPosition := position h;
            currentPosition := position h |}
  /\ activeHandle (mousedown (Some handleId :: fs) st) = Some handleId
  /\ emitted (mousedown (Some handleId :: fs) st)
     = emitted st ++ [{| ev_type := dragstart; ev_handle := r;
                         ev_position := position h |}]
  /\ objects (mousedown (Some handleId :: fs) st) = objects st
  /\ handles (mousedown (Some handleId :: fs) st) = handles st.
Proof.
  intros G H Dr. unfold mousedown, hitHandle. rewrite G, H, Dr.
  repeat split.
Qed.


Lemma last_cons {A : Type} (a d : A) l : last (a :: l) d = last l a.
Proof.
  revert a d. induction l as [|b l IH]; intros a d; [reflexivity|].
  change (last (b :: l) d = last (b :: l) a). now rewrite !IH.
Qed.

Lemma mousemoves_lock_x ps : forall st ds h c,
  dragState st = Some ds ->
  deref st (handle ds) = Some h ->
  constraints h = Some c ->
  lockAxis c = Some axis_x ->
  JS.truthy (snapToGrid c) = false ->
  lon (position h) = lon (initialPosition ds) ->
  exists h' cp,
    deref (mousemoves ps st) (handle ds) = Some h'
    /\ lon (position h') = lon (initialPosition ds)
    /\ lat (position h') = last (map snd ps) (lat (position h))
    /\ dragState (mousemoves ps st)
       = Some {| handle := handle ds; initialPosition := initialPosition ds;
                 currentPosition := cp |}.
Proof.
  induction ps as [|[lng lt] ps IH]; intros st ds h c D H C L S E.
  - exists h, (currentPosition ds). simpl. repeat split; auto.
    rewrite D. now destruct ds.
  - destruct (mousemove_session st ds h lng lt D H) as (H1 & D1 & _).
    assert (P : constrained st h lng lt
                = {| lon := lon (initialPosition ds); lat := lt |}).
    { unfold constrained, applyConstraints, applySnapToGrid, applyLockAxis.
      now rewrite C, L, D, S. }
    rewrite P in H1, D1.
    change (mousemoves ((lng, lt) :: ps) st)
      with (mousemoves ps (mousemove lng lt st)).
    destruct (IH _ _ _ c D1 H1 C L S eq_refl) as (h' & cp & A1 & A2 & A3 & A4).
    exists h', cp. cbn [handle initialPosition] in *.
    repeat split; auto.
    cbn [map snd]. rewrite last_cons. exact A3.
Qed.

(** C4 (as amended): for a handle with [lockAxis = 'x'] (and no grid snap),
    over any run of pointer moves after the pointer-down that starts the
    session, it is the longitude that stays at the value captured at
    [dragstart]; the latitude is the latitude of the last pointer move (the
    handle's own when there was none). *)
Theorem C4_lockAxis_x_keeps_longitude st handleId fs r h c ps :
  JSMap.get String.eqb (handles st) handleId = Some r ->
  deref st r = Some h ->
  draggable h = true ->
  constraints h = Some c ->
  lockAxis c = Some axis_x ->
  JS.truthy (snapToGrid c) = false ->
  exists h' cp,
    deref (mousemoves ps (mousedown (Some handleId :: fs) st)) r = Some h'
    /\ lon (position h') = lon (position h)
    /\ lat (position h') = last (map snd ps) (lat (position h))
    /\ dragState (mousemoves ps (mousedown (Some handleId :: fs) st))
       = Some {| handle := r; initialPosition := position h;
                 currentPosition := cp |}.
Proof.
  intros G H Dr C L S.
  destruct (mousedown_hit st handleId fs r h G H Dr) as (D & _ & _ & O & _).
  assert (H1 : deref (mousedown (Some handleId :: fs) st) r = Some h)
    by (unfold deref; now rewrite O).
  exact (mousemoves_lock_x ps (mousedown (Some handleId :: fs) st) _ h c D H1 C L S eq_refl).
Qed.

(** The other axis: with [lockAxis = 'y'] it is the latitude that stays. *)
Lemma mousemoves_lock_y ps : forall st ds h c,
  dragState st = Some ds ->
  deref st (handle ds) = Some h ->
  constraints h = Some c ->
  lockAxis c = Some axis_y ->
  JS.truthy (snapToGrid c) = false ->
  lat (position h) = lat (initialPosition ds) ->
  exists h',
    deref (mousemoves ps st) (handle ds) = Some h'
    /\ lat (position h') = lat (initialPosition ds)
    /\ lon (position h') = last (map fst ps) (lon (position h)).
Proof.
  induction ps as [|[lng lt] ps IH]; intros st ds h c D H C L S E.
  - exists h. simpl. auto.
  - destruct (mousemove_session st ds h lng lt D H) as (H1 & D1 & _).
    assert (P : constrained st h lng lt
                = {| lon := lng; lat := lat (initialPosition ds) |}).
    { unfold constrained, applyConstraints, applySnapToGrid, applyLockAxis.
      now rewrite C, L, D, S. }
    rewrite P in H1, D1.
    change (mousemoves ((lng, lt) :: ps) st)
      with (mousemoves ps (mousemove lng lt st)).
    destruct (IH _ _ _ c D1 H1 C L S eq_refl) as (h' & A1 & A2 & A3).
    exists h'. cbn [handle initialPosition] in *.
    repeat split; auto.
    cbn [map fst]. rewrite last_cons. exact A3.
Qed.

(** C7: for a handle with [snapToGrid = true], one pointer move during its
    session leaves both coordinates at [Math.round(v / 0.001) * 0.001],
    a multiple of the grid step by a rounded factor, where [v] is the
    coordinate after the axis lock, so the locked coordinate is snapped as
    well; this is the position of the dragged object, of the session, of the
    [drag] event and of the handle stored under the object's id. *)
Theorem C7_snapToGrid_rounds_both_coordinates st ds h c lng lt :
  dragState st = Some ds ->
  deref st (handle ds) = Some h ->
  constraints h = Some c ->
  snapToGrid c = Some true ->
  exists h',
    deref (mousemove lng lt st) (handle ds) = Some h'
    /\ position h'
       = {| lon := (JS.Math_round (lon (afterLock c ds lng lt) / 0.001) * 0.001)%float;
            lat := (JS.Math_round (lat (afterLock c ds lng lt) / 0.001) * 0.001)%float |}
    /\ dragState (mousemove lng lt st)
       = Some {| handle := handle ds; initialPosition := initialPosition ds;
                 currentPosition := position h' |}
    /\ emitted (mousemove lng lt st)
       = emitted st ++ [{| ev_type := drag; ev_handle := handle ds;
                           ev_position := position h' |}]
    /\ (forall r0 h0,
          JSMap.get String.eqb (handles st) (id h) = Some r0 ->
          deref st r0 = Some h0 ->
          exists r1 h1,
            getHandle (id h) (mousemove lng lt st) = Some r1
            /\ deref (mousemove lng lt st) r1 = Some h1
            /\ position h1 = position h').
Proof.
  intros D H C S.
  destruct (mousemove_session st ds h lng lt D H) as (H1 & D1 & E1).
  assert (P : constrained st h lng lt
              = {| lon := snapCoordinate (lon (afterLock c ds lng lt));
                   lat := snapCoordinate (lat (afterLock c ds lng lt)) |}).
  { unfold constrained, applyConstraints, applySnapToGrid, applyLockAxis, afterLock.
    rewrite C, S, D. cbn [JS.truthy].
    destruct (lockAxis c) as [[|]|]; reflexivity. }
  exists (setPosition h (constrained st h lng lt)).
  split; [exact H1|]. cbn [position setPosition].
  split; [exact P|]. split; [exact D1|]. split; [exact E1|].
  intros r0 h0 G H0. exact (mousemove_stored st ds h lng lt r0 h0 D H G H0).
Qed.



(** Counterexample to C4 as stated: "h1" has [lockAxis = 'x'] and sits at (1, 2) when
    the session starts; a pointer move to (5, 7) leaves it at (1, 7): the
    latitude has left the value captured at [dragstart]. *)
Lemma C4_lockAxis_x_latitude_moves :
  option_map initialPosition (dragState (mousemove 5 7 draggingLocked))
  = Some {| lon := 1; lat := 2 |}
  /\ option_map position (deref (mousemove 5 7 draggingLocked) 0)
     = Some {| lon := 1; lat := 7 |}
  /\ PrimFloat.eqb 7 2 = false.
Proof. repeat split. Qed.

Lemma C4_witness :
  exists h' cp,
    deref (mousemoves [(5, 7); (6, 8)]%float draggingLocked) 0 = Some h'
    /\ lon (position h') = 1%float
    /\ lat (position h') = 8%float
    /\ dragState (mousemoves [(5, 7); (6, 8)]%float draggingLocked)
       = Some {| handle := 0; initialPosition := {| lon := 1; lat := 2 |};
                 currentPosition := cp |}.
Proof.
  exact (C4_lockAxis_x_keeps_longitude twoHandles "h1" [] 0 lockedHandle
           {| snapToGrid := None; lockAxis := Some axis_x; proportional := None |}
           [(5, 7); (6, 8)]%float
           eq_refl eq_refl eq_refl eq_refl eq_refl eq_refl).
Defined.

(** With both constraints the locked longitude is pinned to the initial
    1.2345 and then snapped: after one pointer move the handle is at
    longitude 1.2350000000000001, off its initial value. *)
Lemma locked_axis_is_snapped_too :
  option_map initialPosition (dragState draggingLockedSnap)
  = Some {| lon := 1.2345; lat := 2 |}
  /\ option_map position (deref (mousemove 5 7 draggingLockedSnap) 0)
     = Some {| lon := 1.2350000000000001; lat := 7 |}.
Proof. split; reflexivity. Qed.

Lemma C7_witness :
  exists h',
    deref (mousemove 1.2345 2.5 draggingSnap) 1 = Some h'
    /\ position h' = {| lon := 1.2350000000000001; lat := 2.5 |}%float.
Proof.
  destruct (C7_snapToGrid_rounds_both_coordinates
              draggingSnap
              {| handle := 1; initialPosition := {| lon := 3; lat := 4 |};
                 currentPosition := {| lon := 3; lat := 4 |} |}
              {| id := "handle-abc"; type := snap; shape := triangle;
                 position := {| lon := 3; lat := 4 |};
                 color := "#ff33bb"; size := 1; cursor := "cell";
                 visible := true; draggable := true;
                 constraints := getConstraintsForType snap |}
              {| snapToGrid := Some true; lockAxis := None; proportional := None |}
              1.2345 2.5
              eq_refl eq_refl eq_refl eq_refl) as (h' & A & B & _).
  exists h'. split; [exact A|]. rewrite B. reflexivity.
Defined.

End HandleManagerFacts.

(** ** ToolManager and BaseTool *)

Module ToolManagerFacts.
Import ToolManager ListFacts ToolExamples.

Section Generic.
Variable T : Type.
Context {TT : Tool T}.

Lemma invoke_spec m what r o (st : State T) :
  nth_error (objects st) r = Some o ->
  invoke m what r st
  = {| objects := HandleManager.replaceNth (objects st) r (fst (m r o (ctx st)));
       ctx := snd (m r o (ctx st));
       tools := tools st; activeTool := activeTool st;
       eventListeners := eventListeners st;
       calls := calls st ++ [what] |}.
Proof.
  intro H. unfold invoke. rewrite H. now destruct (m r o (ctx st)).
Qed.

(** C6: with tool A active and another tool B registered under its id,
    [activateTool(B.id)] calls [A.deactivate()] once and then [B.activate()]
    (the two calls it adds to the calls made on tools, in this order; the
    world it leaves is the one [B.activate()] produces from the one
    [A.deactivate()] produced), returns B and leaves B in the active-tool
    slot; with an id that is not registered it returns [null] and the state
    is the one it was called in. *)
Theorem C6_activateTool_deactivates_then_activates (st : State T) a b oa ob :
  JSMap.get String.eqb (tools st) (tool_id ob) = Some b ->
  nth_error (objects st) b = Some ob ->
  activeTool st = Some a ->
  nth_error (objects st) a = Some oa ->
  a <> b ->
  fst (activateTool (tool_id ob) st) = Some b
  /\ getActiveTool (snd (activateTool (tool_id ob) st)) = Some b
  /\ calls (snd (activateTool (tool_id ob) st))
     = calls st ++ [Deactivate a; Activate b]
  /\ nth_error (objects (snd (activateTool (tool_id ob) st))) a
     = Some (fst (tool_deactivate a oa (ctx st)))
  /\ nth_error (objects (snd (activateTool (tool_id ob) st))) b
     = Some (fst (tool_activate b ob (snd (tool_deactivate a oa (ctx st)))))
  /\ ctx (snd (activateTool (tool_id ob) st))
     = snd (tool_activate b ob (snd (tool_deactivate a oa (ctx st))))
  /\ tools (snd (activateTool (tool_id ob) st)) = tools st
  /\ (forall toolId,
        JSMap.get String.eqb (tools st) toolId = None ->
        activateTool toolId st = (None, st)).
Proof.
  intros G Hb A Ha N.
  assert (U : forall toolId,
             JSMap.get String.eqb (tools st) toolId = None ->
             activateTool toolId st = (None, st)).
  { intros toolId E. unfold activateTool. now rewrite E. }
  match goal with
  | |- _ /\ _ /\ _ /\ _ /\ _ /\ _ /\ _ /\ ?L => set (unknownId := L) in *
  end.
  unfold activateTool. rewrite G, A.
  rewrite (invoke_spec _ _ _ oa st Ha).
  set (st1 := {| objects := _ |}).
  assert (Hb1 : nth_error (objects st1) b = Some ob).
  { unfold st1. cbn. now rewrite nth_error_replaceNth_other. }
  rewrite (invoke_spec _ _ _ ob st1 Hb1).
  unfold st1. cbn. rewrite <- app_assoc. cbn.
  split; [reflexivity|]. split; [reflexivity|]. split; [reflexivity|].
  split; [|split; [|split; [reflexivity|split; [reflexivity|exact U]]]].
  - rewrite nth_error_replaceNth_other by congruence.
    eapply nth_error_replaceNth_same. exact Ha.
  - eapply nth_error_replaceNth_same. exact Hb1.
Qed.

(** The same call with the id of the tool that is active already. *)
Lemma activateTool_active (st : State T) toolId a o :
  JSMap.get String.eqb (tools st) toolId = Some a ->
  activeTool st = Some a ->
  nth_error (objects st) a = Some o ->
  activateTool toolId st
  = (Some a,
     {| objects :=
          HandleManager.replaceNth (objects st) a
            (fst (tool_activate a (fst (tool_deactivate a o (ctx st)))
                    (snd (tool_deactivate a o (ctx st)))));
        ctx := snd (tool_activate a (fst (tool_deactivate a o (ctx st)))
                      (snd (tool_deactivate a o (ctx st))));
        tools := tools st; activeTool := Some a;
        eventListeners := eventListeners st;
        calls := calls st ++ [Deactivate a; Activate a] |}).
Proof.
  intros G A H. unfold activateTool. rewrite G, A.
  rewrite (invoke_spec _ _ _ o st H).
  set (st1 := {| objects := _ |}).
  assert (H1 : nth_error (objects st1) a = Some (fst (tool_deactivate a o (ctx st)))).
  { unfold st1. cbn. eapply nth_error_replaceNth_same. exact H. }
  rewrite (invoke_spec _ _ _ _ st1 H1).
  unfold st1. cbn. rewrite <- app_assoc. cbn.
  unfold withActiveTool. cbn. now rewrite replaceNth_twice.
Qed.

End Generic.

(** C5 (as amended): the request is ignored only by the tool itself:
    [BaseTool.activate] on a tool that is not inactive returns at once, with
    nothing changed.  [ToolManager.activateTool] with the id of the tool
    that is active already does not return early: it calls [deactivate()]
    on the tool, which clears the tool's handles and emits [deactivate], and
    then [activate()], which emits [activate]; the tool is active again and
    stays in the active-tool slot. *)
Theorem C5_activateTool_on_active_tool_restarts_it
        (st : State BaseTool.Obj) toolId a o :
  JSMap.get String.eqb (tools st) toolId = Some a ->
  activeTool st = Some a ->
  nth_error (objects st) a = Some o ->
  ToolState_eqb (BaseTool.state o) inactive = false ->
  BaseTool.activate a o (ctx st) = (o, ctx st)
  /\ fst (activateTool toolId st) = Some a
  /\ getActiveTool (snd (activateTool toolId st)) = Some a
  /\ calls (snd (activateTool toolId st)) = calls st ++ [Deactivate a; Activate a]
  /\ emitted (ctx (snd (activateTool toolId st)))
     = emitted (ctx st)
       ++ [{| te_type := deactivate_ev; te_tool := a; te_state := inactive |};
           {| te_type := activate_ev; te_tool := a; te_state := active |}]
  /\ handleManager (ctx (snd (activateTool toolId st)))
     = handleManager (snd (BaseTool.clearHandles o (ctx st)))
  /\ exists o',
       nth_error (objects (snd (activateTool toolId st))) a = Some o'
       /\ BaseTool.state o' = active
       /\ BaseTool.handles o' = [].
Proof.
  intros G A H S.
  split. { unfold BaseTool.activate. now rewrite S. }
  rewrite (activateTool_active BaseTool.Obj st toolId a o G A H). cbn [fst snd].
  unfold getActiveTool. cbn [activeTool calls ctx objects].
  split; [reflexivity|]. split; [reflexivity|]. split; [reflexivity|].
  cbn [tool_deactivate tool_activate BaseTool_Tool].
  unfold BaseTool.deactivate. rewrite S.
  unfold BaseTool.clearHandles.
  cbn. rewrite <- app_assoc. cbn.
  split; [reflexivity|]. split; [reflexivity|].
  eexists. split.
  - eapply nth_error_replaceNth_same. exact H.
  - split; reflexivity.
Qed.

(** Counterexample to C5 as stated: "tool-a" is active and owns nine handles;
    [activateTool("tool-a")] empties its handle list and the handle
    manager's map and emits a [deactivate] and an [activate] event. *)
Lemma C5_reactivation_clears_handles_and_emits :
  getActiveTool toolAActive = Some 0
  /\ map BaseTool.handles (objects toolAActive) = [[0; 1; 2; 3; 4; 5; 6; 7; 8]; []]
  /\ JSMap.size (HandleManager.handles (handleManager (ctx toolAActive))) = 9
  /\ map te_type (emitted (ctx toolAActive)) = [activate_ev]
  /\ map BaseTool.handles (objects (snd (activateTool "tool-a" toolAActive))) = [[]; []]
  /\ JSMap.size (HandleManager.handles
                   (handleManager (ctx (snd (activateTool "tool-a" toolAActive))))) = 0
  /\ map te_type (emitted (ctx (snd (activateTool "tool-a" toolAActive))))
     = [activate_ev; deactivate_ev; activate_ev]
  /\ calls (snd (activateTool "tool-a" toolAActive))
     = [Activate 0; Deactivate 0; Activate 0].
Proof. repeat split. Qed.

Lemma C5_witness :
  calls (snd (activateTool "tool-a" toolAActive))
  = calls toolAActive ++ [Deactivate 0; Activate 0]
  /\ emitted (ctx (snd (activateTool "tool-a" toolAActive)))
     = emitted (ctx toolAActive)
       ++ [{| te_type := deactivate_ev; te_tool := 0; te_state := inactive |};
           {| te_type := activate_ev; te_tool := 0; te_state := active |}].
Proof.
  assert (G : JSMap.get String.eqb (tools toolAActive) "tool-a"%string = Some 0)
    by (vm_compute; reflexivity).
  assert (A : activeTool toolAActive = Some 0) by (vm_compute; reflexivity).
  assert (H : nth_error (objects toolAActive) 0
              = Some (hd (BaseTool.new "") (objects toolAActive)))
    by (vm_compute; reflexivity).
  assert (S : ToolState_eqb
                (BaseTool.state (hd (BaseTool.new "") (objects toolAActive)))
                inactive = false)
    by (vm_compute; reflexivity).
  destruct (C5_activateTool_on_active_tool_restarts_it
              toolAActive "tool-a" 0
              (hd (BaseTool.new "") (objects toolAActive))
              G A H S) as (_ & _ & _ & C & E & _).
  split; [exact C | exact E].
Defined.

Lemma C6_witness :
  fst (activateTool "tool-b" toolAActive) = Some 1
  /\ getActiveTool (snd (activateTool "tool-b" toolAActive)) = Some 1
  /\ calls (snd (activateTool "tool-b" toolAActive))
     = [Activate 0; Deactivate 0; Activate 1]
  /\ activateTool "tool-z" toolAActive = (None, toolAActive).
Proof.
  assert (G : JSMap.get String.eqb (tools toolAActive)
                (tool_id (nth 1 (objects toolAActive) (BaseTool.new "")))
              = Some 1)
    by (vm_compute; reflexivity).
  assert (Hb : nth_error (objects toolAActive) 1
               = Some (nth 1 (objects toolAActive) (BaseTool.new "")))
    by (vm_compute; reflexivity).
  assert (A : activeTool toolAActive = Some 0) by (vm_compute; reflexivity).
  assert (Ha : nth_error (objects toolAActive) 0
               = Some (hd (BaseTool.new "") (objects toolAActive)))
    by (vm_compute; reflexivity).
  assert (Z : JSMap.get String.eqb (tools toolAActive) "tool-z"%string = None)
    by (vm_compute; reflexivity).
  destruct (C6_activateTool_deactivates_then_activates
              BaseTool.Obj toolAActive 0 1
              (hd (BaseTool.new "") (objects toolAActive))
              (nth 1 (objects toolAActive) (BaseTool.new ""))
              G Hb A Ha (n_Sn 0))
    as (R & A' & C & _ & _ & _ & _ & U).
  change (tool_id (nth 1 (objects toolAActive) (BaseTool.new "")))
    with "tool-b"%string in R, A', C.
  split; [exact R|]. split; [exact A'|]. split; [exact C|].
  exact (U "tool-z"%string Z).
Defined.

End ToolManagerFacts.

(** ** SelectionTool: handle regeneration *)

Module SelectionToolFacts.
Import Observations ToolExamples.

Lemma deref_alloc h st :
  HandleManager.deref (snd (HandleManager.alloc h st)) (fst (HandleManager.alloc h st))
  = Some h.
Proof.
  unfold HandleManager.deref, HandleManager.alloc. cbn.
  rewrite nth_error_app2 by lia. now rewrite Nat.sub_diag.
Qed.

(** Creating a handle and adding it to the manager: the new reference is
    behind the object literal of [createHandle]; the objects that existed
    are as they were. *)
Lemma createAndAdd_spec t s pos rnd hm :
  HandleManager.deref
    (HandleManager.addHandle
       (fst (HandleManager.createHandle t s (Some pos) rnd hm))
       (snd (HandleManager.createHandle t s (Some pos) rnd hm)))
    (fst (HandleManager.createHandle t s (Some pos) rnd hm))
  = Some (HandleManager.newHandle t s pos rnd)
  /\ (forall r h,
        HandleManager.deref hm r = Some h ->
        HandleManager.deref
          (HandleManager.addHandle
             (fst (HandleManager.createHandle t s (Some pos) rnd hm))
             (snd (HandleManager.createHandle t s (Some pos) rnd hm))) r
        = Some h)
  /\ HandleManager.handles
       (HandleManager.addHandle
          (fst (HandleManager.createHandle t s (Some pos) rnd hm))
          (snd (HandleManager.createHandle t s (Some pos) rnd hm)))
     = JSMap.set String.eqb (HandleManager.handles hm)
         (HandleManager.generateId rnd)
         (fst (HandleManager.createHandle t s (Some pos) rnd hm)).
Proof.
  unfold HandleManager.createHandle. cbn [HandleManager.orElse].
  pose proof (deref_alloc (HandleManager.newHandle t s pos rnd) hm) as D.
  unfold HandleManager.addHandle. rewrite D.
  split; [|split].
  - exact D.
  - intros r h H. unfold HandleManager.deref in *. cbn.
    now apply ListFacts.nth_error_snoc_old.
  - reflexivity.
Qed.

Lemma addHandle_spec t s pos rnd c :
  HandleManager.deref (handleManager (snd (SelectionTool.addHandle t s pos rnd c)))
    (fst (SelectionTool.addHandle t s pos rnd c))
  = Some (HandleManager.newHandle t s pos rnd)
  /\ (forall r h,
        HandleManager.deref (handleManager c) r = Some h ->
        HandleManager.deref (handleManager (snd (SelectionTool.addHandle t s pos rnd c))) r
        = Some h)
  /\ HandleManager.handles (handleManager (snd (SelectionTool.addHandle t s pos rnd c)))
     = JSMap.set String.eqb (HandleManager.handles (handleManager c))
         (HandleManager.generateId rnd) (fst (SelectionTool.addHandle t s pos rnd c)).
Proof.
  unfold SelectionTool.addHandle.
  pose proof (createAndAdd_spec t s pos rnd (handleManager c)) as P.
  destruct (HandleManager.createHandle t s (Some pos) rnd (handleManager c)).
  exact P.
Qed.

Lemma addHandle_bundled_spec t s pos rnd o c :
  HandleManager.deref
    (handleManager (snd (snd (SelectionToolBundled.addHandle t s pos rnd o c))))
    (fst (SelectionToolBundled.addHandle t s pos rnd o c))
  = Some (HandleManager.newHandle t s pos rnd)
  /\ (forall r h,
        HandleManager.deref (handleManager c) r = Some h ->
        HandleManager.deref
          (handleManager (snd (snd (SelectionToolBundled.addHandle t s pos rnd o c)))) r
        = Some h)
  /\ BaseTool.handles (fst (snd (SelectionToolBundled.addHandle t s pos rnd o c)))
     = BaseTool.handles o ++ [fst (SelectionToolBundled.addHandle t s pos rnd o c)]
  /\ HandleManager.handles
       (handleManager (snd (snd (SelectionToolBundled.addHandle t s pos rnd o c))))
     = JSMap.set String.eqb (HandleManager.handles (handleManager c))
         (HandleManager.generateId rnd)
         (fst (SelectionToolBundled.addHandle t s pos rnd o c)).
Proof.
  unfold SelectionToolBundled.addHandle.
  pose proof (createAndAdd_spec t s pos rnd (handleManager c)) as P.
  destruct (HandleManager.createHandle t s (Some pos) rnd (handleManager c)).
  destruct P as (P1 & P2 & P3). repeat split; assumption.
Qed.

(** Every object known in an earlier state is known, unchanged, later on. *)
Ltac carry_over :=
  repeat match goal with
         | S : forall r h, HandleManager.deref ?a r = Some h ->
                           HandleManager.deref ?b r = Some h,
           D : HandleManager.deref ?a ?r = Some ?h |- _ =>
             lazymatch goal with
             | _ : HandleManager.deref b r = Some h |- _ => fail
             | _ => pose proof (S r h D)
             end
         end.




End SelectionToolFacts.

(** * Further properties of the library *)

(** ** Maps with a sound key test *)

Module JSMapMore.
Section Facts.
Variables K V : Type.
Variable eqb : K -> K -> bool.
Hypothesis eqb_eq : forall a b, eqb a b = true <-> a = b.

Lemma eqb_refl k : eqb k k = true.
Proof. now apply eqb_eq. Qed.

Lemma eqb_neq a b : a <> b -> eqb a b = false.
Proof.
  intro N. destruct (eqb a b) eqn:E; [|reflexivity].
  now apply eqb_eq in E.
Qed.

Lemma has_In (m : JSMap.t K V) k :
  JSMap.has eqb m k = true <-> In k (JSMap.keys m).
Proof.
  unfold JSMap.has. induction m as [|[k' v'] r IH]; simpl.
  - split; [discriminate | tauto].
  - destruct (eqb k' k) eqn:E.
    + apply eqb_eq in E. split; auto.
    + rewrite IH. split; [tauto|]. intros [H|H]; [|exact H].
      apply eqb_eq in H. congruence.
Qed.

Lemma get_None_notIn (m : JSMap.t K V) k :
  JSMap.get eqb m k = None <-> ~ In k (JSMap.keys m).
Proof.
  rewrite <- has_In. unfold JSMap.has.
  destruct (JSMap.get eqb m k); split; congruence.
Qed.

Lemma keys_set (m : JSMap.t K V) k v :
  JSMap.keys (JSMap.set eqb m k v)
  = if JSMap.has eqb m k then JSMap.keys m else JSMap.keys m ++ [k].
Proof.
  unfold JSMap.has. induction m as [|[k' v'] r IH]; simpl; [reflexivity|].
  destruct (eqb k' k) eqn:E; simpl; [reflexivity|].
  rewrite IH. now destruct (JSMap.get eqb r k).
Qed.

Lemma NoDup_keys_set (m : JSMap.t K V) k v :
  NoDup (JSMap.keys m) -> NoDup (JSMap.keys (JSMap.set eqb m k v)).
Proof.
  intro N. rewrite keys_set. destruct (JSMap.has eqb m k) eqn:E; [exact N|].
  apply NoDup_app; [exact N | repeat constructor; simpl; tauto |].
  intros a Ha [<-|[]]. apply has_In in Ha. congruence.
Qed.

Lemma keys_delete_incl (m : JSMap.t K V) k a :
  In a (JSMap.keys (JSMap.delete eqb m k)) -> In a (JSMap.keys m).
Proof.
  induction m as [|[k' v'] r IH]; simpl; [tauto|].
  destruct (eqb k' k); simpl; tauto.
Qed.

Lemma NoDup_keys_delete (m : JSMap.t K V) k :
  NoDup (JSMap.keys m) -> NoDup (JSMap.keys (JSMap.delete eqb m k)).
Proof.
  induction m as [|[k' v'] r IH]; simpl; intro N; [exact N|].
  inversion N as [|? ? Hn Hr]; subst.
  destruct (eqb k' k); simpl; [exact Hr|].
  constructor; [|auto]. intro H. apply Hn. eapply keys_delete_incl, H.
Qed.

Lemma get_delete_same (m : JSMap.t K V) k :
  NoDup (JSMap.keys m) -> JSMap.get eqb (JSMap.delete eqb m k) k = None.
Proof.
  induction m as [|[k' v'] r IH]; simpl; intro N; [reflexivity|].
  inversion N as [|? ? Hn Hr]; subst.
  destruct (eqb k' k) eqn:E; simpl.
  - apply eqb_eq in E. subst. now apply get_None_notIn.
  - rewrite E. auto.
Qed.

Lemma get_delete_other (m : JSMap.t K V) k k2 :
  k <> k2 -> JSMap.get eqb (JSMap.delete eqb m k) k2 = JSMap.get eqb m k2.
Proof.
  intro N. induction m as [|[k' v'] r IH]; simpl; [reflexivity|].
  destruct (eqb k' k) eqn:E; simpl.
  - apply eqb_eq in E. subst. now rewrite (eqb_neq _ _ N).
  - now rewrite IH.
Qed.

Lemma get_set_other (m : JSMap.t K V) k v k2 :
  k <> k2 -> JSMap.get eqb (JSMap.set eqb m k v) k2 = JSMap.get eqb m k2.
Proof.
  intro N. induction m as [|[k' v'] r IH]; simpl.
  - now rewrite (eqb_neq _ _ N).
  - destruct (eqb k' k) eqn:E; simpl.
    + apply eqb_eq in E. subst. now rewrite (eqb_neq _ _ N).
    + now rewrite IH.
Qed.

Lemma set_get_same (m : JSMap.t K V) k v :
  JSMap.get eqb m k = Some v -> JSMap.set eqb m k v = m.
Proof.
  induction m as [|[k' v'] r IH]; simpl; [discriminate|].
  destruct (eqb k' k); [now intros [= ->]|].
  intro H. now rewrite IH.
Qed.

Lemma delete_set_fresh (m : JSMap.t K V) k v :
  JSMap.get eqb m k = None -> JSMap.delete eqb (JSMap.set eqb m k v) k = m.
Proof.
  induction m as [|[k' v'] r IH]; simpl.
  - now rewrite eqb_refl.
  - destruct (eqb k' k) eqn:E; [discriminate|]. simpl. rewrite E.
    intro H. now rewrite IH.
Qed.

Lemma delete_absent (m : JSMap.t K V) k :
  JSMap.get eqb m k = None -> JSMap.delete eqb m k = m.
Proof.
  induction m as [|[k' v'] r IH]; simpl; [reflexivity|].
  destruct (eqb k' k); [discriminate|]. intro H. now rewrite IH.
Qed.

Lemma size_set (m : JSMap.t K V) k v :
  JSMap.size (JSMap.set eqb m k v)
  = if JSMap.has eqb m k then JSMap.size m else S (JSMap.size m).
Proof.
  unfold JSMap.size, JSMap.has.
  induction m as [|[k' v'] r IH]; simpl; [reflexivity|].
  destruct (eqb k' k); simpl; [reflexivity|].
  rewrite IH. now destruct (JSMap.get eqb r k).
Qed.

Lemma get_set (m : JSMap.t K V) k v k2 :
  JSMap.get eqb (JSMap.set eqb m k v) k2
  = if eqb k k2 then Some v else JSMap.get eqb m k2.
Proof.
  destruct (eqb k k2) eqn:E.
  - apply eqb_eq in E. subst. apply JSMapFacts.get_set_same, eqb_refl.
  - apply get_set_other. intro H. apply eqb_eq in H. congruence.
Qed.

Lemma Forall_values_set (Q : V -> Prop) (m : JSMap.t K V) k v :
  Forall (fun kv => Q (snd kv)) m -> Q v ->
  Forall (fun kv => Q (snd kv)) (JSMap.set eqb m k v).
Proof.
  intros F Hv. induction F as [|[k' v'] r H F' IH]; simpl.
  - repeat constructor. exact Hv.
  - destruct (eqb k' k); constructor; cbn in *; auto.
Qed.

Lemma Forall_values_get (Q : V -> Prop) (m : JSMap.t K V) k v :
  Forall (fun kv => Q (snd kv)) m -> JSMap.get eqb m k = Some v -> Q v.
Proof.
  intro F. induction F as [|[k' v'] r H _ IH]; simpl; [discriminate|].
  destruct (eqb k' k); [now intros [= <-]|exact IH].
Qed.

End Facts.
End JSMapMore.

(** ** SelectionManager: the selection as a keyed, ordered collection *)

Module SelectionManagerMore.
Import SelectionManager Observations Examples.

Lemma featureIdOf_nonempty f rnd : featureIdOf f rnd <> ""%string.
Proof.
  unfold featureIdOf. destruct (fid f) as [s|]; [|discriminate].
  destruct (String.eqb s "") eqn:E; [discriminate|].
  now apply String.eqb_neq in E.
Qed.

Lemma keys_forEach_mutate (g : SelectedFeature -> SelectedFeature)
      (m : JSMap.t string SelectedFeature) :
  JSMap.keys (JSMap.forEach_mutate g m) = JSMap.keys m.
Proof.
  unfold JSMap.keys, JSMap.forEach_mutate. rewrite map_map. reflexivity.
Qed.

Lemma get_forEach_mutate (g : SelectedFeature -> SelectedFeature)
      (m : JSMap.t string SelectedFeature) k :
  JSMap.get String.eqb (JSMap.forEach_mutate g m) k
  = option_map g (JSMap.get String.eqb m k).
Proof.
  induction m as [|[k' v'] r IH]; simpl; [reflexivity|].
  now destruct (String.eqb k' k).
Qed.

Lemma features_forEach_notCurrent (m : JSMap.t string SelectedFeature) :
  map feature (JSMap.values (JSMap.forEach_mutate notCurrent m))
  = map feature (JSMap.values m).
Proof.
  unfold JSMap.values, JSMap.forEach_mutate. rewrite !map_map. reflexivity.
Qed.

Lemma keys_resetCurrent b st :
  JSMap.keys (selectedFeatures (resetCurrent b st)) = JSMap.keys (selectedFeatures st).
Proof. destruct b; [apply keys_forEach_mutate | reflexivity]. Qed.

Lemma get_resetCurrent_None b st k :
  JSMap.get String.eqb (selectedFeatures st) k = None ->
  JSMap.get String.eqb (selectedFeatures (resetCurrent b st)) k = None.
Proof.
  destruct b; [|auto]. intro H. cbn. now rewrite get_forEach_mutate, H.
Qed.

Lemma has_resetCurrent b st k :
  JSMap.has String.eqb (selectedFeatures (resetCurrent b st)) k
  = JSMap.has String.eqb (selectedFeatures st) k.
Proof.
  destruct b; [|reflexivity]. unfold JSMap.has. cbn.
  rewrite get_forEach_mutate. now destruct (JSMap.get _ _ _).
Qed.

Section Facts.
Variable turf : Turf.

Lemma calculateSelectionBounds_features a b :
  map feature (JSMap.values (selectedFeatures a))
  = map feature (JSMap.values (selectedFeatures b)) ->
  calculateSelectionBounds turf a = calculateSelectionBounds turf b.
Proof.
  unfold calculateSelectionBounds, JSMap.size. intro H.
  assert (L : List.length (selectedFeatures a) = List.length (selectedFeatures b)).
  { apply (f_equal (@List.length _)) in H.
    unfold JSMap.values in H. now rewrite !length_map in H. }
  now rewrite L, H.
Qed.

Lemma calculateSelectionBounds_resetCurrent b st :
  calculateSelectionBounds turf (resetCurrent b st) = calculateSelectionBounds turf st.
Proof.
  apply calculateSelectionBounds_features.
  destruct b; [apply features_forEach_notCurrent | reflexivity].
Qed.

(** Entries sit under their own id, which is not empty, and are flagged
    selected; no key occurs twice. *)
Lemma keyed_step st c :
  NoDup (JSMap.keys (selectedFeatures st))
  /\ Forall (fun kv => id (snd kv) = fst kv /\ fst kv <> ""%string
                       /\ selected (snd kv) = true) (selectedFeatures st) ->
  NoDup (JSMap.keys (selectedFeatures (step turf st c)))
  /\ Forall (fun kv => id (snd kv) = fst kv /\ fst kv <> ""%string
                       /\ selected (snd kv) = true)
            (selectedFeatures (step turf st c)).
Proof.
  intros [N F].
  destruct c as [f src lyr cur0 rnd|i| |t l|t l]; cbn [step].
  - rewrite SelectionManagerFacts.selected_select.
    set (b := match cur0 with Some b => b | None => true end).
    assert (N1 : NoDup (JSMap.keys (selectedFeatures (resetCurrent b st))))
      by now rewrite keys_resetCurrent.
    assert (F1 : Forall (fun kv => id (snd kv) = fst kv /\ fst kv <> ""%string
                                   /\ selected (snd kv) = true)
                        (selectedFeatures (resetCurrent b st))).
    { destruct b; [|exact F]. cbn. unfold JSMap.forEach_mutate.
      apply Forall_map. eapply Forall_impl; [|exact F].
      intros [k v]. cbn. tauto. }
    split; [apply JSMapMore.NoDup_keys_set; [apply String.eqb_eq | exact N1]|].
    cbn [fst select].
    revert F1. generalize (selectedFeatures (resetCurrent b st)).
    intro m. induction m as [|[k' v'] r IH]; intro F1; simpl.
    + repeat constructor. apply featureIdOf_nonempty.
    + inversion F1 as [|? ? Hh Ht]; subst.
      destruct (String.eqb k' (featureIdOf f rnd)) eqn:E.
      * apply String.eqb_eq in E. subst k'. constructor; [|exact Ht].
        cbn. repeat split. apply featureIdOf_nonempty.
      * constructor; auto.
  - rewrite SelectionManagerFacts.selected_deselect. split.
    + apply JSMapMore.NoDup_keys_delete. exact N.
    + clear N. induction (selectedFeatures st) as [|[k' v'] r IH]; simpl; [constructor|].
      inversion F; subst. destruct (String.eqb k' i); [assumption|].
      constructor; auto.
  - cbn. split; constructor.
  - split; assumption.
  - split; assumption.
Qed.

Lemma keyed_run cs :
  NoDup (JSMap.keys (selectedFeatures (run turf cs init)))
  /\ Forall (fun kv => id (snd kv) = fst kv /\ fst kv <> ""%string
                       /\ selected (snd kv) = true)
            (selectedFeatures (run turf cs init)).
Proof.
  induction cs as [|c cs IH] using rev_ind.
  - split; constructor.
  - rewrite SelectionManagerFacts.run_snoc. now apply keyed_step.
Qed.

Lemma ids_are_keys cs :
  map id (getSelection (run turf cs init))
  = JSMap.keys (selectedFeatures (run turf cs init)).
Proof.
  destruct (keyed_run cs) as [_ F]. unfold getSelection, JSMap.values, JSMap.keys.
  induction F as [|[k v] r [H _] _ IH]; simpl; [reflexivity|].
  cbn in H. now rewrite H, IH.
Qed.

(** X1: after any run of the public calls from a fresh manager, no two
    entries of the selection have the same id, no entry has the empty
    string as its id, every entry is flagged [selected], and looking an
    entry up by an id gives an entry with that id. *)
Theorem X1_selection_ids_distinct_and_nonempty cs :
  NoDup (map id (getSelection (run turf cs init)))
  /\ Forall (fun s => id s <> ""%string /\ selected s = true)
            (getSelection (run turf cs init))
  /\ forall k s,
       JSMap.get String.eqb (selectedFeatures (run turf cs init)) k = Some s ->
       id s = k /\ In s (getSelection (run turf cs init)).
Proof.
  rewrite ids_are_keys. destruct (keyed_run cs) as [N F].
  split; [exact N|]. split.
  - unfold getSelection, JSMap.values. apply Forall_map.
    eapply Forall_impl; [|exact F]. intros [k v] (A & B & C). cbn in *.
    split; [congruence | exact C].
  - intros k s. unfold getSelection, JSMap.values.
    clear N. induction F as [|[k' v'] r (A & _) _ IH]; simpl; [discriminate|].
    destruct (String.eqb k' k) eqn:E.
    + intros [= ->]. apply String.eqb_eq in E. cbn in A. split; [congruence|auto].
    + intro H. destruct (IH H). auto.
Qed.

(** X2: the selection keeps the order of first selection: from any state
    reached from a fresh manager, [select] of a feature whose id is already
    in the selection leaves the ids in the same order (the entry is
    overwritten where it is), and [select] of a new id puts it last. *)
Theorem X2_select_keeps_insertion_order cs f src lyr cur0 rnd :
  map id (getSelection (run turf (cs ++ [CallSelect f src lyr cur0 rnd]) init))
  = if JSMap.has String.eqb (selectedFeatures (run turf cs init)) (featureIdOf f rnd)
    then map id (getSelection (run turf cs init))
    else map id (getSelection (run turf cs init)) ++ [featureIdOf f rnd].
Proof.
  rewrite !ids_are_keys, SelectionManagerFacts.run_snoc. cbn [step].
  rewrite SelectionManagerFacts.selected_select.
  rewrite JSMapMore.keys_set.
  now rewrite has_resetCurrent, keys_resetCurrent.
Qed.

(** X3: selecting a feature whose id is not in the selection and deselecting
    that id again gives back the earlier entries, in their order (with their
    current flags turned off if the feature was selected as current), and
    the bounds of the earlier selection; [deselect] returns [true]. *)
Theorem X3_select_then_deselect_restores st f src lyr cur0 rnd :
  JSMap.get String.eqb (selectedFeatures st) (featureIdOf f rnd) = None ->
  fst (deselect turf (featureIdOf f rnd) (snd (select turf f src lyr cur0 rnd st))) = true
  /\ selectedFeatures
       (snd (deselect turf (featureIdOf f rnd) (snd (select turf f src lyr cur0 rnd st))))
     = selectedFeatures
         (resetCurrent (match cur0 with Some b => b | None => true end) st)
  /\ selectionBounds
       (snd (deselect turf (featureIdOf f rnd) (snd (select turf f src lyr cur0 rnd st))))
     = calculateSelectionBounds turf st.
Proof.
  intro G.
  set (b := match cur0 with Some b => b | None => true end).
  assert (S : selectedFeatures
                (snd (deselect turf (featureIdOf f rnd)
                        (snd (select turf f src lyr cur0 rnd st))))
              = selectedFeatures (resetCurrent b st)).
  { rewrite SelectionManagerFacts.selected_deselect,
            SelectionManagerFacts.selected_select.
    apply JSMapMore.delete_set_fresh; [apply String.eqb_eq|].
    now apply get_resetCurrent_None. }
  assert (H : JSMap.has String.eqb
                (selectedFeatures (snd (select turf f src lyr cur0 rnd st)))
                (featureIdOf f rnd) = true).
  { rewrite SelectionManagerFacts.selected_select. unfold JSMap.has.
    now rewrite JSMapFacts.get_set_same by apply String.eqb_refl. }
  split; [|split; [exact S|]].
  - unfold deselect. now rewrite H.
  - rewrite SelectionManagerFacts.bounds_deselect, H.
    rewrite <- (calculateSelectionBounds_resetCurrent b st).
    apply SelectionManagerFacts.calculateSelectionBounds_ext. exact S.
Qed.

Lemma deselect_absent st i :
  JSMap.get String.eqb (selectedFeatures st) i = None ->
  deselect turf i st = (false, st).
Proof.
  intro G. unfold deselect, JSMap.has. rewrite G.
  rewrite JSMapMore.delete_absent by exact G.
  now destruct st.
Qed.

(** X4: [deselect] of an id that is not in the selection returns [false]
    and leaves the manager as it was: no entry goes, the bounds and the
    map source are not recomputed, no listener is called; and a second
    [deselect] of an id just deselected is such a call. *)
Theorem X4_deselect_unknown_id_changes_nothing cs i :
  (JSMap.get String.eqb (selectedFeatures (run turf cs init)) i = None ->
   deselect turf i (run turf cs init) = (false, run turf cs init))
  /\ deselect turf i (snd (deselect turf i (run turf cs init)))
     = (false, snd (deselect turf i (run turf cs init))).
Proof.
  split; [apply deselect_absent|].
  apply deselect_absent. rewrite SelectionManagerFacts.selected_deselect.
  apply JSMapMore.get_delete_same; [apply String.eqb_eq|].
  apply keyed_run.
Qed.





Lemma accumulate_no_polygon fs : forall a p,
  forallb (fun f => match gtype (geometry f) with
                    | Polygon | MultiPolygon => false
                    | _ => true
                    end) fs = true ->
  fst (fold_left (accumulate turf) fs (a, p)) = a.
Proof.
  induction fs as [|f fs IH]; intros a p H; [reflexivity|].
  cbn [forallb] in H. apply andb_prop in H as [Hf Hr].
  cbn [fold_left]. unfold accumulate at 2.
  destruct (gtype (geometry f)); try discriminate; now apply IH.
Qed.

Lemma accumulate_no_polygon_no_line fs : forall a p,
  forallb (fun f => match gtype (geometry f) with
                    | Polygon | MultiPolygon | LineString | MultiLineString => false
                    | _ => true
                    end) fs = true ->
  fold_left (accumulate turf) fs (a, p) = (a, p).
Proof.
  induction fs as [|f fs IH]; intros a p H; [reflexivity|].
  cbn [forallb] in H. apply andb_prop in H as [Hf Hr].
  cbn [fold_left]. unfold accumulate at 2.
  destruct (gtype (geometry f)); try discriminate; now apply IH.
Qed.

(** X6: the bounds of a non-empty selection with no polygon have area 0,
    and with no polygon and no line (points only) perimeter 0 as well; the
    bounding box and the center are still those of all selected features. *)
Theorem X6_points_and_lines_have_no_area st :
  getSelection st <> [] ->
  forallb (fun f => match gtype (geometry f) with
                    | Polygon | MultiPolygon => false
                    | _ => true
                    end) (map feature (getSelection st)) = true ->
  exists b,
    calculateSelectionBounds turf st = Some b
    /\ area b = 0%float
    /\ bbox b = turf_bbox turf (map feature (getSelection st))
    /\ center b = turf_center turf (map feature (getSelection st))
    /\ (forallb (fun f => match gtype (geometry f) with
                          | Polygon | MultiPolygon | LineString | MultiLineString => false
                          | _ => true
                          end) (map feature (getSelection st)) = true ->
        perimeter b = 0%float).
Proof.
  unfold calculateSelectionBounds, getSelection, JSMap.size. intros N H.
  destruct (selectedFeatures st) as [|kv r] eqn:E; [now elim N|].
  cbn [List.length Nat.eqb]. rewrite <- E in *.
  pose proof (accumulate_no_polygon _ 0%float 0%float H) as A.
  destruct (fold_left (accumulate turf) _ _) as [a p] eqn:F.
  eexists. split; [reflexivity|]. cbn in *. repeat split; auto.
  intro L. rewrite (accumulate_no_polygon_no_line _ _ _ L) in F. congruence.
Qed.

End Facts.

Lemma X6_witness :
  exists b,
    calculateSelectionBounds exampleTurf
      (run exampleTurf [CallSelect pointB "src" "lyr" None "r"] init) = Some b
    /\ area b = 0%float
    /\ bbox b = {| minX := 5; minY := 3; maxX := 5; maxY := 3 |}%float.
Proof.
  assert (N : getSelection (run exampleTurf [CallSelect pointB "src" "lyr" None "r"] init)
              <> []) by (vm_compute; discriminate).
  destruct (X6_points_and_lines_have_no_area exampleTurf
              (run exampleTurf [CallSelect pointB "src" "lyr" None "r"] init)
              N eq_refl) as (b & A & B & C & _).
  exists b. split; [exact A|]. split; [exact B|]. rewrite C. reflexivity.
Defined.

Lemma X3_witness :
  selectedFeatures
    (snd (deselect exampleTurf "B"
            (snd (select exampleTurf pointB "src" "lyr" (Some false) "r"
                    (run exampleTurf [CallSelect triangleA "src" "lyr" None "r"] init)))))
  = selectedFeatures (run exampleTurf [CallSelect triangleA "src" "lyr" None "r"] init).
Proof.
  exact (proj1 (proj2 (X3_select_then_deselect_restores exampleTurf
           (run exampleTurf [CallSelect triangleA "src" "lyr" None "r"] init)
           pointB "src" "lyr" (Some false) "r" eq_refl))).
Defined.

End SelectionManagerMore.

(** ** HandleManager: the registry of handles *)

Module HandleManagerMore.
Import HandleManager HandleManagerAPI Observations HandleExamples ListFacts.

Lemma handles_updateHandle i p st :
  handles (snd (updateHandle i p st))
  = match getHandle i st with
    | Some r0 =>
        match deref st r0 with
        | Some _ => JSMap.set String.eqb (handles st) i (List.length (objects st))
        | None => handles st
        end
    | None => handles st
    end.
Proof.
  unfold updateHandle, getHandle.
  destruct (JSMap.get String.eqb (handles st) i) as [r0|]; [|reflexivity].
  now destruct (deref st r0).
Qed.

Lemma handles_addHandles rs : forall st,
  NoDup (JSMap.keys (handles st)) ->
  NoDup (JSMap.keys (handles (addHandles rs st))).
Proof.
  unfold addHandles. cbn [updateSource withSourceData handles].
  induction rs as [|r rs IH]; intros st N; [exact N|].
  cbn [fold_left]. apply IH.
  destruct (deref st r); [|exact N].
  apply JSMapMore.NoDup_keys_set; [apply String.eqb_eq | exact N].
Qed.

Lemma handles_mousemove lng lt st :
  NoDup (JSMap.keys (handles st)) ->
  NoDup (JSMap.keys (handles (mousemove lng lt st))).
Proof.
  intro N. unfold mousemove.
  destruct (dragState st) as [ds|]; [|exact N].
  destruct (deref st (handle ds)) as [h|]; [|exact N].
  cbn [emitEvent withLogs handles]. rewrite handles_updateHandle.
  match goal with |- context [getHandle ?i ?s] => destruct (getHandle i s) as [r0|] end;
    [|exact N].
  match goal with |- context [deref ?s r0] => destruct (deref s r0) end; [|exact N].
  apply JSMapMore.NoDup_keys_set; [apply String.eqb_eq | exact N].
Qed.

(** No key occurs twice in the handle map. *)
Lemma keys_step st c :
  NoDup (JSMap.keys (handles st)) -> NoDup (JSMap.keys (handles (step st c))).
Proof.
  intro N. destruct c; cbn [step]; try exact N.
  - unfold createAndAddHandle, createHandle, alloc. cbn [snd].
    unfold addHandle.
    match goal with |- context [deref ?s ?r] => destruct (deref s r) end; [|exact N].
    apply JSMapMore.NoDup_keys_set; [apply String.eqb_eq | exact N].
  - unfold addHandle. destruct (deref st r); [|exact N].
    apply JSMapMore.NoDup_keys_set; [apply String.eqb_eq | exact N].
  - now apply handles_addHandles.
  - unfold removeHandle.
    destruct (JSMap.has String.eqb (handles st) handleId); cbn;
      now apply JSMapMore.NoDup_keys_delete.
  - rewrite handles_updateHandle. destruct (getHandle handleId st) as [r0|]; [|exact N].
    destruct (deref st r0); [|exact N].
    apply JSMapMore.NoDup_keys_set; [apply String.eqb_eq | exact N].
  - unfold setHandleVisibility. rewrite handles_updateHandle.
    destruct (getHandle handleId st) as [r0|]; [|exact N].
    destruct (deref st r0); [|exact N].
    apply JSMapMore.NoDup_keys_set; [apply String.eqb_eq | exact N].
  - unfold setHandlePosition. rewrite handles_updateHandle.
    destruct (getHandle handleId st) as [r0|]; [|exact N].
    destruct (deref st r0); [|exact N].
    apply JSMapMore.NoDup_keys_set; [apply String.eqb_eq | exact N].
  - constructor.
  - destruct e; cbn [handleMapEvent].
    + unfold mousedown. destruct (hitHandle features st) as [[[i r] h]|]; [|exact N].
      destruct (draggable h); exact N.
    + now apply handles_mousemove.
    + unfold mouseup. destruct (dragState st) as [ds|]; [|exact N].
      destruct (deref st (handle ds)); exact N.
  - unfold clickHandle. destruct (hitHandle features st) as [[[i r] h]|]; exact N.
Qed.

Lemma handle_run_snoc cs c st : run (cs ++ [c]) st = step (run cs st) c.
Proof. unfold run. now rewrite fold_left_app. Qed.

Lemma keys_run cs c0 : NoDup (JSMap.keys (handles (run cs (init c0)))).
Proof.
  induction cs as [|c cs IH] using rev_ind; [constructor|].
  rewrite handle_run_snoc. now apply keys_step.
Qed.

Lemma removeHandle_absent i st :
  getHandle i st = None -> removeHandle i st = (false, st).
Proof.
  unfold getHandle, removeHandle, JSMap.has. intro G. rewrite G.
  rewrite JSMapMore.delete_absent by exact G. now destruct st.
Qed.

(** X7: the handle map as a registry, in any state reached from a fresh
    manager.  [addHandle] stores the object under the id it has at that
    moment, replacing what was stored under that id and touching no other
    key; after [removeHandle(id)] the id is not found and every other key is
    as before, and the answer tells whether the id was there; for an id that
    is not there [removeHandle] answers [false] and changes nothing, not
    even the map source. *)
Theorem X7_handle_registry_add_lookup_remove cs c0 i r h :
  (deref (run cs (init c0)) r = Some h ->
   getHandle (id h) (addHandle r (run cs (init c0))) = Some r
   /\ (forall k, k <> id h ->
                 getHandle k (addHandle r (run cs (init c0)))
                 = getHandle k (run cs (init c0)))
   /\ List.length (getAllHandles (addHandle r (run cs (init c0))))
      = if JSMap.has String.eqb (handles (run cs (init c0))) (id h)
        then List.length (getAllHandles (run cs (init c0)))
        else S (List.length (getAllHandles (run cs (init c0)))))
  /\ fst (removeHandle i (run cs (init c0)))
     = JSMap.has String.eqb (handles (run cs (init c0))) i
  /\ getHandle i (snd (removeHandle i (run cs (init c0)))) = None
  /\ (forall k, k <> i ->
                getHandle k (snd (removeHandle i (run cs (init c0))))
                = getHandle k (run cs (init c0)))
  /\ (getHandle i (run cs (init c0)) = None ->
      removeHandle i (run cs (init c0)) = (false, run cs (init c0))).
Proof.
  pose proof (keys_run cs c0) as N. set (st := run cs (init c0)) in *.
  split; [|split; [|split; [|split]]].
  - intro D. unfold addHandle, getHandle, getAllHandles. rewrite D.
    cbn [updateSource withSourceData withHandles handles].
    split; [apply JSMapFacts.get_set_same, String.eqb_refl|]. split.
    + intros k Hk. apply JSMapMore.get_set_other; [apply String.eqb_eq | congruence].
    + unfold JSMap.values. rewrite !length_map.
      apply (JSMapMore.size_set string Ref String.eqb).
  - unfold removeHandle. now destruct (JSMap.has _ _ _).
  - unfold removeHandle, getHandle.
    destruct (JSMap.has _ _ _); cbn;
      (apply JSMapMore.get_delete_same; [apply String.eqb_eq | exact N]).
  - intros k Hk. unfold removeHandle, getHandle.
    destruct (JSMap.has _ _ _); cbn;
      (apply JSMapMore.get_delete_other; [apply String.eqb_eq | congruence]).
  - apply removeHandle_absent.
Qed.

Lemma derefAll_ext a b rs : objects a = objects b -> derefAll a rs = derefAll b rs.
Proof.
  intro O. induction rs as [|r rs IH]; [reflexivity|].
  cbn [derefAll]. unfold deref. now rewrite O, IH.
Qed.

Lemma shown_ext a b :
  objects a = objects b -> handles a = handles b ->
  getHandlesAsFeatureCollection a = getHandlesAsFeatureCollection b.
Proof.
  intros O H. unfold getHandlesAsFeatureCollection.
  now rewrite H, (derefAll_ext a b _ O).
Qed.

Lemma sourceData_updateSource st :
  sourceData (updateSource st) = getHandlesAsFeatureCollection (updateSource st).
Proof. cbn. now apply shown_ext. Qed.

Lemma spread_positionPatch h pos :
  spread h (MoreObservations.positionPatch pos) = setPosition h pos.
Proof. now destruct h. Qed.

Lemma deref_snoc_new {st} (h : Handle) :
  nth_error (objects st ++ [h]) (List.length (objects st)) = Some h.
Proof. rewrite nth_error_app2 by lia. now rewrite Nat.sub_diag. Qed.

(** X8: [updateHandle] on a stored handle never assigns to the stored
    object: it makes a new object, the old one merged with the given
    properties, and puts it under the same key (also when the properties
    change the [id] field); every object that existed, the old one included,
    keeps its fields, and no other key changes; the map source is refreshed.
    [setHandlePosition] is this with the position alone.  For a key that is
    not in the map the answer is [null] and nothing changes. *)
Theorem X8_updateHandle_stores_a_merged_copy st i p r0 h0 :
  getHandle i st = Some r0 ->
  deref st r0 = Some h0 ->
  fst (updateHandle i p st) = Some (List.length (objects st))
  /\ List.length (objects st) <> r0
  /\ getHandle i (snd (updateHandle i p st)) = Some (List.length (objects st))
  /\ deref (snd (updateHandle i p st)) (List.length (objects st)) = Some (spread h0 p)
  /\ (forall r h, deref st r = Some h -> deref (snd (updateHandle i p st)) r = Some h)
  /\ (forall k, k <> i -> getHandle k (snd (updateHandle i p st)) = getHandle k st)
  /\ sourceData (snd (updateHandle i p st))
     = getHandlesAsFeatureCollection (snd (updateHandle i p st))
  /\ (forall pos,
        stored (snd (setHandlePosition i pos st)) i = Some (setPosition h0 pos))
  /\ (forall j, getHandle j st = None -> updateHandle j p st = (None, st)).
Proof.
  intros G D.
  assert (U : forall q,
             updateHandle i q st
             = (Some (List.length (objects st)),
                updateSource
                  (withHandles
                     (JSMap.set String.eqb (handles st) i (List.length (objects st)))
                     (withObjects (objects st ++ [spread h0 q]) st)))).
  { intro q. unfold updateHandle. unfold getHandle in G. now rewrite G, D. }
  split; [now rewrite U|]. split.
  { intro E. unfold deref in D. rewrite <- E in D.
    apply nth_error_split in D as (l1 & l2 & A & B).
    rewrite A, length_app in B. cbn in B. lia. }
  split. { rewrite U. unfold getHandle. cbn.
           apply JSMapFacts.get_set_same, String.eqb_refl. }
  split. { rewrite U. unfold deref. cbn. apply deref_snoc_new. }
  split. { intros r h H. rewrite U. unfold deref in *. cbn.
           eapply nth_error_snoc_old, H. }
  split. { intros k Hk. rewrite U. unfold getHandle. cbn.
           apply JSMapMore.get_set_other; [apply String.eqb_eq | congruence]. }
  split. { rewrite U. apply sourceData_updateSource. }
  split.
  { intro pos. unfold setHandlePosition.
    change {| p_id := None; p_type := None; p_shape := None; p_position := Some pos;
              p_color := None; p_size := None; p_cursor := None; p_visible := None;
              p_draggable := None; p_constraints := None |}
      with (MoreObservations.positionPatch pos).
    rewrite U. unfold stored, getHandle. cbn.
    rewrite JSMapFacts.get_set_same by apply String.eqb_refl.
    unfold deref. cbn. rewrite deref_snoc_new. now rewrite spread_positionPatch. }
  intros j Hj. unfold updateHandle. unfold getHandle in Hj. now rewrite Hj.
Qed.

Lemma X8_witness :
  stored (snd (setHandlePosition "h1" {| lon := 9; lat := 8 |}%float twoHandles)) "h1"
  = Some (setPosition lockedHandle {| lon := 9; lat := 8 |}%float)
  /\ deref (snd (setHandlePosition "h1" {| lon := 9; lat := 8 |}%float twoHandles)) 0
     = Some lockedHandle.
Proof.
  destruct (X8_updateHandle_stores_a_merged_copy twoHandles "h1"
              (MoreObservations.positionPatch {| lon := 9; lat := 8 |}%float)
              0 lockedHandle eq_refl eq_refl)
    as (_ & _ & _ & _ & O & _ & _ & P & _).
  split; [exact (P _) | exact (O 0 lockedHandle eq_refl)].
Defined.

(** The handle map and the objects after storing a list of handles one by
    one, without the refreshes of the map source. *)
Lemma addHandles_fold rs : forall st,
  handles (fold_left (fun s r => addHandle r s) rs st)
  = handles (fold_left
               (fun s r =>
                  match deref s r with
                  | Some h => withHandles (JSMap.set String.eqb (handles s) (id h) r) s
                  | None => s
                  end) rs st)
  /\ objects (fold_left (fun s r => addHandle r s) rs st)
     = objects (fold_left
                  (fun s r =>
                     match deref s r with
                     | Some h => withHandles (JSMap.set String.eqb (handles s) (id h) r) s
                     | None => s
                     end) rs st).
Proof.
  assert (G : forall (a b : State),
             handles a = handles b -> objects a = objects b ->
             handles (fold_left (fun s r => addHandle r s) rs a)
             = handles (fold_left
                          (fun s r =>
                             match deref s r with
                             | Some h =>
                                 withHandles (JSMap.set String.eqb (handles s) (id h) r) s
                             | None => s
                             end) rs b)
             /\ objects (fold_left (fun s r => addHandle r s) rs a)
                = objects (fold_left
                             (fun s r =>
                                match deref s r with
                                | Some h =>
                                    withHandles (JSMap.set String.eqb (handles s) (id h) r) s
                                | None => s
                                end) rs b)).
  { induction rs as [|r rs IH]; intros a b H O; [now split|].
    cbn [fold_left]. apply IH; unfold addHandle, deref; rewrite O;
      destruct (nth_error (objects b) r); cbn; congruence. }
  intro st. now apply G.
Qed.

(** X9: [addHandles] leaves the same handle map and the same objects as
    calling [addHandle] on each handle in turn (a later handle with the id
    of an earlier one replaces it either way), and the map source shows
    these handles: it is refreshed once, at the end, also for an empty
    list. *)
Theorem X9_addHandles_is_addHandle_in_turn rs st :
  handles (addHandles rs st) = handles (fold_left (fun s r => addHandle r s) rs st)
  /\ objects (addHandles rs st) = objects (fold_left (fun s r => addHandle r s) rs st)
  /\ sourceData (addHandles rs st)
     = getHandlesAsFeatureCollection (fold_left (fun s r => addHandle r s) rs st)
  /\ dragState (addHandles rs st) = dragState st
  /\ emitted (addHandles rs st) = emitted st.
Proof.
  destruct (addHandles_fold rs st) as [H O].
  unfold addHandles.
  cbn [updateSource withSourceData handles objects sourceData dragState emitted].
  split; [now rewrite H|]. split; [now rewrite O|]. split.
  - symmetry. now apply shown_ext.
  - clear H O. revert st. induction rs as [|r rs IH]; intro st; [now split|].
    cbn [fold_left]. destruct (IH (match deref st r with
                                   | Some h => withHandles
                                       (JSMap.set String.eqb (handles st) (id h) r) st
                                   | None => st end)) as [A B].
    rewrite A, B. now destruct (deref st r).
Qed.

Lemma constrained_free st h lng lt :
  MoreObservations.unconstrained h = true ->
  constrained st h lng lt = {| lon := lng; lat := lt |}.
Proof.
  unfold MoreObservations.unconstrained, constrained, applyConstraints,
    applySnapToGrid, applyLockAxis.
  destruct (constraints h) as [c|]; [|reflexivity].
  destruct (JS.truthy (snapToGrid c)); [discriminate|].
  now destruct (lockAxis c).
Qed.

Lemma unconstrained_setPosition h pos :
  MoreObservations.unconstrained (setPosition h pos)
  = MoreObservations.unconstrained h.
Proof. reflexivity. Qed.

(** A run of pointer moves on a session whose handle is unconstrained and
    stored under its id: the dragged object and the stored handle are at
    the last pointer position, one [drag] event per move. *)
Lemma mousemoves_free ps : forall st ds h r0 h0,
  dragState st = Some ds ->
  deref st (handle ds) = Some h ->
  MoreObservations.unconstrained h = true ->
  getHandle (id h) st = Some r0 ->
  deref st r0 = Some h0 ->
  position h0 = position h ->
  exists h' cp r1 h1,
    deref (mousemoves ps st) (handle ds) = Some h'
    /\ position h' = last (map MoreObservations.pointerAt ps) (position h)
    /\ dragState (mousemoves ps st)
       = Some {| handle := handle ds; initialPosition := initialPosition ds;
                 currentPosition := cp |}
    /\ getHandle (id h) (mousemoves ps st) = Some r1
    /\ deref (mousemoves ps st) r1 = Some h1
    /\ position h1 = position h'
    /\ emitted (mousemoves ps st)
       = emitted st
         ++ map (fun p => MoreObservations.handleEvent drag (handle ds)
                            (MoreObservations.pointerAt p)) ps.
Proof.
  induction ps as [|[lng lt] ps IH]; intros st ds h r0 h0 D H U G H0 P.
  - exists h, (currentPosition ds), r0, h0. cbn. rewrite app_nil_r.
    repeat split; auto. rewrite D. now destruct ds.
  - destruct (HandleManagerFacts.mousemove_session st ds h lng lt D H) as (H1 & D1 & E1).
    destruct (HandleManagerFacts.mousemove_stored st ds h lng lt r0 h0 D H G H0)
      as (r1 & h1 & G1 & S1 & P1).
    rewrite (constrained_free st h lng lt U) in *.
    change (mousemoves ((lng, lt) :: ps) st)
      with (mousemoves ps (mousemove lng lt st)).
    destruct (IH _ _ _ r1 h1 D1 H1 U G1 S1 P1)
      as (h' & cp & r2 & h2 & A1 & A2 & A3 & A4 & A5 & A6 & A7).
    exists h', cp, r2, h2. cbn [handle initialPosition id setPosition position] in *.
    repeat split; auto.
    + cbn [map]. rewrite HandleManagerFacts.last_cons. exact A2.
    + rewrite A7, E1, <- app_assoc. reflexivity.
Qed.

Lemma mouseup_session st ds h :
  dragState st = Some ds ->
  deref st (handle ds) = Some h ->
  dragState (mouseup st) = None
  /\ activeHandle (mouseup st) = None
  /\ emitted (mouseup st)
     = emitted st ++ [MoreObservations.handleEvent dragend (handle ds) (position h)]
  /\ objects (mouseup st) = objects st
  /\ handles (mouseup st) = handles st.
Proof.
  intros D H. unfold mouseup. rewrite D, H. repeat split.
Qed.

(** X10: a whole drag of a draggable handle that neither locks an axis nor
    snaps, stored under its id: pointer-down on it, any run of pointer
    moves, pointer-up.  The events emitted are one [dragstart] at the
    handle's position, one [drag] per move at the pointer's position, one
    [dragend] at the last pointer position (the handle's own if the pointer
    did not move); afterwards no session is left, and both the dragged
    object and the handle found under the id are at that last position. *)
Theorem X10_drag_gesture_of_unconstrained_handle st fs r h ps :
  getHandle (id h) st = Some r ->
  deref st r = Some h ->
  draggable h = true ->
  MoreObservations.unconstrained h = true ->
  emitted (mouseup (mousemoves ps (mousedown (Some (id h) :: fs) st)))
  = emitted st
    ++ [MoreObservations.handleEvent dragstart r (position h)]
    ++ map (fun p => MoreObservations.handleEvent drag r (MoreObservations.pointerAt p)) ps
    ++ [MoreObservations.handleEvent dragend r
          (last (map MoreObservations.pointerAt ps) (position h))]
  /\ dragState (mouseup (mousemoves ps (mousedown (Some (id h) :: fs) st))) = None
  /\ option_map position
       (deref (mouseup (mousemoves ps (mousedown (Some (id h) :: fs) st))) r)
     = Some (last (map MoreObservations.pointerAt ps) (position h))
  /\ option_map position
       (stored (mouseup (mousemoves ps (mousedown (Some (id h) :: fs) st))) (id h))
     = Some (last (map MoreObservations.pointerAt ps) (position h)).
Proof.
  intros G H Dr U.
  destruct (HandleManagerFacts.mousedown_hit st (id h) fs r h G H Dr)
    as (D & _ & E & O & M).
  set (st1 := mousedown (Some (id h) :: fs) st) in *.
  assert (H1 : deref st1 r = Some h) by (unfold deref; now rewrite O).
  assert (G1 : getHandle (id h) st1 = Some r) by (unfold getHandle; now rewrite M).
  destruct (mousemoves_free ps st1 _ h r h D H1 U G1 H1 eq_refl)
    as (h' & cp & r1 & h1 & A1 & A2 & A3 & A4 & A5 & A6 & A7).
  cbn [handle] in *.
  destruct (mouseup_session (mousemoves ps st1) _ h' A3 A1) as (B1 & _ & B3 & B4 & B5).
  cbn [handle] in *.
  split; [|split; [exact B1|split]].
  - rewrite B3, A7, E, A2, <- !app_assoc. reflexivity.
  - unfold deref. rewrite B4. unfold deref in A1. rewrite A1. cbn. now rewrite A2.
  - unfold stored, getHandle, deref. rewrite B5, B4.
    unfold getHandle in A4. rewrite A4. unfold deref in A5. rewrite A5. cbn.
    now rewrite A6, A2.
Qed.

Lemma X10_witness :
  map ev_type
      (emitted (mouseup (mousemoves [(5, 7); (6, 8)]%float
                           (mousedown [Some "handle-m"%string]
                              MoreHandleExamples.oneMoveHandle))))
  = [dragstart; drag; drag; dragend]
  /\ option_map position
       (stored (mouseup (mousemoves [(5, 7); (6, 8)]%float
                           (mousedown [Some "handle-m"%string]
                              MoreHandleExamples.oneMoveHandle))) "handle-m")
     = Some {| lon := 6; lat := 8 |}%float.
Proof.
  destruct (X10_drag_gesture_of_unconstrained_handle
              MoreHandleExamples.oneMoveHandle [] 0 MoreHandleExamples.moveHandle
              [(5, 7); (6, 8)]%float eq_refl eq_refl eq_refl eq_refl)
    as (E & _ & _ & S).
  split; [|exact S].
  change (id MoreHandleExamples.moveHandle) with "handle-m"%string in E.
  rewrite E. reflexivity.
Defined.

(** X11: [clearHandles] during a drag empties the handle map and the map
    source but does not end the session: the next pointer move still
    assigns the constrained position to the dragged object and emits a
    [drag] event for it, while the handle map and the source stay empty. *)
Theorem X11_clearHandles_does_not_end_a_drag st ds h lng lt :
  dragState st = Some ds ->
  deref st (handle ds) = Some h ->
  getAllHandles (clearHandles st) = []
  /\ sourceData (clearHandles st) = []
  /\ dragState (clearHandles st) = Some ds
  /\ deref (mousemove lng lt (clearHandles st)) (handle ds)
     = Some (setPosition h (constrained st h lng lt))
  /\ emitted (mousemove lng lt (clearHandles st))
     = emitted st
       ++ [MoreObservations.handleEvent drag (handle ds) (constrained st h lng lt)]
  /\ getAllHandles (mousemove lng lt (clearHandles st)) = []
  /\ sourceData (mousemove lng lt (clearHandles st)) = [].
Proof.
  intros D H.
  assert (D1 : dragState (clearHandles st) = Some ds) by exact D.
  assert (H1 : deref (clearHandles st) (handle ds) = Some h) by exact H.
  destruct (HandleManagerFacts.mousemove_session (clearHandles st) ds h lng lt D1 H1)
    as (A & _ & E).
  split; [reflexivity|]. split; [reflexivity|]. split; [exact D|].
  split; [exact A|]. split; [exact E|].
  unfold mousemove. rewrite D1, H1. unfold updateHandle. cbn. split; reflexivity.
Qed.

Lemma X11_witness :
  getAllHandles (mousemove 5 7 (clearHandles draggingLocked)) = []
  /\ map ev_type (emitted (mousemove 5 7 (clearHandles draggingLocked)))
     = [dragstart; drag].
Proof.
  destruct (X11_clearHandles_does_not_end_a_drag draggingLocked
              {| handle := 0;
                 initialPosition := {| lon := 1; lat := 2 |}%float;
                 currentPosition := {| lon := 1; lat := 2 |}%float |}
              lockedHandle 5%float 7%float eq_refl eq_refl)
    as (_ & _ & _ & _ & E & G & _).
  split; [exact G|]. rewrite E. reflexivity.
Defined.

(** *** Listeners *)

Lemma HandleEventType_eqb_eq a b : HandleEventType_eqb a b = true <-> a = b.
Proof. destruct a, b; cbn; split; congruence. Qed.

Lemma add_NoDup (s : JSSet.t Listener) l : NoDup s -> NoDup (JSSet.add Nat.eqb s l).
Proof.
  intro N. unfold JSSet.add. destruct (existsb (Nat.eqb l) s) eqn:E; [exact N|].
  apply NoDup_app; [exact N | repeat constructor; simpl; tauto|].
  intros a Ha [E'|[]]. subst a.
  assert (X : existsb (Nat.eqb l) s = true)
    by (apply existsb_exists; exists l; split; [exact Ha | apply Nat.eqb_refl]).
  congruence.
Qed.

Lemma add_In (s : JSSet.t Listener) l : In l (JSSet.add Nat.eqb s l).
Proof.
  unfold JSSet.add. destruct (existsb (Nat.eqb l) s) eqn:E.
  - apply existsb_exists in E as (a & Ha & Hb). apply Nat.eqb_eq in Hb. now subst.
  - apply in_or_app. right. now left.
Qed.

Lemma add_twice (s : JSSet.t Listener) l :
  JSSet.add Nat.eqb (JSSet.add Nat.eqb s l) l = JSSet.add Nat.eqb s l.
Proof.
  unfold JSSet.add at 1.
  assert (X : existsb (Nat.eqb l) (JSSet.add Nat.eqb s l) = true)
    by (apply existsb_exists; exists l; split; [apply add_In | apply Nat.eqb_refl]).
  now rewrite X.
Qed.

Lemma delete_notIn (s : JSSet.t Listener) l : ~ In l (JSSet.delete Nat.eqb s l).
Proof.
  unfold JSSet.delete. intro H. apply filter_In in H as [_ H].
  now rewrite Nat.eqb_refl in H.
Qed.

Lemma listeners_on t l st :
  eventListeners (on t l st)
  = JSMap.set HandleEventType_eqb
      (if JSMap.has HandleEventType_eqb (eventListeners st) t
       then eventListeners st
       else JSMap.set HandleEventType_eqb (eventListeners st) t [])
      t (JSSet.add Nat.eqb (listenersOf st t) l).
Proof.
  unfold on, listenersOf, JSMap.has. cbn [withListeners eventListeners].
  destruct (JSMap.get HandleEventType_eqb (eventListeners st) t) eqn:E.
  - now rewrite E.
  - rewrite JSMapFacts.get_set_same by (now intros []). reflexivity.
Qed.

Lemma listenersOf_on t l st :
  listenersOf (on t l st) t = JSSet.add Nat.eqb (listenersOf st t) l.
Proof.
  unfold listenersOf at 1. rewrite listeners_on.
  now rewrite JSMapFacts.get_set_same by (now intros []).
Qed.

Lemma listenersOf_off t l st :
  listenersOf (off t l st) t = JSSet.delete Nat.eqb (listenersOf st t) l.
Proof.
  unfold off, listenersOf. cbn [withListeners eventListeners].
  destruct (JSMap.get HandleEventType_eqb (eventListeners st) t) eqn:E.
  - now rewrite JSMapFacts.get_set_same by (now intros []).
  - now rewrite E.
Qed.

Lemma listeners_step st c :
  Forall (fun kv => NoDup (snd kv)) (eventListeners st) ->
  Forall (fun kv => NoDup (snd kv)) (eventListeners (step st c)).
Proof.
  intro F.
  assert (U : forall i p s, eventListeners (snd (updateHandle i p s)) = eventListeners s)
    by (intros; apply HandleManagerFacts.updateHandle_frame).
  destruct c; cbn [step]; try exact F.
  - unfold createAndAddHandle, createHandle, alloc, addHandle. cbn [snd].
    match goal with |- context [deref ?s ?r] => destruct (deref s r) end; exact F.
  - unfold addHandle. destruct (deref st r); exact F.
  - unfold addHandles. cbn [updateSource withSourceData eventListeners].
    revert st F. induction rs as [|r rs IH]; intros st F; [exact F|].
    cbn [fold_left]. apply IH. destruct (deref st r); exact F.
  - unfold removeHandle. destruct (JSMap.has _ _ _); exact F.
  - now rewrite U.
  - unfold setHandleVisibility. now rewrite U.
  - unfold setHandlePosition. now rewrite U.
  - rewrite listeners_on.
    apply (JSMapMore.Forall_values_set _ _ HandleEventType_eqb (fun s => NoDup s)).
    + destruct (JSMap.has _ _ _); [exact F|].
      apply (JSMapMore.Forall_values_set _ _ HandleEventType_eqb (fun s => NoDup s));
        [exact F | constructor].
    + apply add_NoDup. unfold listenersOf.
      destruct (JSMap.get HandleEventType_eqb (eventListeners st) t) eqn:E;
        [|constructor].
      exact (JSMapMore.Forall_values_get _ _ HandleEventType_eqb (fun s => NoDup s)
               _ _ _ F E).
  - unfold off. cbn [withListeners eventListeners].
    destruct (JSMap.get HandleEventType_eqb (eventListeners st) t) eqn:E; [|exact F].
    apply (JSMapMore.Forall_values_set _ _ HandleEventType_eqb (fun s => NoDup s));
      [exact F|].
    apply NoDup_filter.
    exact (JSMapMore.Forall_values_get _ _ HandleEventType_eqb (fun s => NoDup s)
             _ _ _ F E).
  - destruct e; cbn [handleMapEvent].
    + unfold mousedown. destruct (hitHandle features st) as [[[i r] h]|]; [|exact F].
      destruct (draggable h); exact F.
    + unfold mousemove. destruct (dragState st) as [ds|]; [|exact F].
      destruct (deref st (handle ds)); [|exact F].
      cbn [emitEvent withLogs eventListeners]. now rewrite U.
    + unfold mouseup. destruct (dragState st) as [ds|]; [|exact F].
      destruct (deref st (handle ds)); exact F.
  - unfold clickHandle. destruct (hitHandle features st) as [[[i r] h]|]; exact F.
Qed.

Lemma listeners_run cs c0 :
  Forall (fun kv => NoDup (snd kv)) (eventListeners (run cs (init c0))).
Proof.
  induction cs as [|c cs IH] using rev_ind; [constructor|].
  rewrite handle_run_snoc. now apply listeners_step.
Qed.

(** X12: the listeners of a handle event type form a set kept in order of
    registration.  In any state reached from a fresh manager no listener is
    registered twice for a type, so [emitEvent] calls each listener of the
    type once, in that order; registering a listener that is registered
    already changes nothing; after [off] the listener is not called for the
    type any more; and [on] and [off] for one type leave the listeners of
    the other types alone. *)
Theorem X12_handle_listeners_form_an_ordered_set cs c0 t l e :
  NoDup (listenersOf (run cs (init c0)) t)
  /\ delivered (emitEvent t e (run cs (init c0)))
     = delivered (run cs (init c0))
       ++ map (fun l0 => (l0, e)) (listenersOf (run cs (init c0)) t)
  /\ In l (listenersOf (on t l (run cs (init c0))) t)
  /\ on t l (on t l (run cs (init c0))) = on t l (run cs (init c0))
  /\ ~ In l (listenersOf (off t l (run cs (init c0))) t)
  /\ (forall t', t' <> t ->
         listenersOf (on t l (run cs (init c0))) t' = listenersOf (run cs (init c0)) t'
         /\ listenersOf (off t l (run cs (init c0))) t'
            = listenersOf (run cs (init c0)) t').
Proof.
  pose proof (listeners_run cs c0) as F. set (st := run cs (init c0)) in *.
  split; [|split; [reflexivity|split; [|split; [|split]]]].
  - unfold listenersOf.
    destruct (JSMap.get HandleEventType_eqb (eventListeners st) t) eqn:E; [|constructor].
    exact (JSMapMore.Forall_values_get _ _ HandleEventType_eqb (fun s => NoDup s)
             _ _ _ F E).
  - rewrite listenersOf_on. apply add_In.
  - assert (E : eventListeners (on t l (on t l st)) = eventListeners (on t l st)).
    { rewrite (listeners_on t l (on t l st)).
      rewrite listenersOf_on, add_twice.
      assert (G : JSMap.get HandleEventType_eqb (eventListeners (on t l st)) t
                  = Some (JSSet.add Nat.eqb (listenersOf st t) l)).
      { rewrite listeners_on.
        now rewrite JSMapFacts.get_set_same by (now intros []). }
      unfold JSMap.has. rewrite G.
      now apply JSMapMore.set_get_same. }
    unfold on at 1. unfold on at 1 in E. cbn [withListeners eventListeners] in E.
    rewrite E. now destruct st.
  - rewrite listenersOf_off. apply delete_notIn.
  - intros t' N. split.
    + unfold listenersOf at 1. rewrite listeners_on.
      rewrite JSMapMore.get_set_other by (apply HandleEventType_eqb_eq || congruence).
      unfold listenersOf, JSMap.has.
      destruct (JSMap.get HandleEventType_eqb (eventListeners st) t); [reflexivity|].
      now rewrite JSMapMore.get_set_other
        by (apply HandleEventType_eqb_eq || congruence).
    + unfold listenersOf at 1. unfold off. cbn [withListeners eventListeners].
      destruct (JSMap.get HandleEventType_eqb (eventListeners st) t); [|reflexivity].
      now rewrite JSMapMore.get_set_other
        by (apply HandleEventType_eqb_eq || congruence).
Qed.

(** *** The dragged object and the stored object *)

Lemma length_replaceNth {A : Type} (l : list A) n a :
  List.length (replaceNth l n a) = List.length l.
Proof.
  revert n. induction l as [|b l IH]; intros [|n]; cbn; auto.
Qed.

Lemma spread_patchOf h : spread h (patchOf h) = h.
Proof. destruct h as [? ? ? ? ? ? ? ? ? [c|]]; reflexivity. Qed.

(** X13: when the dragged handle is the object stored under its id, a
    pointer move assigns the new position to that object (whoever holds a
    reference to it sees the move) and then replaces it in the handle map by
    a new object with the same fields: from the first move on, [getHandle]
    gives an object other than the one being dragged, and the map source is
    refreshed from it. *)
Theorem X13_drag_move_replaces_the_stored_object st ds h lng lt :
  dragState st = Some ds ->
  deref st (handle ds) = Some h ->
  getHandle (id h) st = Some (handle ds) ->
  getHandle (id h) (mousemove lng lt st) = Some (List.length (objects st))
  /\ List.length (objects st) <> handle ds
  /\ deref (mousemove lng lt st) (List.length (objects st))
     = Some (setPosition h (constrained st h lng lt))
  /\ deref (mousemove lng lt st) (handle ds)
     = Some (setPosition h (constrained st h lng lt))
  /\ sourceData (mousemove lng lt st)
     = getHandlesAsFeatureCollection (mousemove lng lt st).
Proof.
  intros D H G.
  assert (L : List.length (objects st) <> handle ds).
  { intro E. unfold deref in H. rewrite <- E in H.
    apply nth_error_split in H as (l1 & l2 & A & B).
    rewrite A, length_app in B. cbn in B. lia. }
  destruct (HandleManagerFacts.mousemove_session st ds h lng lt D H) as (H1 & _ & _).
  split; [|split; [exact L|split; [|split; [exact H1|]]]].
  all: unfold mousemove; rewrite D, H; fold (constrained st h lng lt).
  all: set (h' := setPosition h (constrained st h lng lt)).
  all: set (st2 := withDrag _ _ _).
  all: assert (G2 : JSMap.get String.eqb (handles st2) (id h') = Some (handle ds))
         by exact G.
  all: assert (H2 : deref st2 (handle ds) = Some h')
         by (unfold st2, deref; cbn; eapply nth_error_replaceNth_same; exact H).
  all: assert (O2 : List.length (objects st2) = List.length (objects st))
         by (unfold st2; cbn; apply length_replaceNth).
  all: unfold updateHandle; rewrite G2, H2; cbn [alloc snd fst].
  all: rewrite spread_patchOf.
  - unfold getHandle. cbn. rewrite <- O2.
    apply JSMapFacts.get_set_same, String.eqb_refl.
  - unfold deref. cbn. rewrite <- O2. exact (@deref_snoc_new st2 h').
  - cbn [emitEvent withLogs sourceData]. rewrite sourceData_updateSource.
    now apply shown_ext.
Qed.

Lemma X13_witness :
  getHandle "h1" (mousemove 5 7 draggingLocked) = Some 2
  /\ option_map position (deref (mousemove 5 7 draggingLocked) 2)
     = Some {| lon := 1; lat := 7 |}%float
  /\ option_map position (deref (mousemove 5 7 draggingLocked) 0)
     = Some {| lon := 1; lat := 7 |}%float.
Proof.
  destruct (X13_drag_move_replaces_the_stored_object draggingLocked
              {| handle := 0;
                 initialPosition := {| lon := 1; lat := 2 |}%float;
                 currentPosition := {| lon := 1; lat := 2 |}%float |}
              lockedHandle 5%float 7%float eq_refl eq_refl eq_refl)
    as (A & _ & B & C & _).
  change (List.length (objects draggingLocked)) with 2 in A, B.
  change (id lockedHandle) with "h1"%string in A.
  cbn [handle] in C.
  split; [exact A|]. split; [rewrite B | rewrite C]; reflexivity.
Defined.

End HandleManagerMore.

(** ** ToolManager: one active tool *)

Module ToolManagerMore.
Import ToolManager ToolManagerAPI ListFacts MoreObservations.

Lemma nth_error_replaceNth_hit {A : Type} (l : list A) n a b :
  nth_error (HandleManager.replaceNth l n a) n = Some b -> b = a.
Proof.
  revert n. induction l as [|c l IH]; intros [|n]; cbn; try discriminate.
  - now intros [= ->].
  - apply IH.
Qed.

Lemma replaceNth_same {A : Type} (l : list A) n a :
  nth_error l n = Some a -> HandleManager.replaceNth l n a = l.
Proof.
  revert n. induction l as [|b l IH]; intros [|n]; cbn; try discriminate.
  - now intros [= ->].
  - intro H. now rewrite IH.
Qed.

(** What the methods of [BaseTool] do to the state field. *)
Lemma state_activate self o c :
  BaseTool.state (fst (BaseTool.activate self o c))
  = if ToolState_eqb (BaseTool.state o) inactive then active else BaseTool.state o.
Proof.
  unfold BaseTool.activate. now destruct (ToolState_eqb (BaseTool.state o) inactive).
Qed.

Lemma state_deactivate self o c :
  BaseTool.state (fst (BaseTool.deactivate self o c)) = inactive.
Proof.
  unfold BaseTool.deactivate.
  destruct (ToolState_eqb (BaseTool.state o) inactive) eqn:E; [|reflexivity].
  cbn. now destruct (BaseTool.state o).
Qed.

Lemma state_destroy o c :
  BaseTool.state (fst (BaseTool.destroy o c)) = BaseTool.state o.
Proof. reflexivity. Qed.

Lemma state_handleKeyEvent key self o c :
  BaseTool.state (fst (BaseTool.handleKeyEvent key self o c)) = BaseTool.state o.
Proof.
  unfold BaseTool.handleKeyEvent. now destruct (String.eqb key "Escape").
Qed.

Lemma state_on t l o : BaseTool.state (BaseTool.on t l o) = BaseTool.state o.
Proof. reflexivity. Qed.

Lemma id_on t l o : BaseTool.id (BaseTool.on t l o) = BaseTool.id o.
Proof. reflexivity. Qed.

(** Replacing one object: the others are as expected if they were, the new
    one if its state is the expected one. *)
Lemma expected_after_replace (l : list BaseTool.Obj) r o' slot :
  (forall r2 o2, nth_error l r2 = Some o2 -> r2 <> r ->
                 BaseTool.state o2 = expectedState slot r2) ->
  BaseTool.state o' = expectedState slot r ->
  forall r2 o2,
    nth_error (HandleManager.replaceNth l r o') r2 = Some o2 ->
    BaseTool.state o2 = expectedState slot r2.
Proof.
  intros Others New r2 o2 H.
  destruct (Nat.eq_dec r r2) as [<-|N].
  - apply nth_error_replaceNth_hit in H. now subst.
  - rewrite nth_error_replaceNth_other in H by exact N. apply Others; congruence.
Qed.

(** The invariant of the manager: tools are in the expected state, the slot
    and the registry hold references to existing tools, no id is registered
    twice. *)
Lemma one_active_step st c :
  ((forall r o, nth_error (objects st) r = Some o ->
                BaseTool.state o = expectedState (activeTool st) r)
   /\ (forall a, activeTool st = Some a -> a < List.length (objects st))
   /\ Forall (fun kv => snd kv < List.length (objects st)) (tools st)
   /\ NoDup (JSMap.keys (tools st))) ->
  (forall r o, nth_error (objects (step st c)) r = Some o ->
               BaseTool.state o = expectedState (activeTool (step st c)) r)
  /\ (forall a, activeTool (step st c) = Some a -> a < List.length (objects (step st c)))
  /\ Forall (fun kv => snd kv < List.length (objects (step st c))) (tools (step st c))
  /\ NoDup (JSMap.keys (tools (step st c))).
Proof.
  intros (I1 & I2 & I3 & I4).
  assert (Valid : forall i b, JSMap.get String.eqb (tools st) i = Some b ->
                              exists ob, nth_error (objects st) b = Some ob).
  { intros i b G.
    pose proof (JSMapMore.Forall_values_get _ _ String.eqb
                  (fun v => v < List.length (objects st)) _ _ _ I3 G) as L.
    cbv beta in L. destruct (nth_error (objects st) b) eqn:E; [eauto|].
    apply nth_error_None in E. lia. }
  assert (Slot : forall a, activeTool st = Some a ->
                           exists oa, nth_error (objects st) a = Some oa
                                      /\ BaseTool.state oa = active).
  { intros a A. pose proof (I2 a A) as L.
    destruct (nth_error (objects st) a) as [oa|] eqn:E.
    - exists oa. split; [reflexivity|]. rewrite (I1 a oa E), A. cbn.
      now rewrite Nat.eqb_refl.
    - apply nth_error_None in E. lia. }
  destruct c as [rnd [i|]|r fwd|i| |i|key]; cbn [step].
  - (* Construct, with an id *)
    cbn [construct snd withObjects objects activeTool tools].
    rewrite length_app. cbn [List.length].
    split; [|split; [|split; [|exact I4]]].
    + intros r o H. destruct (Nat.lt_ge_cases r (List.length (objects st))) as [L|L].
      * rewrite nth_error_app1 in H by exact L. now apply I1.
      * rewrite nth_error_app2 in H by exact L.
        destruct (r - List.length (objects st)) as [|[|n]] eqn:E; cbn in H;
          try discriminate.
        injection H as <-. cbn. unfold expectedState.
        destruct (activeTool st) as [a|] eqn:A; [|reflexivity].
        pose proof (I2 a eq_refl).
        destruct (Nat.eqb a r) eqn:Q; [|reflexivity]. apply Nat.eqb_eq in Q. lia.
    + intros a A. pose proof (I2 a A). lia.
    + eapply Forall_impl; [|exact I3]. cbn. intros. lia.
  - (* Construct *)
    cbn [construct snd withObjects objects activeTool tools].
    rewrite length_app. cbn [List.length].
    split; [|split; [|split; [|exact I4]]].
    + intros r o H. destruct (Nat.lt_ge_cases r (List.length (objects st))) as [L|L].
      * rewrite nth_error_app1 in H by exact L. now apply I1.
      * rewrite nth_error_app2 in H by exact L.
        destruct (r - List.length (objects st)) as [|[|n]] eqn:E; cbn in H;
          try discriminate.
        injection H as <-. cbn. unfold expectedState.
        destruct (activeTool st) as [a|] eqn:A; [|reflexivity].
        pose proof (I2 a eq_refl).
        destruct (Nat.eqb a r) eqn:Q; [|reflexivity]. apply Nat.eqb_eq in Q. lia.
    + intros a A. pose proof (I2 a A). lia.
    + eapply Forall_impl; [|exact I3]. cbn. intros. lia.
  - (* RegisterTool *)
    unfold registerTool. destruct (nth_error (objects st) r) as [o|] eqn:E;
      [|repeat split; assumption].
    cbn [withObjects withTools objects activeTool tools].
    rewrite HandleManagerMore.length_replaceNth.
    split; [|split; [exact I2|split]].
    + apply expected_after_replace; [intros; now apply I1|].
      cbn [fold_left]. rewrite !state_on. now apply I1.
    + apply (JSMapMore.Forall_values_set _ _ String.eqb
               (fun v => v < List.length (objects st))); [exact I3|].
      apply nth_error_Some. congruence.
    + apply JSMapMore.NoDup_keys_set; [apply String.eqb_eq | exact I4].
  - (* ActivateTool *)
    unfold activateTool.
    destruct (JSMap.get String.eqb (tools st) i) as [b|] eqn:G;
      [|repeat split; assumption].
    destruct (Valid i b G) as [ob Hb]. cbn [snd].
    destruct (activeTool st) as [a|] eqn:A.
    + destruct (Slot a eq_refl) as (oa & Ha & Sa).
      rewrite (ToolManagerFacts.invoke_spec BaseTool.Obj _ _ _ oa st Ha).
      set (st1 := {| objects := _ |}).
      assert (exists ob1, nth_error (objects st1) b = Some ob1
                          /\ BaseTool.state ob1 = inactive) as (ob1 & Hb1 & Sb1).
      { unfold st1. cbn [objects].
        destruct (Nat.eq_dec a b) as [<-|N].
        - eexists. split; [eapply nth_error_replaceNth_same; exact Ha|].
          apply state_deactivate.
        - exists ob. rewrite nth_error_replaceNth_other by exact N.
          split; [exact Hb|]. rewrite (I1 b ob Hb). cbn.
          apply Nat.eqb_neq in N. now rewrite N. }
      rewrite (ToolManagerFacts.invoke_spec BaseTool.Obj _ _ _ ob1 st1 Hb1).
      unfold st1. cbn [withActiveTool objects activeTool tools ctx].
      rewrite !HandleManagerMore.length_replaceNth.
      split; [|split; [|split; [exact I3|exact I4]]].
      * apply expected_after_replace.
        -- intros r2 o2 H2 N2.
           assert (E2 : expectedState (Some b) r2 = inactive).
           { cbn. apply Nat.eqb_neq in N2. now rewrite Nat.eqb_sym, N2. }
           rewrite E2. destruct (Nat.eq_dec a r2) as [<-|N3].
           ++ apply nth_error_replaceNth_hit in H2. subst. apply state_deactivate.
           ++ rewrite nth_error_replaceNth_other in H2 by exact N3.
              rewrite (I1 r2 o2 H2). cbn. apply Nat.eqb_neq in N3. now rewrite N3.
        -- cbn [tool_activate BaseTool_Tool]. rewrite state_activate, Sb1. cbn.
           now rewrite Nat.eqb_refl.
      * intros x [= <-]. apply nth_error_Some. congruence.
    + rewrite (ToolManagerFacts.invoke_spec BaseTool.Obj _ _ _ ob st Hb).
      cbn [withActiveTool objects activeTool tools ctx].
      rewrite !HandleManagerMore.length_replaceNth.
      split; [|split; [|split; [exact I3|exact I4]]].
      * apply expected_after_replace.
        -- intros r2 o2 H2 N2. rewrite (I1 r2 o2 H2). cbn.
           apply Nat.eqb_neq in N2. now rewrite Nat.eqb_sym, N2.
        -- cbn [tool_activate BaseTool_Tool]. rewrite state_activate.
           rewrite (I1 b ob Hb). cbn. now rewrite Nat.eqb_refl.
      * intros x [= <-]. apply nth_error_Some. congruence.
  - (* DeactivateTool *)
    unfold deactivateTool. destruct (activeTool st) as [a|] eqn:A;
      [|cbn [snd]; rewrite A; repeat split; assumption].
    destruct (Slot a eq_refl) as (oa & Ha & Sa). cbn [snd].
    rewrite (ToolManagerFacts.invoke_spec BaseTool.Obj _ _ _ oa st Ha).
    cbn [withActiveTool objects activeTool tools ctx]. rewrite HandleManagerMore.length_replaceNth.
    split; [|split; [discriminate|split; [exact I3|exact I4]]].
    apply expected_after_replace.
    + intros r2 o2 H2 N2. rewrite (I1 r2 o2 H2). cbn.
      apply Nat.eqb_neq in N2. now rewrite Nat.eqb_sym, N2.
    + apply state_deactivate.
  - (* UnregisterTool *)
    unfold unregisterTool.
    destruct (JSMap.get String.eqb (tools st) i) as [b|] eqn:G;
      [|repeat split; assumption].
    destruct (Valid i b G) as [ob Hb]. cbn [snd].
    set (st1 := match activeTool st with
                | Some a => if Nat.eqb a b then snd (deactivateTool st) else st
                | None => st
                end).
    assert (J : (forall r o, nth_error (objects st1) r = Some o ->
                             BaseTool.state o = expectedState (activeTool st1) r)
                /\ (forall a, activeTool st1 = Some a -> a < List.length (objects st1))
                /\ List.length (objects st1) = List.length (objects st)
                /\ tools st1 = tools st).
    { unfold st1. destruct (activeTool st) as [a|] eqn:A;
        [|rewrite A; repeat split; [exact I1 | discriminate]].
      destruct (Nat.eqb a b) eqn:Q;
        [|rewrite A; repeat split; [exact I1 | exact I2]].
      unfold deactivateTool. rewrite A. cbn [snd].
      destruct (Slot a eq_refl) as (oa & Ha & Sa).
      rewrite (ToolManagerFacts.invoke_spec BaseTool.Obj _ _ _ oa st Ha).
      cbn [withActiveTool objects activeTool tools ctx]. rewrite HandleManagerMore.length_replaceNth.
      split; [|split; [discriminate|split; reflexivity]].
      apply expected_after_replace.
      - intros r2 o2 H2 N2. rewrite (I1 r2 o2 H2). cbn.
        apply Nat.eqb_neq in N2. now rewrite Nat.eqb_sym, N2.
      - apply state_deactivate. }
    destruct J as (J1 & J2 & J3 & J4).
    assert (exists ob1, nth_error (objects st1) b = Some ob1) as [ob1 Hb1].
    { destruct (nth_error (objects st1) b) eqn:E; [eauto|].
      apply nth_error_None in E.
      assert (b < List.length (objects st)) by (apply nth_error_Some; congruence).
      lia. }
    clearbody st1.
    rewrite (ToolManagerFacts.invoke_spec BaseTool.Obj _ _ _ ob1 st1 Hb1).
    cbn [withTools objects activeTool tools ctx]. rewrite HandleManagerMore.length_replaceNth, J3, J4.
    split; [|split; [|split]].
    + apply expected_after_replace; [intros; now apply J1|].
      cbn [tool_destroy BaseTool_Tool]. rewrite state_destroy. now apply J1.
    + intros a Ha. rewrite <- J3. now apply J2.
    + clear - I3. induction I3 as [|[k v] r H F IH]; cbn; [constructor|].
      destruct (String.eqb k i); [exact F|]. constructor; assumption.
    + now apply JSMapMore.NoDup_keys_delete.
  - (* KeyDown *)
    unfold keydown. destruct (activeTool st) as [a|] eqn:A;
      [|rewrite A; repeat split; [exact I1 | discriminate | |]; assumption].
    destruct (nth_error (objects st) a) as [oa|] eqn:Ha;
      [|rewrite A; repeat split; [exact I1 | exact I2 | |]; assumption].
    pose proof (state_handleKeyEvent key a oa (ctx st)) as S.
    destruct (BaseTool.handleKeyEvent key a oa (ctx st)) as [o' c'].
    cbn [objects activeTool tools fst] in *. rewrite HandleManagerMore.length_replaceNth.
    split; [|split; [intros x [= <-]; now apply I2|split; assumption]].
    apply expected_after_replace.
    + intros r2 o2 H2 N2. rewrite (I1 r2 o2 H2). reflexivity.
    + rewrite S, (I1 a oa Ha). reflexivity.
Qed.

Lemma tool_run_snoc cs c st : run (cs ++ [c]) st = step (run cs st) c.
Proof. unfold run. now rewrite fold_left_app. Qed.

Lemma one_active_run cs c :
  (forall r o, nth_error (objects (run cs (init BaseTool.Obj c))) r = Some o ->
               BaseTool.state o
               = expectedState (activeTool (run cs (init BaseTool.Obj c))) r)
  /\ (forall a, activeTool (run cs (init BaseTool.Obj c)) = Some a ->
                a < List.length (objects (run cs (init BaseTool.Obj c))))
  /\ Forall (fun kv => snd kv < List.length (objects (run cs (init BaseTool.Obj c))))
            (tools (run cs (init BaseTool.Obj c)))
  /\ NoDup (JSMap.keys (tools (run cs (init BaseTool.Obj c)))).
Proof.
  induction cs as [|x cs IH] using rev_ind.
  - cbn. repeat split; try constructor; try discriminate.
    intros [|r] o; discriminate.
  - rewrite tool_run_snoc. now apply one_active_step.
Qed.

Lemma map_pointwise {A B : Type} (f : A -> B) (g : nat -> B) (l : list A) from :
  (forall r o, nth_error l r = Some o -> f o = g (from + r)) ->
  map f l = map g (seq from (List.length l)).
Proof.
  revert from. induction l as [|a l IH]; intros from H; cbn; [reflexivity|].
  f_equal.
  - rewrite (H 0 a eq_refl). f_equal. lia.
  - apply IH. intros r o Hr. rewrite (H (S r) o Hr). f_equal. lia.
Qed.

Lemma notInactive_expected (l : list BaseTool.Obj) from slot :
  map BaseTool.state l = map (expectedState slot) (seq from (List.length l)) ->
  notInactive l from
  = match slot with
    | Some a => if Nat.leb from a && Nat.ltb a (from + List.length l) then [a] else []
    | None => []
    end.
Proof.
  revert from. induction l as [|o l IH]; intros from H.
  - cbn [notInactive List.length]. destruct slot as [a|]; [|reflexivity].
    destruct (Nat.leb_spec from a), (Nat.ltb_spec a (from + 0)); cbn; try reflexivity.
    lia.
  - cbn in H. injection H as H0 H. cbn [notInactive]. rewrite (IH _ H), H0.
    destruct slot as [a|]; [|reflexivity]. cbn [expectedState List.length].
    destruct (Nat.eqb_spec a from) as [->|N]; cbn [ToolState_eqb].
    + destruct (Nat.leb_spec (S from) from); [lia|].
      destruct (Nat.leb_spec from from); [|lia].
      destruct (Nat.ltb_spec from (from + S (List.length l))); [|lia].
      reflexivity.
    + destruct (Nat.leb_spec (S from) a), (Nat.leb_spec from a),
        (Nat.ltb_spec a (S from + List.length l)),
        (Nat.ltb_spec a (from + S (List.length l))); cbn; try reflexivity; lia.
Qed.

Lemma states_run cs c :
  map BaseTool.state (objects (run cs (init BaseTool.Obj c)))
  = map (expectedState (activeTool (run cs (init BaseTool.Obj c))))
        (seq 0 (List.length (objects (run cs (init BaseTool.Obj c))))).
Proof.
  apply map_pointwise. intros r o H. now apply (one_active_run cs c).
Qed.

Lemma notInactive_run cs c :
  notInactive (objects (run cs (init BaseTool.Obj c))) 0
  = match activeTool (run cs (init BaseTool.Obj c)) with
    | Some a => [a]
    | None => []
    end.
Proof.
  rewrite (notInactive_expected _ 0 _ (states_run cs c)).
  destruct (one_active_run cs c) as (_ & I2 & _).
  destruct (activeTool (run cs (init BaseTool.Obj c))) as [a|]; [|reflexivity].
  pose proof (I2 a eq_refl) as L. cbn [Nat.leb andb Nat.add].
  destruct (Nat.ltb_spec a (List.length (objects (run cs (init BaseTool.Obj c)))));
    [reflexivity|lia].
Qed.

(** X14: whatever tools are constructed, registered, activated, deactivated,
    unregistered, and whatever keys are pressed, starting from a new
    manager whose tools are driven through the manager only and whose
    listeners only observe: the tool in the active-tool slot is in state [active] and every
    other tool is in state [inactive]; so at most one tool is not inactive,
    and it is the one [getActiveTool] returns. *)
Theorem X14_only_the_tool_in_the_slot_is_active cs c :
  map BaseTool.state (objects (run cs (init BaseTool.Obj c)))
  = map (expectedState (getActiveTool (run cs (init BaseTool.Obj c))))
        (seq 0 (List.length (objects (run cs (init BaseTool.Obj c)))))
  /\ notInactive (objects (run cs (init BaseTool.Obj c))) 0
     = match getActiveTool (run cs (init BaseTool.Obj c)) with
       | Some a => [a]
       | None => []
       end.
Proof.
  split; [apply states_run | apply notInactive_run].
Qed.

(** X15: [deactivateTool] on a manager reached by any calls returns whether
    there was an active tool; with one, [deactivate] is called on it once and
    nothing else is called; afterwards the slot is empty and no tool is left
    active.  Without an active tool, and so on a second call, it returns
    [false] and changes nothing. *)
Theorem X15_deactivateTool_leaves_no_tool_active cs c :
  fst (deactivateTool (run cs (init BaseTool.Obj c)))
  = match getActiveTool (run cs (init BaseTool.Obj c)) with
    | Some _ => true
    | None => false
    end
  /\ getActiveTool (snd (deactivateTool (run cs (init BaseTool.Obj c)))) = None
  /\ notInactive (objects (snd (deactivateTool (run cs (init BaseTool.Obj c))))) 0 = []
  /\ match getActiveTool (run cs (init BaseTool.Obj c)) with
     | Some a =>
         calls (snd (deactivateTool (run cs (init BaseTool.Obj c))))
         = calls (run cs (init BaseTool.Obj c)) ++ [Deactivate a]
     | None =>
         snd (deactivateTool (run cs (init BaseTool.Obj c)))
         = run cs (init BaseTool.Obj c)
     end
  /\ deactivateTool (snd (deactivateTool (run cs (init BaseTool.Obj c))))
     = (false, snd (deactivateTool (run cs (init BaseTool.Obj c)))).
Proof.
  assert (N : getActiveTool (snd (deactivateTool (run cs (init BaseTool.Obj c)))) = None).
  { unfold deactivateTool, getActiveTool.
    destruct (activeTool (run cs (init BaseTool.Obj c))) eqn:A; [reflexivity|exact A]. }
  split; [|split; [exact N|split; [|split]]].
  - unfold deactivateTool, getActiveTool.
    now destruct (activeTool (run cs (init BaseTool.Obj c))).
  - pose proof (notInactive_run (cs ++ [DeactivateTool]) c) as H.
    rewrite tool_run_snoc in H. cbn [step] in H. unfold getActiveTool in N.
    now rewrite N in H.
  - destruct (one_active_run cs c) as (_ & I2 & _).
    unfold deactivateTool, getActiveTool.
    destruct (activeTool (run cs (init BaseTool.Obj c))) as [a|] eqn:A;
      [|reflexivity].
    pose proof (I2 a eq_refl) as L.
    destruct (nth_error (objects (run cs (init BaseTool.Obj c))) a) as [oa|] eqn:E;
      [|apply nth_error_None in E; lia].
    cbn [snd]. now rewrite (ToolManagerFacts.invoke_spec BaseTool.Obj _ _ _ oa _ E).
  - unfold getActiveTool in N. unfold deactivateTool at 1. now rewrite N.
Qed.

(** X16: [unregisterTool(id)] on a manager reached by any calls returns
    whether a tool was registered under the id, and afterwards [getTool(id)]
    finds nothing while every other id is still registered as before.  An
    unknown id changes nothing.  If the tool was the active one it is
    deactivated first and the slot is emptied, otherwise the slot is left
    alone; in both cases the tool is destroyed and no tool is left active
    outside the slot. *)
Theorem X16_unregisterTool_removes_the_tool cs c toolId :
  fst (unregisterTool toolId (run cs (init BaseTool.Obj c)))
  = JSMap.has String.eqb (tools (run cs (init BaseTool.Obj c))) toolId
  /\ getTool toolId (snd (unregisterTool toolId (run cs (init BaseTool.Obj c)))) = None
  /\ (forall k, k <> toolId ->
        getTool k (snd (unregisterTool toolId (run cs (init BaseTool.Obj c))))
        = getTool k (run cs (init BaseTool.Obj c)))
  /\ match getTool toolId (run cs (init BaseTool.Obj c)) with
     | None =>
         snd (unregisterTool toolId (run cs (init BaseTool.Obj c)))
         = run cs (init BaseTool.Obj c)
     | Some b =>
         getActiveTool (snd (unregisterTool toolId (run cs (init BaseTool.Obj c))))
         = (if match getActiveTool (run cs (init BaseTool.Obj c)) with
               | Some a => Nat.eqb a b
               | None => false
               end
            then None else getActiveTool (run cs (init BaseTool.Obj c)))
         /\ calls (snd (unregisterTool toolId (run cs (init BaseTool.Obj c))))
            = calls (run cs (init BaseTool.Obj c))
              ++ (if match getActiveTool (run cs (init BaseTool.Obj c)) with
                     | Some a => Nat.eqb a b
                     | None => false
                     end
                  then [Deactivate b; Destroy b] else [Destroy b])
     end.
Proof.
  destruct (one_active_run cs c) as (_ & I2 & I3 & I4).
  set (st := run cs (init BaseTool.Obj c)) in *.
  assert (Valid : forall r, r < List.length (objects st) ->
                            exists o, nth_error (objects st) r = Some o).
  { intros r L. destruct (nth_error (objects st) r) eqn:E; [eauto|].
    apply nth_error_None in E. lia. }
  unfold getTool, getActiveTool, JSMap.has, unregisterTool.
  destruct (JSMap.get String.eqb (tools st) toolId) as [b|] eqn:G.
  2:{ cbn [fst snd]. rewrite G. repeat split; reflexivity. }
  pose proof (JSMapMore.Forall_values_get _ _ String.eqb
                (fun v => v < List.length (objects st)) _ _ _ I3 G) as Lb.
  cbv beta in Lb. destruct (Valid b Lb) as [ob Hb].
  cbn [fst snd].
  set (st1 := match activeTool st with
              | Some a => if Nat.eqb a b then snd (deactivateTool st) else st
              | None => st
              end).
  assert (J : List.length (objects st1) = List.length (objects st)
              /\ tools st1 = tools st
              /\ activeTool st1
                 = (if match activeTool st with
                       | Some a => Nat.eqb a b
                       | None => false
                       end
                    then None else activeTool st)
              /\ calls st1
                 = calls st ++ (if match activeTool st with
                                   | Some a => Nat.eqb a b
                                   | None => false
                                   end
                                then [Deactivate b] else [])).
  { unfold st1. destruct (activeTool st) as [a|] eqn:A;
      [|rewrite A, app_nil_r; repeat split; reflexivity].
    destruct (Nat.eqb_spec a b) as [->|N];
      [|rewrite A, app_nil_r; repeat split; reflexivity].
    unfold deactivateTool. rewrite A. cbn [snd].
    rewrite (ToolManagerFacts.invoke_spec BaseTool.Obj _ _ _ ob st Hb).
    cbn. rewrite HandleManagerMore.length_replaceNth. repeat split; reflexivity. }
  destruct J as (J1 & J2 & J3 & J4).
  assert (exists ob1, nth_error (objects st1) b = Some ob1) as [ob1 Hb1].
  { destruct (nth_error (objects st1) b) eqn:E; [eauto|].
    apply nth_error_None in E. lia. }
  clearbody st1.
  rewrite (ToolManagerFacts.invoke_spec BaseTool.Obj _ _ _ ob1 st1 Hb1).
  cbn [withTools objects activeTool tools ctx calls]. rewrite J2, J3, J4.
  split; [reflexivity|split; [|split; [|split]]].
  - apply JSMapMore.get_delete_same; [apply String.eqb_eq | exact I4].
  - intros k N. apply JSMapMore.get_delete_other; [apply String.eqb_eq | congruence].
  - reflexivity.
  - rewrite <- app_assoc. now destruct (match activeTool st with
                                        | Some a => Nat.eqb a b
                                        | None => false
                                        end).
Qed.

Lemma ToolEventType_eqb_eq a b : ToolEventType_eqb a b = true <-> a = b.
Proof. destruct a, b; cbn; split; congruence. Qed.

Lemma tool_listenersOf_on t l o t2 :
  BaseTool.listenersOf (BaseTool.on t l o) t2
  = if ToolEventType_eqb t t2
    then JSSet.add Nat.eqb (BaseTool.listenersOf o t) l
    else BaseTool.listenersOf o t2.
Proof.
  unfold BaseTool.on, BaseTool.listenersOf, JSMap.has.
  cbn [BaseTool.withListeners BaseTool.eventListeners].
  destruct (JSMap.get ToolEventType_eqb (BaseTool.eventListeners o) t) eqn:E.
  - rewrite E, (JSMapMore.get_set _ _ _ ToolEventType_eqb_eq).
    now destruct (ToolEventType_eqb t t2).
  - rewrite JSMapFacts.get_set_same by (now intros []).
    rewrite !(JSMapMore.get_set _ _ _ ToolEventType_eqb_eq).
    destruct (ToolEventType_eqb t t2) eqn:Q; [reflexivity|].
    reflexivity.
Qed.

Lemma fields_on t l o :
  BaseTool.withListeners (BaseTool.eventListeners o) (BaseTool.on t l o) = o.
Proof. now destruct o. Qed.

(** X17: [registerTool(tool)] files the tool under its id, so that
    [getTool(id)] finds it, and leaves every other id as it was.  On the
    tool it only adds listeners: for each of the six event types the
    manager's forwarder is added after the listeners already there.  It
    activates nothing and calls no method of the tool's lifecycle. *)
Theorem X17_registerTool_files_the_tool_and_listens_to_it
  (st : State BaseTool.Obj) r fwd o
  (H : nth_error (objects st) r = Some o) :
  getTool (BaseTool.id o) (registerTool r fwd st) = Some r
  /\ (forall k, k <> BaseTool.id o ->
        getTool k (registerTool r fwd st) = getTool k st)
  /\ (exists o',
        nth_error (objects (registerTool r fwd st)) r = Some o'
        /\ BaseTool.withListeners (BaseTool.eventListeners o) o' = o
        /\ forall t, BaseTool.listenersOf o' t
                     = JSSet.add Nat.eqb (BaseTool.listenersOf o t) (fwd t))
  /\ (forall r2, r2 <> r ->
        nth_error (objects (registerTool r fwd st)) r2 = nth_error (objects st) r2)
  /\ getActiveTool (registerTool r fwd st) = getActiveTool st
  /\ calls (registerTool r fwd st) = calls st
  /\ ctx (registerTool r fwd st) = ctx st.
Proof.
  unfold registerTool, getTool, getActiveTool. rewrite H.
  cbn [withObjects withTools objects tools activeTool calls ctx tool_id tool_on
       BaseTool_Tool fold_left].
  split; [|split; [|split; [|split; [|repeat split]]]].
  - apply JSMapFacts.get_set_same. apply String.eqb_refl.
  - intros k N. apply JSMapMore.get_set_other; [apply String.eqb_eq | congruence].
  - eexists. split; [eapply nth_error_replaceNth_same; exact H|]. split.
    + now destruct o.
    + intro t. rewrite !tool_listenersOf_on. now destruct t.
  - intros r2 N. apply nth_error_replaceNth_other. congruence.
Qed.

Lemma X17_witness :
  getTool "tool-a"
    (registerTool 0 (ToolExamples.forwarder 10)
       (snd (construct (BaseTool.new "a") (init BaseTool.Obj ToolExamples.ctx0))))
  = Some 0.
Proof.
  exact (proj1 (X17_registerTool_files_the_tool_and_listens_to_it
                  (snd (construct (BaseTool.new "a")
                          (init BaseTool.Obj ToolExamples.ctx0)))
                  0 (ToolExamples.forwarder 10) (BaseTool.new "a") eq_refl)).
Defined.

(** X18: a key press reaches only the active tool.  With no active tool
    nothing happens, and any key but Escape changes nothing.  Escape cancels
    the active tool: its handle list is emptied and one [cancel] event
    carrying its state is emitted; the tool stays active and in the slot, the
    cursor is kept, and the manager calls none of [activate], [deactivate],
    [destroy]. *)
Theorem X18_escape_cancels_but_keeps_the_tool_active (st : State BaseTool.Obj) key :
  match getActiveTool st with
  | None => keydown key st = st
  | Some a =>
      match nth_error (objects st) a with
      | None => keydown key st = st
      | Some o =>
          (key <> "Escape"%string -> keydown key st = st)
          /\ (key = "Escape"%string ->
              nth_error (objects (keydown key st)) a
              = Some (BaseTool.withHandles [] o)
              /\ getActiveTool (keydown key st) = Some a
              /\ calls (keydown key st) = calls st
              /\ tools (keydown key st) = tools st
              /\ emitted (ctx (keydown key st))
                 = emitted (ctx st)
                   ++ [{| te_type := cancel_ev; te_tool := a;
                          te_state := BaseTool.state o |}]
              /\ delivered (ctx (keydown key st))
                 = delivered (ctx st)
                   ++ map (fun l => (l, {| te_type := cancel_ev; te_tool := a;
                                           te_state := BaseTool.state o |}))
                        (BaseTool.listenersOf o cancel_ev)
              /\ canvasCursor (ctx (keydown key st)) = canvasCursor (ctx st)
              /\ selectionManager (ctx (keydown key st)) = selectionManager (ctx st))
      end
  end.
Proof.
  unfold getActiveTool, keydown.
  destruct (activeTool st) as [a|] eqn:A; [|reflexivity].
  destruct (nth_error (objects st) a) as [o|] eqn:E; [|reflexivity].
  unfold BaseTool.handleKeyEvent. split.
  - intro N. apply String.eqb_neq in N. rewrite N.
    rewrite (replaceNth_same _ _ _ E). destruct st; cbn in *. now rewrite A.
  - intros ->. cbn [String.eqb Ascii.eqb Bool.eqb].
    unfold BaseTool.cancel, BaseTool.clearHandles.
    cbn [objects activeTool calls tools ctx].
    repeat split. eapply nth_error_replaceNth_same; exact E.
Qed.

End ToolManagerMore.

(** ** BaseTool: the handles of a tool *)

Module BaseToolMore.
Import HandleManager.

Lemma get_fold_delete (m : JSMap.t string Ref) ks k :
  NoDup (JSMap.keys m) ->
  (In k ks -> JSMap.get String.eqb
                (fold_left (fun m i => JSMap.delete String.eqb m i) ks m) k = None)
  /\ (~ In k ks -> JSMap.get String.eqb
                     (fold_left (fun m i => JSMap.delete String.eqb m i) ks m) k
                   = JSMap.get String.eqb m k).
Proof.
  revert m. induction ks as [|k1 ks IH]; intros m N; cbn [fold_left].
  - split; [intros []|reflexivity].
  - pose proof (JSMapMore.NoDup_keys_delete _ _ String.eqb m k1 N) as N1.
    destruct (IH _ N1) as [Hin Hout].
    destruct (in_dec string_dec k ks) as [I|I].
    + split; [intros _; now apply Hin | intros C; exfalso; apply C; now right].
    + rewrite (Hout I). split.
      * intros [->|C]; [|contradiction].
        apply JSMapMore.get_delete_same; [apply String.eqb_eq | exact N].
      * intro C. apply JSMapMore.get_delete_other; [apply String.eqb_eq|].
        intros ->. apply C. now left.
Qed.

(** The loop of [clearHandles] removes the ids of the tool's handle objects
    from the map and touches nothing else but the rendered source. *)
Lemma clear_loop rs st :
  objects (fold_left
             (fun s r => match deref s r with
                         | Some h => snd (removeHandle (id h) s)
                         | None => s
                         end) rs st) = objects st
  /\ handles (fold_left
                (fun s r => match deref s r with
                            | Some h => snd (removeHandle (id h) s)
                            | None => s
                            end) rs st)
     = fold_left (fun m i => JSMap.delete String.eqb m i)
         (flat_map (fun r => match deref st r with
                             | Some h => [id h]
                             | None => []
                             end) rs) (handles st)
  /\ emitted (fold_left
                (fun s r => match deref s r with
                            | Some h => snd (removeHandle (id h) s)
                            | None => s
                            end) rs st) = emitted st
  /\ dragState (fold_left
                  (fun s r => match deref s r with
                              | Some h => snd (removeHandle (id h) s)
                              | None => s
                              end) rs st) = dragState st
  /\ activeHandle (fold_left
                     (fun s r => match deref s r with
                                 | Some h => snd (removeHandle (id h) s)
                                 | None => s
                                 end) rs st) = activeHandle st.
Proof.
  revert st. induction rs as [|r rs IH]; intro st; cbn [fold_left flat_map].
  - repeat split; reflexivity.
  - set (st1 := match deref st r with
                | Some h => snd (removeHandle (id h) st)
                | None => st
                end).
    assert (J : objects st1 = objects st
                /\ handles st1
                   = fold_left (fun m i => JSMap.delete String.eqb m i)
                       (match deref st r with Some h => [id h] | None => [] end)
                       (handles st)
                /\ emitted st1 = emitted st /\ dragState st1 = dragState st
                /\ activeHandle st1 = activeHandle st).
    { unfold st1. destruct (deref st r) as [h|]; [|repeat split; reflexivity].
      unfold removeHandle.
      destruct (JSMap.has String.eqb (handles st) (id h)); repeat split; reflexivity. }
    destruct J as (J1 & J2 & J3 & J4 & J5).
    destruct (IH st1) as (H1 & H2 & H3 & H4 & H5).
    rewrite H1, H2, H3, H4, H5, J1, J3, J4, J5, fold_left_app, J2.
    repeat split. f_equal. apply flat_map_ext. intro x. unfold deref. now rewrite J1.
Qed.

(** X19: [clearHandles] of a tool, on a handle manager reached by any calls:
    the tool's handle list becomes empty, the id of every handle object the
    tool held is no longer in the manager, and every other id is still
    registered as before.  No handle object is changed, no handle event is
    emitted, and a drag in progress is not ended. *)
Theorem X19_clearHandles_removes_the_tools_own_handles o c cs c0 :
  BaseTool.handles
    (fst (BaseTool.clearHandles o
            (withHandleManager (HandleManagerAPI.run cs (init c0)) c))) = []
  /\ (forall r h,
        In r (BaseTool.handles o) ->
        deref (HandleManagerAPI.run cs (init c0)) r = Some h ->
        getHandle (id h)
          (handleManager
             (snd (BaseTool.clearHandles o
                     (withHandleManager (HandleManagerAPI.run cs (init c0)) c))))
        = None)
  /\ (forall k,
        (forall r h, In r (BaseTool.handles o) ->
                     deref (HandleManagerAPI.run cs (init c0)) r = Some h ->
                     id h <> k) ->
        getHandle k
          (handleManager
             (snd (BaseTool.clearHandles o
                     (withHandleManager (HandleManagerAPI.run cs (init c0)) c))))
        = getHandle k (HandleManagerAPI.run cs (init c0)))
  /\ objects
       (handleManager
          (snd (BaseTool.clearHandles o
                  (withHandleManager (HandleManagerAPI.run cs (init c0)) c))))
     = objects (HandleManagerAPI.run cs (init c0))
  /\ emitted
       (handleManager
          (snd (BaseTool.clearHandles o
                  (withHandleManager (HandleManagerAPI.run cs (init c0)) c))))
     = emitted (HandleManagerAPI.run cs (init c0))
  /\ dragState
       (handleManager
          (snd (BaseTool.clearHandles o
                  (withHandleManager (HandleManagerAPI.run cs (init c0)) c))))
     = dragState (HandleManagerAPI.run cs (init c0)).
Proof.
  pose proof (HandleManagerMore.keys_run cs c0) as N.
  set (hm := HandleManagerAPI.run cs (init c0)) in *.
  unfold BaseTool.clearHandles.
  cbn [fst snd BaseTool.handles BaseTool.withHandles handleManager withHandleManager].
  destruct (clear_loop (BaseTool.handles o) hm) as (H1 & H2 & H3 & H4 & _).
  unfold getHandle. rewrite H1, H2, H3, H4.
  split; [reflexivity|split; [|split; [|repeat split]]].
  - intros r h I D. apply get_fold_delete; [exact N|].
    apply in_flat_map. exists r. split; [exact I|]. rewrite D. now left.
  - intros k Hk. apply get_fold_delete; [exact N|].
    intro I. apply in_flat_map in I. destruct I as (r & I & Q).
    destruct (deref hm r) as [h|] eqn:D; [|destruct Q].
    destruct Q as [Q|[]]. exact (Hk r h I D Q).
Qed.

End BaseToolMore.

(** ** SelectionTool (src/lib/tools/selection-tool.ts): handles and clicks *)

Module SelectionToolMore.
Import SelectionToolClick.

Lemma has_set_mono {V : Type} (m : JSMap.t string V) k k2 v :
  JSMap.has String.eqb m k = true ->
  JSMap.has String.eqb (JSMap.set String.eqb m k2 v) k = true.
Proof.
  unfold JSMap.has. rewrite (JSMapMore.get_set _ _ _ String.eqb_eq).
  now destruct (String.eqb k2 k).
Qed.

Lemma addHandle_frame t s pos rnd c :
  selectionManager (snd (SelectionTool.addHandle t s pos rnd c)) = selectionManager c.
Proof.
  unfold SelectionTool.addHandle.
  now destruct (HandleManager.createHandle t s (Some pos) rnd (handleManager c)).
Qed.

Lemma withHandleManager_same c : withHandleManager (handleManager c) c = c.
Proof. now destruct c. Qed.

Lemma regenerate_keeps rnd o c :
  BaseTool.handles (SelectionTool.base o) = [] ->
  BaseTool.handles
    (SelectionTool.base (fst (SelectionTool.createHandlesForSelection rnd o c))) = []
  /\ (forall k,
        JSMap.has String.eqb (HandleManager.handles (handleManager c)) k = true ->
        JSMap.has String.eqb
          (HandleManager.handles
             (handleManager (snd (SelectionTool.createHandlesForSelection rnd o c)))) k
        = true)
  /\ (forall r h,
        HandleManager.deref (handleManager c) r = Some h ->
        HandleManager.deref
          (handleManager (snd (SelectionTool.createHandlesForSelection rnd o c))) r
        = Some h)
  /\ selectionManager (snd (SelectionTool.createHandlesForSelection rnd o c))
     = selectionManager c
  /\ (SelectionManager.getSelectionBounds (selectionManager c) = None ->
      snd (SelectionTool.createHandlesForSelection rnd o c) = c).
Proof.
  intro H. unfold SelectionTool.createHandlesForSelection, BaseTool.clearHandles.
  rewrite H. cbn [fold_left]. rewrite withHandleManager_same.
  destruct (SelectionManager.getSelectionBounds (selectionManager c)) as [b|] eqn:B.
  2:{ cbn. repeat split; auto. }
  repeat match goal with
         | |- context [SelectionTool.addHandle ?t ?s ?p ?r ?c0] =>
             let E := fresh "E" in
             let M := fresh "M" in
             let F := fresh "F" in
             pose proof (SelectionToolFacts.addHandle_spec t s p r c0) as (E & ? & M);
             pose proof (addHandle_frame t s p r c0) as F;
             destruct (SelectionTool.addHandle t s p r c0);
             cbn [fst snd] in *
         end.
  split; [reflexivity|split; [|split; [|split; [congruence|discriminate]]]].
  - intros k K.
    repeat match goal with
           | M : HandleManager.handles _ = _ |- _ => rewrite M; clear M
           end.
    now repeat apply has_set_mono.
  - intros ref obj D. auto 10.
Qed.

(** X20: the SelectionTool of selection-tool.ts never gives its handles to
    [this.handles], which is all [clearHandles] removes.  So, with
    [this.handles] empty as the constructor leaves it, regenerating the
    handles removes no handle from the handle manager: every id registered
    before is registered afterwards, every handle object is unchanged, and
    [this.handles] is still empty.  When the selection has no bounds the
    handle manager is left exactly as it was, with the handles of the
    earlier selection still in it. *)
Theorem X20_regeneration_never_removes_a_handle rnd o c
  (H : BaseTool.handles (SelectionTool.base o) = []) :
  BaseTool.handles
    (SelectionTool.base (fst (SelectionTool.createHandlesForSelection rnd o c))) = []
  /\ (forall k,
        JSMap.has String.eqb (HandleManager.handles (handleManager c)) k = true ->
        JSMap.has String.eqb
          (HandleManager.handles
             (handleManager (snd (SelectionTool.createHandlesForSelection rnd o c)))) k
        = true)
  /\ (forall r h,
        HandleManager.deref (handleManager c) r = Some h ->
        HandleManager.deref
          (handleManager (snd (SelectionTool.createHandlesForSelection rnd o c))) r
        = Some h)
  /\ selectionManager (snd (SelectionTool.createHandlesForSelection rnd o c))
     = selectionManager c
  /\ (SelectionManager.getSelectionBounds (selectionManager c) = None ->
      snd (SelectionTool.createHandlesForSelection rnd o c) = c).
Proof. exact (regenerate_keeps rnd o c H). Qed.

Lemma X20_witness :
  BaseTool.handles
    (SelectionTool.base
       (fst (SelectionTool.createHandlesForSelection ToolExamples.draws
               ToolExamples.selectionTool0 ToolExamples.ctx0))) = [].
Proof.
  exact (proj1 (X20_regeneration_never_removes_a_handle ToolExamples.draws
                  ToolExamples.selectionTool0 ToolExamples.ctx0 eq_refl)).
Defined.

Section Clicks.
Variable turf : SelectionManager.Turf.

Lemma selectEach_snoc multi rnd fs f : forall k s,
  selectEach turf multi rnd k (fs ++ [f]) s
  = snd (SelectionManager.select turf (hit f) (source f) (layer f) (Some (negb multi))
           (rnd (k + List.length fs)) (selectEach turf multi rnd k fs s)).
Proof.
  induction fs as [|g fs IH]; intros k s; cbn [selectEach app List.length].
  - now rewrite Nat.add_0_r.
  - rewrite IH. now rewrite Nat.add_succ_r.
Qed.

Lemma has_select f src lyr cur0 rnd st i :
  JSMap.has String.eqb (SelectionManager.selectedFeatures st) i = true ->
  JSMap.has String.eqb
    (SelectionManager.selectedFeatures
       (snd (SelectionManager.select turf f src lyr cur0 rnd st))) i = true.
Proof.
  intro H. rewrite SelectionManagerFacts.selected_select.
  apply has_set_mono. now rewrite SelectionManagerMore.has_resetCurrent.
Qed.

Lemma has_selected f src lyr cur0 rnd st :
  JSMap.has String.eqb
    (SelectionManager.selectedFeatures
       (snd (SelectionManager.select turf f src lyr cur0 rnd st)))
    (SelectionManager.featureIdOf f rnd) = true.
Proof.
  rewrite SelectionManagerFacts.selected_select. unfold JSMap.has.
  now rewrite JSMapFacts.get_set_same by apply String.eqb_refl.
Qed.

Lemma has_selectEach multi rnd fs i : forall k s,
  JSMap.has String.eqb (SelectionManager.selectedFeatures s) i = true ->
  JSMap.has String.eqb
    (SelectionManager.selectedFeatures (selectEach turf multi rnd k fs s)) i = true.
Proof.
  induction fs as [|g fs IH]; intros k s H; cbn [selectEach]; [exact H|].
  apply IH. now apply has_select.
Qed.

Lemma hits_selectEach multi rnd fs : forall k s j g,
  nth_error fs j = Some g ->
  JSMap.has String.eqb
    (SelectionManager.selectedFeatures (selectEach turf multi rnd k fs s))
    (SelectionManager.featureIdOf (hit g) (rnd (k + j))) = true.
Proof.
  induction fs as [|f fs IH]; intros k s [|j] g H; cbn in H; try discriminate;
    cbn [selectEach].
  - injection H as ->. rewrite Nat.add_0_r. apply has_selectEach, has_selected.
  - rewrite Nat.add_succ_r. now apply (IH (S k)).
Qed.

Lemma only_select (F : list SelectionManager.Feature) f src lyr cur0 rnd st :
  Forall (fun kv => In (SelectionManager.feature (snd kv)) F)
         (SelectionManager.selectedFeatures st) ->
  In f F ->
  Forall (fun kv => In (SelectionManager.feature (snd kv)) F)
         (SelectionManager.selectedFeatures
            (snd (SelectionManager.select turf f src lyr cur0 rnd st))).
Proof.
  intros A I. rewrite SelectionManagerFacts.selected_select.
  apply (JSMapMore.Forall_values_set _ _ String.eqb
           (fun v => In (SelectionManager.feature v) F)); [|exact I].
  unfold SelectionManager.resetCurrent.
  destruct (match cur0 with Some b => b | None => true end); [|exact A].
  cbn. unfold JSMap.forEach_mutate. apply Forall_map.
  eapply Forall_impl; [|exact A]. now intros [k v].
Qed.

Lemma only_selectEach (F : list SelectionManager.Feature) multi rnd fs : forall k s,
  Forall (fun kv => In (SelectionManager.feature (snd kv)) F)
         (SelectionManager.selectedFeatures s) ->
  incl (map hit fs) F ->
  Forall (fun kv => In (SelectionManager.feature (snd kv)) F)
         (SelectionManager.selectedFeatures (selectEach turf multi rnd k fs s)).
Proof.
  induction fs as [|g fs IH]; intros k s A I; cbn [selectEach]; [exact A|].
  apply IH.
  - apply only_select; [exact A|]. apply I. now left.
  - intros x Hx. apply I. now right.
Qed.

Lemma count_selectEach_multi rnd fs : forall k s,
  SelectionManager.countCurrent (selectEach turf true rnd k fs s)
  <= SelectionManager.countCurrent s.
Proof.
  induction fs as [|g fs IH]; intros k s; cbn [selectEach]; [lia|].
  etransitivity; [apply IH|].
  unfold SelectionManager.countCurrent, SelectionManager.getSelection.
  rewrite SelectionManagerFacts.selected_select. cbn [negb].
  etransitivity; [apply SelectionManagerFacts.current_set_le|].
  cbn. lia.
Qed.

Lemma selectionManager_regenerate rnd o c :
  selectionManager (snd (SelectionTool.createHandlesForSelection rnd o c))
  = selectionManager c.
Proof.
  unfold SelectionTool.createHandlesForSelection, BaseTool.clearHandles.
  cbn [selectionManager withHandleManager].
  destruct (SelectionManager.getSelectionBounds (selectionManager c)); [|reflexivity].
  repeat match goal with
         | |- context [SelectionTool.addHandle ?t ?s ?p ?r ?c0] =>
             let F := fresh "F" in
             pose proof (addHandle_frame t s p r c0) as F;
             destruct (SelectionTool.addHandle t s p r c0);
             cbn [fst snd] in *
         end.
  cbn [selectionManager withHandleManager] in *. congruence.
Qed.

(** The selection manager a click leaves, when the click is not ignored
    and does not only clear. *)
Lemma selectionManager_handleClick features rndSel rndHandle o c :
  dragStart o = None ->
  (List.length features =? 0) && negb (multiSelect o) = false ->
  selectionManager (snd (handleClick turf features rndSel rndHandle o c))
  = selectHits turf (multiSelect o) rndSel features (selectionManager c).
Proof.
  intros D B. unfold handleClick. rewrite D, B.
  pose proof (selectionManager_regenerate rndHandle (tool o)
                (withSelectionManager
                   (selectHits turf (multiSelect o) rndSel features (selectionManager c))
                   c)) as F.
  destruct (SelectionTool.createHandlesForSelection rndHandle (tool o) _).
  exact F.
Qed.

(** X21: a click on features with a tool that is not in multi-select mode
    and has no drag box open.  Afterwards the selection holds clicked
    features only, every clicked feature is selected, exactly one entry is
    the current selection and it is the last of the clicked features, and
    the selection has bounds. *)
Theorem X21_click_selects_the_clicked_features_only fs f rndSel rndHandle o c
  (M : multiSelect o = false) (D : dragStart o = None) :
  (forall s,
      In s (SelectionManager.getSelection
              (selectionManager
                 (snd (handleClick turf (fs ++ [f]) rndSel rndHandle o c)))) ->
      In (SelectionManager.feature s) (map hit (fs ++ [f])))
  /\ (forall j g,
        nth_error (fs ++ [f]) j = Some g ->
        JSMap.has String.eqb
          (SelectionManager.selectedFeatures
             (selectionManager
                (snd (handleClick turf (fs ++ [f]) rndSel rndHandle o c))))
          (SelectionManager.featureIdOf (hit g) (rndSel j)) = true)
  /\ SelectionManager.countCurrent
       (selectionManager (snd (handleClick turf (fs ++ [f]) rndSel rndHandle o c)))
     = 1
  /\ (exists s,
        JSMap.get String.eqb
          (SelectionManager.selectedFeatures
             (selectionManager
                (snd (handleClick turf (fs ++ [f]) rndSel rndHandle o c))))
          (SelectionManager.featureIdOf (hit f) (rndSel (List.length fs))) = Some s
        /\ SelectionManager.feature s = hit f
        /\ SelectionManager.isCurrentSelection s = true)
  /\ SelectionManager.getSelectionBounds
       (selectionManager (snd (handleClick turf (fs ++ [f]) rndSel rndHandle o c)))
     <> None.
Proof.
  assert (B : (List.length (fs ++ [f]) =? 0) && negb (multiSelect o) = false).
  { rewrite length_app, Nat.add_comm. reflexivity. }
  rewrite (selectionManager_handleClick (fs ++ [f]) rndSel rndHandle o c D B), M.
  unfold selectHits. cbn [negb].
  split; [|split].
  - intros s I.
    pose proof (only_selectEach (map hit (fs ++ [f])) false rndSel (fs ++ [f]) 0
                  (SelectionManager.clearSelection (selectionManager c))
                  (Forall_nil _) (incl_refl _)) as A.
    unfold SelectionManager.getSelection, JSMap.values in I.
    apply in_map_iff in I. destruct I as (kv & <- & I).
    rewrite Forall_forall in A. exact (A kv I).
  - intros j g H. exact (hits_selectEach false rndSel (fs ++ [f]) 0 _ j g H).
  - rewrite selectEach_snoc. cbn [negb Nat.add].
    set (st := selectEach turf false rndSel 0 fs _).
    split; [|split].
    + unfold SelectionManager.countCurrent, SelectionManager.getSelection.
      rewrite SelectionManagerFacts.selected_select.
      rewrite SelectionManagerFacts.current_set_none; [reflexivity|].
      apply SelectionManagerFacts.current_forEach_notCurrent.
    + eexists. rewrite SelectionManagerFacts.selected_select.
      split; [apply JSMapFacts.get_set_same, String.eqb_refl|].
      split; reflexivity.
    + pose proof (SelectionManagerFacts.boundsInSync_select turf (hit f) (source f)
                    (layer f) (Some true) (rndSel (List.length fs)) st) as H.
      unfold SelectionManager.getSelectionBounds. rewrite H. intro E.
      apply SelectionManagerFacts.calculateSelectionBounds_None in E.
      unfold SelectionManager.getSelection in E.
      rewrite SelectionManagerFacts.selected_select in E.
      apply JSMapFacts.values_nil_iff in E.
      now apply JSMapFacts.size_set_pos in E.
Qed.

(** X22: a click with a tool in multi-select mode and no drag box open
    removes nothing from the selection, selects every clicked feature, and
    makes no entry the current selection: the number of current entries
    does not grow. *)
Theorem X22_multi_select_click_adds_to_the_selection features rndSel rndHandle o c
  (M : multiSelect o = true) (D : dragStart o = None) :
  (forall k,
      JSMap.has String.eqb (SelectionManager.selectedFeatures (selectionManager c)) k
      = true ->
      JSMap.has String.eqb
        (SelectionManager.selectedFeatures
           (selectionManager (snd (handleClick turf features rndSel rndHandle o c)))) k
      = true)
  /\ (forall j g,
        nth_error features j = Some g ->
        JSMap.has String.eqb
          (SelectionManager.selectedFeatures
             (selectionManager (snd (handleClick turf features rndSel rndHandle o c))))
          (SelectionManager.featureIdOf (hit g) (rndSel j)) = true)
  /\ SelectionManager.countCurrent
       (selectionManager (snd (handleClick turf features rndSel rndHandle o c)))
     <= SelectionManager.countCurrent (selectionManager c).
Proof.
  assert (B : (List.length features =? 0) && negb (multiSelect o) = false).
  { rewrite M. apply Bool.andb_false_r. }
  rewrite (selectionManager_handleClick features rndSel rndHandle o c D B), M.
  unfold selectHits. cbn [negb].
  split; [|split].
  - intros k H. now apply has_selectEach.
  - intros j g H. exact (hits_selectEach true rndSel features 0 _ j g H).
  - apply count_selectEach_multi.
Qed.

(** X23: no click makes the SelectionTool of selection-tool.ts remove a
    handle: with [this.handles] empty, every id registered in the handle
    manager before the click is registered after it.  A click while a drag
    box is open changes nothing at all.  A click on no feature, outside
    multi-select mode, empties the selection but leaves the tool and the
    handle manager untouched, so the handles drawn for the old selection
    stay. *)
Theorem X23_click_never_removes_a_handle features rndSel rndHandle o c
  (H : BaseTool.handles (SelectionTool.base (tool o)) = []) :
  BaseTool.handles
    (SelectionTool.base (tool (fst (handleClick turf features rndSel rndHandle o c))))
  = []
  /\ (forall k,
        JSMap.has String.eqb (HandleManager.handles (handleManager c)) k = true ->
        JSMap.has String.eqb
          (HandleManager.handles
             (handleManager (snd (handleClick turf features rndSel rndHandle o c)))) k
        = true)
  /\ (dragStart o <> None ->
      handleClick turf features rndSel rndHandle o c = (o, c))
  /\ (dragStart o = None -> multiSelect o = false -> features = [] ->
      fst (handleClick turf features rndSel rndHandle o c) = o
      /\ handleManager (snd (handleClick turf features rndSel rndHandle o c))
         = handleManager c
      /\ SelectionManager.getSelection
           (selectionManager (snd (handleClick turf features rndSel rndHandle o c)))
         = []
      /\ SelectionManager.getSelectionBounds
           (selectionManager (snd (handleClick turf features rndSel rndHandle o c)))
         = None).
Proof.
  unfold handleClick.
  destruct (dragStart o) as [p|] eqn:D.
  { repeat split; auto; discriminate. }
  destruct ((List.length features =? 0) && negb (multiSelect o)) eqn:B.
  { cbn [fst snd handleManager withSelectionManager selectionManager].
    repeat split; auto; congruence. }
  pose proof (regenerate_keeps rndHandle (tool o)
                (withSelectionManager
                   (selectHits turf (multiSelect o) rndSel features (selectionManager c))
                   c) H) as (K1 & K2 & _).
  destruct (SelectionTool.createHandlesForSelection rndHandle (tool o) _).
  cbn [fst snd tool] in *.
  split; [exact K1|split; [exact K2|split; [congruence|]]].
  intros _ M ->. rewrite M in B. discriminate.
Qed.

End Clicks.

Lemma X21_witness :
  SelectionManager.countCurrent
    (selectionManager
       (snd (handleClick Examples.exampleTurf ([] ++ [ClickExamples.hitA])
               ToolExamples.draws ToolExamples.draws ClickExamples.singleTool
               ToolExamples.ctx0)))
  = 1.
Proof.
  exact (proj1 (proj2 (proj2
           (X21_click_selects_the_clicked_features_only Examples.exampleTurf []
              ClickExamples.hitA ToolExamples.draws ToolExamples.draws
              ClickExamples.singleTool ToolExamples.ctx0 eq_refl eq_refl)))).
Defined.

Lemma X22_witness :
  SelectionManager.countCurrent
    (selectionManager
       (snd (handleClick Examples.exampleTurf [ClickExamples.hitA]
               ToolExamples.draws ToolExamples.draws ClickExamples.multiTool
               ToolExamples.ctx0)))
  <= SelectionManager.countCurrent (selectionManager ToolExamples.ctx0).
Proof.
  exact (proj2 (proj2
           (X22_multi_select_click_adds_to_the_selection Examples.exampleTurf
              [ClickExamples.hitA] ToolExamples.draws ToolExamples.draws
              ClickExamples.multiTool ToolExamples.ctx0 eq_refl eq_refl))).
Defined.

Lemma X23_witness :
  BaseTool.handles
    (SelectionTool.base
       (tool (fst (handleClick Examples.exampleTurf [ClickExamples.hitA]
                     ToolExamples.draws ToolExamples.draws ClickExamples.singleTool
                     ToolExamples.ctx0))))
  = [].
Proof.
  exact (proj1
           (X23_click_never_removes_a_handle Examples.exampleTurf
              [ClickExamples.hitA] ToolExamples.draws ToolExamples.draws
              ClickExamples.singleTool ToolExamples.ctx0 eq_refl)).
Defined.

End SelectionToolMore.

(** ** The earlier SelectionTool (end of src/lib/tools/BaseTool.ts) *)

Module SelectionToolBundledMore.
Import HandleManager.

Lemma has_set_same (m : JSMap.t string Ref) k v :
  JSMap.has String.eqb (JSMap.set String.eqb m k v) k = true.
Proof.
  unfold JSMap.has. now rewrite JSMapFacts.get_set_same by apply String.eqb_refl.
Qed.

Lemma NoDup_fold_delete (m : JSMap.t string Ref) ks :
  NoDup (JSMap.keys m) ->
  NoDup (JSMap.keys (fold_left (fun m i => JSMap.delete String.eqb m i) ks m)).
Proof.
  revert m. induction ks as [|k ks IH]; intros m N; cbn [fold_left]; [exact N|].
  apply IH. now apply JSMapMore.NoDup_keys_delete.
Qed.

(** Regeneration removes from the manager every handle the tool holds,
    unless its id is drawn again. *)
Lemma regenerate_removes rnd o c k :
  NoDup (JSMap.keys (handles (handleManager c))) ->
  (exists r h, In r (BaseTool.handles o)
               /\ deref (handleManager c) r = Some h /\ id h = k) ->
  ~ In k (map (fun i => generateId (rnd i)) (seq 0 9)) ->
  getHandle k
    (handleManager (snd (SelectionToolBundled.createHandlesForSelection rnd o c)))
  = None.
Proof.
  intros N (r & h & I & D & <-) Fresh.
  unfold SelectionToolBundled.createHandlesForSelection, BaseTool.clearHandles.
  destruct (BaseToolMore.clear_loop (BaseTool.handles o) (handleManager c))
    as (_ & H2 & _).
  assert (G0 : JSMap.get String.eqb
                 (handles
                    (fold_left
                       (fun s r => match deref s r with
                                   | Some h => snd (removeHandle (id h) s)
                                   | None => s
                                   end) (BaseTool.handles o) (handleManager c)))
                 (id h) = None).
  { rewrite H2. apply BaseToolMore.get_fold_delete; [exact N|].
    apply in_flat_map. exists r. rewrite D. split; [exact I|now left]. }
  clear H2.
  set (hm0 := fold_left _ (BaseTool.handles o) (handleManager c)) in *.
  cbn [selectionManager withHandleManager].
  destruct (SelectionManager.getSelectionBounds (selectionManager c)) as [b|];
    [|exact G0].
  repeat match goal with
         | |- context [SelectionToolBundled.addHandle ?t ?s ?p ?r ?o1 ?c0] =>
             let M := fresh "M" in
             pose proof (SelectionToolFacts.addHandle_bundled_spec t s p r o1 c0)
               as (_ & _ & _ & M);
             destruct (SelectionToolBundled.addHandle t s p r o1 c0) as [? [? ?]];
             cbn [fst snd] in *
         end.
  unfold getHandle.
  repeat match goal with
         | M : HandleManager.handles _ = _ |- _ => rewrite M; clear M
         end.
  cbn [handleManager withHandleManager].
  cbn [map seq In] in Fresh.
  repeat (rewrite (JSMapMore.get_set_other _ _ _ String.eqb_eq)
            by (intro Q; apply Fresh; rewrite Q; tauto)).
  exact G0.
Qed.

(** After a regeneration from bounds, the tool holds the handles with the
    ids just drawn, and the keys of the manager are still distinct. *)
Lemma regenerate_holds rnd o c :
  SelectionManager.getSelectionBounds (selectionManager c) <> None ->
  NoDup (JSMap.keys (handles (handleManager c))) ->
  (forall k,
      In k (map (fun i => generateId (rnd i)) (seq 0 9)) ->
      exists r h,
        In r (BaseTool.handles
                (fst (SelectionToolBundled.createHandlesForSelection rnd o c)))
        /\ deref (handleManager
                    (snd (SelectionToolBundled.createHandlesForSelection rnd o c))) r
           = Some h
        /\ id h = k)
  /\ NoDup (JSMap.keys
              (handles
                 (handleManager
                    (snd (SelectionToolBundled.createHandlesForSelection rnd o c)))))
  /\ (forall k,
        In k (map (fun i => generateId (rnd i)) (seq 0 9)) ->
        JSMap.has String.eqb
          (handles
             (handleManager
                (snd (SelectionToolBundled.createHandlesForSelection rnd o c)))) k
        = true).
Proof.
  intros B N.
  unfold SelectionToolBundled.createHandlesForSelection, BaseTool.clearHandles.
  destruct (BaseToolMore.clear_loop (BaseTool.handles o) (handleManager c))
    as (_ & H2 & _).
  assert (N0 : NoDup (JSMap.keys
                        (handles
                           (fold_left
                              (fun s r => match deref s r with
                                          | Some h => snd (removeHandle (id h) s)
                                          | None => s
                                          end) (BaseTool.handles o) (handleManager c))))).
  { rewrite H2. now apply NoDup_fold_delete. }
  clear H2.
  set (hm0 := fold_left _ (BaseTool.handles o) (handleManager c)) in *.
  cbn [selectionManager withHandleManager].
  destruct (SelectionManager.getSelectionBounds (selectionManager c)) as [b|];
    [|contradiction].
  repeat match goal with
         | |- context [SelectionToolBundled.addHandle ?t ?s ?p ?r ?o1 ?c0] =>
             let E := fresh "E" in
             let F := fresh "F" in
             let M := fresh "M" in
             pose proof (SelectionToolFacts.addHandle_bundled_spec t s p r o1 c0)
               as (E & ? & F & M);
             destruct (SelectionToolBundled.addHandle t s p r o1 c0) as [? [? ?]];
             cbn [fst snd] in *
         end.
  SelectionToolFacts.carry_over.
  split; [|split].
  - repeat match goal with
           | F : BaseTool.handles _ = _ |- _ => rewrite F; clear F
           end.
    cbn [BaseTool.handles BaseTool.withHandles app map seq In].
    intros k K.
    repeat (destruct K as [K|K]; [subst k;
      match goal with
      | D : deref _ ?r = Some ?h |- _ =>
          exists r, h; split; [|split; [exact D|reflexivity]]; tauto
      end|]).
    destruct K.
  - repeat match goal with
           | M : HandleManager.handles _ = _ |- _ => rewrite M; clear M
           end.
    cbn [handleManager withHandleManager].
    repeat (apply JSMapMore.NoDup_keys_set; [apply String.eqb_eq|]).
    exact N0.
  - repeat match goal with
           | M : HandleManager.handles _ = _ |- _ => rewrite M; clear M
           end.
    cbn [handleManager withHandleManager map seq In].
    intros k K.
    repeat (destruct K as [K|K]; [subst k;
      repeat first [apply has_set_same | apply SelectionToolMore.has_set_mono]|]).
    destruct K.
Qed.

(** X24: the earlier SelectionTool keeps the handles it creates in
    [this.handles].  So when it regenerates its handles a second time,
    whatever the selection has become, every handle of the first
    regeneration is removed from the handle manager, unless the second
    regeneration draws the same id again. *)
Theorem X24_bundled_regeneration_replaces_the_handles rnd1 rnd2 o c sm2 k
  (B : SelectionManager.getSelectionBounds (selectionManager c) <> None)
  (N : NoDup (JSMap.keys (handles (handleManager c))))
  (K1 : In k (map (fun i => generateId (rnd1 i)) (seq 0 9)))
  (K2 : ~ In k (map (fun i => generateId (rnd2 i)) (seq 0 9))) :
  getHandle k
    (handleManager (snd (SelectionToolBundled.createHandlesForSelection rnd1 o c)))
  <> None
  /\ getHandle k
       (handleManager
          (snd (SelectionToolBundled.createHandlesForSelection rnd2
                  (fst (SelectionToolBundled.createHandlesForSelection rnd1 o c))
                  (SelectionToolClick.withSelectionManager sm2
                     (snd (SelectionToolBundled.createHandlesForSelection rnd1 o c))))))
     = None.
Proof.
  destruct (regenerate_holds rnd1 o c B N) as (H & N1 & S). split.
  - pose proof (S k K1) as Q. unfold JSMap.has in Q. unfold getHandle.
    destruct (JSMap.get String.eqb _ k); [discriminate|discriminate Q].
  - apply regenerate_removes; [exact N1 | exact (H k K1) | exact K2].
Qed.

Lemma X24_witness :
  getHandle "handle-a"
    (handleManager
       (snd (SelectionToolBundled.createHandlesForSelection
               (fun i => ToolExamples.draws (i + 9))
               (fst (SelectionToolBundled.createHandlesForSelection ToolExamples.draws
                       (BaseTool.new "a") ToolExamples.ctx0))
               (SelectionToolClick.withSelectionManager
                  (selectionManager ToolExamples.ctx0)
                  (snd (SelectionToolBundled.createHandlesForSelection ToolExamples.draws
                          (BaseTool.new "a") ToolExamples.ctx0))))))
  = None.
Proof.
  assert (B : SelectionManager.getSelectionBounds (selectionManager ToolExamples.ctx0)
              <> None) by (vm_compute; discriminate).
  assert (N : NoDup (JSMap.keys (handles (handleManager ToolExamples.ctx0))))
    by (vm_compute; constructor).
  assert (K1 : In "handle-a"%string
                 (map (fun i => generateId (ToolExamples.draws i)) (seq 0 9)))
    by (vm_compute; tauto).
  assert (K2 : ~ In "handle-a"%string
                 (map (fun i => generateId (ToolExamples.draws (i + 9))) (seq 0 9))).
  { vm_compute. intro H. repeat (destruct H as [H|H]; [discriminate H|]). exact H. }
  exact (proj2 (X24_bundled_regeneration_replaces_the_handles ToolExamples.draws
                  (fun i => ToolExamples.draws (i + 9)) (BaseTool.new "a")
                  ToolExamples.ctx0 (selectionManager ToolExamples.ctx0)
                  "handle-a"%string B N K1 K2)).
Defined.

End SelectionToolBundledMore.

(** ** BaseTool: the life cycle of a tool *)

Module BaseToolLifecycle.

(** X25: an inactive tool that is activated and then deactivated.
    [activate] makes it active, shows its cursor and emits one [activate]
    event; a second [activate] does nothing.  [deactivate] then brings the
    tool back to what it was, with an empty handle list, emits one
    [deactivate] event and leaves the canvas cursor empty (not the cursor
    shown before the activation); a second [deactivate] does nothing. *)
Theorem X25_activate_then_deactivate self o c
  (H : BaseTool.state o = inactive) :
  BaseTool.state (fst (BaseTool.activate self o c)) = active
  /\ canvasCursor (snd (BaseTool.activate self o c)) = BaseTool.cursor o
  /\ BaseTool.activate self (fst (BaseTool.activate self o c))
       (snd (BaseTool.activate self o c))
     = BaseTool.activate self o c
  /\ fst (BaseTool.deactivate self (fst (BaseTool.activate self o c))
            (snd (BaseTool.activate self o c)))
     = BaseTool.withHandles [] o
  /\ canvasCursor
       (snd (BaseTool.deactivate self (fst (BaseTool.activate self o c))
               (snd (BaseTool.activate self o c))))
     = ""%string
  /\ emitted
       (snd (BaseTool.deactivate self (fst (BaseTool.activate self o c))
               (snd (BaseTool.activate self o c))))
     = emitted c
       ++ [{| te_type := activate_ev; te_tool := self; te_state := active |};
           {| te_type := deactivate_ev; te_tool := self; te_state := inactive |}]
  /\ BaseTool.deactivate self
       (fst (BaseTool.deactivate self (fst (BaseTool.activate self o c))
               (snd (BaseTool.activate self o c))))
       (snd (BaseTool.deactivate self (fst (BaseTool.activate self o c))
               (snd (BaseTool.activate self o c))))
     = BaseTool.deactivate self (fst (BaseTool.activate self o c))
         (snd (BaseTool.activate self o c)).
Proof.
  assert (A : BaseTool.activate self o c
              = (BaseTool.withState active o,
                 BaseTool.emitEvent (BaseTool.withState active o) activate_ev
                   {| te_type := activate_ev; te_tool := self; te_state := active |}
                   (withCursor (BaseTool.cursor o) c))).
  { unfold BaseTool.activate. now rewrite H. }
  rewrite A. cbn [fst snd].
  unfold BaseTool.activate, BaseTool.deactivate, BaseTool.clearHandles.
  cbn. repeat split.
  - destruct o; cbn in *. now subst.
  - now rewrite <- app_assoc.
Qed.

Lemma X25_witness :
  BaseTool.state (fst (BaseTool.activate 0 (BaseTool.new "a") ToolExamples.ctx0))
  = active.
Proof.
  exact (proj1 (X25_activate_then_deactivate 0 (BaseTool.new "a") ToolExamples.ctx0
                  eq_refl)).
Defined.

End BaseToolLifecycle.
